(** * WordPress operator: the reconciliation core of [src/charm.py]

    A shallow embedding of the charm's event handlers, of the validator
    [is_valid_config], of the install gate [on_wordpress_uninitialised] and of
    the secret store helpers, with the properties the specification states
    about them.

    Python [str] values are modelled as [string] (one [ascii] per character,
    code points below 256), Python sets of strings as [gset string] and the
    leadership settings as a [gmap string pyval]. *)

From stdpp Require Import gmap strings list fin_maps relations.
From Stdlib Require Import Ascii NArith ZArith Lia.
From Stdlib Require String.

(** ** Python values *)

(** The values that the charm stores in [StoredState] and in the leadership
    settings: [None], booleans and strings. *)
Inductive pyval :=
  | PNone
  | PBool (b : bool)
  | PInt (n : Z)
  | PStr (s : string).

Global Instance pyval_eq_dec : EqDecision pyval.
Proof. solve_decision. Defined.

(** Python truthiness ([bool(v)]). *)
Definition truthy (v : pyval) : bool :=
  match v with
  | PNone => false
  | PBool b => b
  | PInt n => negb (n =? 0)%Z
  | PStr s => negb (String.eqb s "")
  end.

(** [v or None] for a string [v]. *)
Definition or_none (s : string) : pyval :=
  if String.eqb s "" then PNone else PStr s.

(** [v is None]. *)
Definition is_none (v : pyval) : bool :=
  match v with PNone => true | _ => false end.

(** [all(vs)] and [any(vs)] on a sequence of values. *)
Definition py_all (vs : list pyval) : bool := forallb truthy vs.
Definition py_any (vs : list pyval) : bool := existsb truthy vs.

(** ** Strings *)

Module Str.

(** [str.isspace] on one character (code points below 256). *)
Definition isspace (a : ascii) : bool :=
  let n := N_of_ascii a in
  ((9 <=? n) && (n <=? 13) || (28 <=? n) && (n <=? 32)
   || (n =? 133) || (n =? 160))%N.

(** [s.rstrip()]: drop the trailing whitespace. *)
Fixpoint rstrip (s : string) : string :=
  match s with
  | EmptyString => EmptyString
  | String a s' =>
      let r := rstrip s' in
      if String.eqb r "" && isspace a then EmptyString else String a r
  end.

(** [s.lstrip()] and [s.strip()]. *)
Fixpoint lstrip (s : string) : string :=
  match s with
  | EmptyString => EmptyString
  | String a s' => if isspace a then lstrip s' else s
  end.

Definition strip (s : string) : string := lstrip (rstrip s).

(** [s.startswith(p)]. *)
Fixpoint startswith (p s : string) : bool :=
  match p, s with
  | EmptyString, _ => true
  | String a p', String b s' => Ascii.eqb a b && startswith p' s'
  | String _ _, EmptyString => false
  end.

Fixpoint drop (n : nat) (s : string) : string :=
  match n, s with
  | O, _ => s
  | S k, String _ s' => drop k s'
  | S _, EmptyString => EmptyString
  end.

(** Put a character in front of the first piece of a list of pieces. *)
Definition cons_head (a : ascii) (l : list string) : list string :=
  match l with
  | h :: t => String a h :: t
  | [] => [String a EmptyString]
  end.

(** A separator of [str.split]: Python raises [ValueError] on the empty
    separator, which this type leaves out. *)
Record sep := Sep { sep_head : ascii; sep_tail : string }.

Definition sep_string (p : sep) : string := String (sep_head p) (sep_tail p).

(** [s.split(sep)]: cut at every occurrence of the separator, left to
    right, occurrences not overlapping; [skip] counts the characters of
    the occurrence being passed over. *)
Fixpoint split_go (p : sep) (skip : nat) (s : string) : list string :=
  match s with
  | EmptyString => [EmptyString]
  | String a s' =>
      match skip with
      | S k => split_go p k s'
      | O =>
          if Ascii.eqb a (sep_head p) && startswith (sep_tail p) s'
          then EmptyString :: split_go p (String.length (sep_tail p)) s'
          else cons_head a (split_go p 0 s')
      end
  end.

Definition split (s : string) (p : sep) : list string := split_go p 0 s.

(** [sep.join(l)]. *)
Fixpoint join (p : string) (l : list string) : string :=
  match l with
  | [] => EmptyString
  | [x] => x
  | x :: l' => x +:+ p +:+ join p l'
  end.

(** Cut at every character satisfying [p], keeping the empty pieces. *)
Fixpoint fields (p : ascii -> bool) (s : string) : list string :=
  match s with
  | EmptyString => [EmptyString]
  | String a s' =>
      if p a then EmptyString :: fields p s' else cons_head a (fields p s')
  end.

Definition nonempty (s : string) : bool := negb (String.eqb s "").

(** [s.split()] without argument: the runs of characters that are not
    whitespace. *)
Definition words (s : string) : list string :=
  List.filter nonempty (fields isspace s).

(** Membership of a character in a string. *)
Fixpoint mem (a : ascii) (s : string) : bool :=
  match s with
  | EmptyString => false
  | String b s' => Ascii.eqb a b || mem a s'
  end.

(** The string without its last character and that character. *)
Fixpoint unsnoc (s : string) : option (string * ascii) :=
  match s with
  | EmptyString => None
  | String a s' =>
      match unsnoc s' with
      | None => Some (EmptyString, a)
      | Some (r, z) => Some (String a r, z)
      end
  end.

End Str.

(** ** Regular expressions *)

Module Re.

(** A character class is a list of inclusive ranges; a literal character
    [c] is the range [(c, c)]. *)
Definition cls := list (ascii * ascii).

Definition in_range (a : ascii) (r : ascii * ascii) : bool :=
  (N_of_ascii (fst r) <=? N_of_ascii a)%N && (N_of_ascii a <=? N_of_ascii (snd r))%N.

Definition in_cls (a : ascii) (c : cls) : bool := existsb (in_range a) c.

Inductive regex :=
  | Void
  | Eps
  | Set_ (c : cls)
  | Cat (r1 r2 : regex)
  | Alt (r1 r2 : regex)
  | Star (r : regex).

(** [r+] and [r{2,}]. *)
Definition Plus (r : regex) : regex := Cat r (Star r).
Definition AtLeast2 (r : regex) : regex := Cat r (Cat r (Star r)).

Fixpoint nullable (r : regex) : bool :=
  match r with
  | Void => false
  | Eps => true
  | Set_ _ => false
  | Cat r1 r2 => nullable r1 && nullable r2
  | Alt r1 r2 => nullable r1 || nullable r2
  | Star _ => true
  end.

(** The derivative of [r] by the character [a]. *)
Fixpoint deriv (a : ascii) (r : regex) : regex :=
  match r with
  | Void => Void
  | Eps => Void
  | Set_ c => if in_cls a c then Eps else Void
  | Cat r1 r2 =>
      Alt (Cat (deriv a r1) r2) (if nullable r1 then deriv a r2 else Void)
  | Alt r1 r2 => Alt (deriv a r1) (deriv a r2)
  | Star r1 => Cat (deriv a r1) (Star r1)
  end.

(** [r] matches the whole of [s]. *)
Fixpoint accepts (r : regex) (s : string) : bool :=
  match s with
  | EmptyString => nullable r
  | String a s' => accepts (deriv a r) s'
  end.

(** [re.match("^" body "$", s) is not None]: without [re.MULTILINE] the
    [$] matches at the end of the string and just before a newline that
    ends the string. *)
Definition match_anchored (body : regex) (s : string) : bool :=
  accepts body s
  || match Str.unsnoc s with
     | Some (s', z) => Ascii.eqb z "010"%char && accepts body s'
     | None => false
     end.

(** The characters that occur in a class of [r]. *)
Fixpoint alphabet (r : regex) (a : ascii) : bool :=
  match r with
  | Void | Eps => false
  | Set_ c => in_cls a c
  | Cat r1 r2 | Alt r1 r2 => alphabet r1 a || alphabet r2 a
  | Star r1 => alphabet r1 a
  end.

(** A syntactic criterion for matching no string at all. *)
Fixpoint dead (r : regex) : bool :=
  match r with
  | Void => true
  | Eps | Set_ _ | Star _ => false
  | Cat r1 r2 => dead r1 || dead r2
  | Alt r1 r2 => dead r1 && dead r2
  end.

End Re.

(** The pattern of [is_valid_config]:
    [^([a-z0-9]+(-[a-z0-9]+)*\.)+[a-z]{2,}$], without its anchors. *)
Definition alnum : Re.regex := Re.Set_ [("a", "z"); ("0", "9")]%char.
Definition lower : Re.regex := Re.Set_ [("a", "z")]%char.
Definition hyphen : Re.regex := Re.Set_ [("-", "-")]%char.
Definition dot : Re.regex := Re.Set_ [(".", ".")]%char.

Definition domain_label : Re.regex :=
  Re.Cat (Re.Plus alnum) (Re.Star (Re.Cat hyphen (Re.Plus alnum))).

Definition valid_domain_name_pattern : Re.regex :=
  Re.Cat (Re.Plus (Re.Cat domain_label dot)) (Re.AtLeast2 lower).

(** [re.match(valid_domain_name_pattern, h)] as a boolean. *)
Definition hostname_match (h : string) : bool :=
  Re.match_anchored valid_domain_name_pattern h.

(** [juju_setting_to_list(config_string, split_char=" ")]. *)
Definition default_split_char : Str.sep := Str.Sep " "%char "".

Definition juju_setting_to_list (config_string : string) (split_char : Str.sep)
  : list string :=
  Str.split config_string split_char.

(** ** Declared configuration *)

(** The options of the charm ([self.model.config]).  The options read with
    [config[k]] are always present; those read with [config.get(k)] may be
    absent. *)
Module Config.
Record t := mk {
  db_host : string;
  db_name : string;
  db_user : string;
  db_password : string;
  blog_hostname : string;
  tls_secret_name : string;
  additional_hostnames : string;
  container_config : string;
  image : string;
  initial_settings : option string;
  wp_plugin_openid_team_map : option string;
  wp_plugin_akismet_key : option string;
  wp_plugin_openstack_objectstorage_config : option string;
}.

Definition opt_item (k : string) (v : option string) : list (string * string) :=
  match v with Some s => [(k, s)] | None => [] end.

(** [config.items()]. *)
Definition items (c : t) : list (string * string) :=
  [("db_host", db_host c); ("db_name", db_name c); ("db_user", db_user c);
   ("db_password", db_password c); ("blog_hostname", blog_hostname c);
   ("tls_secret_name", tls_secret_name c);
   ("additional_hostnames", additional_hostnames c);
   ("container_config", container_config c); ("image", image c)]
  ++ opt_item "initial_settings" (initial_settings c)
  ++ opt_item "wp_plugin_openid_team_map" (wp_plugin_openid_team_map c)
  ++ opt_item "wp_plugin_akismet_key" (wp_plugin_akismet_key c)
  ++ opt_item "wp_plugin_openstack-objectstorage_config"
       (wp_plugin_openstack_objectstorage_config c).

(** [config[k]] for the keys that [is_valid_config] asks for. *)
Definition getitem (c : t) (k : string) : string :=
  default "" (snd <$> List.find (fun kv => String.eqb (fst kv) k) (items c)).

Definition set_additional_hostnames (h : string) (c : t) : t :=
  mk (db_host c) (db_name c) (db_user c) (db_password c) (blog_hostname c)
     (tls_secret_name c) h (container_config c) (image c)
     (initial_settings c) (wp_plugin_openid_team_map c)
     (wp_plugin_akismet_key c) (wp_plugin_openstack_objectstorage_config c).
End Config.

(** [config.get(k)] as a Python value. *)
Definition opt_val (v : option string) : pyval :=
  match v with Some s => PStr s | None => PNone end.

(** ** Events, statuses and observable effects *)

Inductive Event :=
  | WordpressPebbleReady
  | ConfigChanged
  | LeaderElected
  | GetInitialPasswordAction
  | DbRelationCreated
  | DbRelationBroken
  | DatabaseChanged (host database user password : pyval)
  | WordpressStaticDatabaseChanged
  | IngressRelationChanged
  | IngressRelationCreated
  | IngressRelationBroken
  | WordpressInitialSetup.

Global Instance Event_eq_dec : EqDecision Event.
Proof. solve_decision. Defined.

(** The events that only the charm itself emits. *)
Definition is_custom (e : Event) : bool :=
  match e with
  | WordpressStaticDatabaseChanged | WordpressInitialSetup => true
  | _ => false
  end.

Inductive Status :=
  | ActiveStatus (msg : string)
  | BlockedStatus (msg : string)
  | MaintenanceStatus (msg : string)
  | WaitingStatus (msg : string).

Global Instance Status_eq_dec : EqDecision Status.
Proof. solve_decision. Defined.

(** One service of a Pebble layer. *)
Record Service := mkService {
  svc_override : string;
  svc_summary : string;
  svc_command : string;
  svc_startup : string;
  svc_requires : list string;
  svc_after : list string;
  svc_before : list string;
  svc_environment : gmap string pyval;
}.

Global Instance Service_eq_dec : EqDecision Service.
Proof. solve_decision. Defined.

(** What a handler does to its collaborators, in the order it does it. *)
Inductive Effect :=
  | SetStatus (s : Status)
  | Emitted (e : Event)
  | PushFile (dst : string) (permissions : N)
  | AddLayer (name : string) (services : gmap string Service)
  | StopService (name : string)
  | Autostart
  | StartServices (names : list string)
  | WaitChange
  | IngressUpdate (cfg : gmap string pyval)
  | ActionSetResults (results : list (string * pyval))
  | ActionFail (msg : string).

Global Instance Effect_eq_dec : EqDecision Effect.
Proof. solve_decision. Defined.

(** ** Persisted state *)

Module State.
(** The attributes of [self.state] ([StoredState]). *)
Record t := mk {
  installed_successfully : pyval;
  install_state : gset string;
  has_db_relation : bool;
  has_ingress_relation : bool;
  db_host : pyval;
  db_name : pyval;
  db_user : pyval;
  db_password : pyval;
  attempted_install : option bool;
}.

Definition set_installed_successfully (v : pyval) (s : t) : t :=
  mk v (install_state s) (has_db_relation s) (has_ingress_relation s)
     (db_host s) (db_name s) (db_user s) (db_password s) (attempted_install s).

Definition set_install_state (x : gset string) (s : t) : t :=
  mk (installed_successfully s) x (has_db_relation s) (has_ingress_relation s)
     (db_host s) (db_name s) (db_user s) (db_password s) (attempted_install s).

Definition set_has_db_relation (b : bool) (s : t) : t :=
  mk (installed_successfully s) (install_state s) b (has_ingress_relation s)
     (db_host s) (db_name s) (db_user s) (db_password s) (attempted_install s).

Definition set_has_ingress_relation (b : bool) (s : t) : t :=
  mk (installed_successfully s) (install_state s) (has_db_relation s) b
     (db_host s) (db_name s) (db_user s) (db_password s) (attempted_install s).

Definition set_db (h n u p : pyval) (s : t) : t :=
  mk (installed_successfully s) (install_state s) (has_db_relation s)
     (has_ingress_relation s) h n u p (attempted_install s).

Definition set_attempted_install (b : bool) (s : t) : t :=
  mk (installed_successfully s) (install_state s) (has_db_relation s)
     (has_ingress_relation s) (db_host s) (db_name s) (db_user s)
     (db_password s) (Some b).

(** [self.state.set_default(...)] of [__init__], on a fresh unit. *)
Definition init (c : Config.t) : t :=
  mk (PBool false) ∅ false false
     (or_none (Config.db_host c)) (or_none (Config.db_name c))
     (or_none (Config.db_user c)) (or_none (Config.db_password c)) None.
End State.

(** The workload container as Pebble shows it. *)
Record Container := mkContainer {
  plan_services : gmap string Service;
  running : gset string;
  files : list (string * N);
}.

(** ** Leadership settings *)

(** Modelled from the spec: [LeadershipSettings] (module [leadership], not
    part of the sources at hand).  A key-value store replicated to every
    unit; reading a key that was never set gives [None] and does not raise
    (spec 4.3 and 7, and the comment in [_generate_wordpress_secrets]);
    the other mapping methods are those of a Python dict. *)
Module LeadershipSettings.
(** [ld[k]] and [ld.get(k)]. *)
Definition getitem (ld : gmap string pyval) (k : string) : pyval := default PNone (ld !! k).
Definition get (ld : gmap string pyval) (k : string) : pyval := default PNone (ld !! k).

(** [k in ld]. *)
Definition contains (ld : gmap string pyval) (k : string) : bool := bool_decide (is_Some (ld !! k)).

(** [ld[k] = v]. *)
Definition setitem (k : string) (v : pyval) (ld : gmap string pyval) : gmap string pyval := <[k := v]> ld.

(** [ld.setdefault(k, d)]: the value and the store afterwards. *)
Definition setdefault (ld : gmap string pyval) (k : string) (d : pyval) : pyval * gmap string pyval :=
  match ld !! k with
  | Some v => (v, ld)
  | None => (d, <[k := d]> ld)
  end.
End LeadershipSettings.

(** ** The world of one unit *)

Record World := mkWorld {
  state : State.t;
  leader_data : gmap string pyval;
  container : Container;
  trace : list Effect;
  draws : nat;
}.

Definition set_state (f : State.t -> State.t) (w : World) : World :=
  mkWorld (f (state w)) (leader_data w) (container w) (trace w) (draws w).

Definition set_leader_data (f : gmap string pyval -> gmap string pyval) (w : World) : World :=
  mkWorld (state w) (f (leader_data w)) (container w) (trace w) (draws w).

Definition set_container (f : Container -> Container) (w : World) : World :=
  mkWorld (state w) (leader_data w) (f (container w)) (trace w) (draws w).

Definition log (e : Effect) (w : World) : World :=
  mkWorld (state w) (leader_data w) (container w) (trace w ++ [e]) (draws w).

Definition next_draw (w : World) : World :=
  mkWorld (state w) (leader_data w) (container w) (trace w) (S (draws w)).

(** What the unit is given for the length of one hook: the declared
    configuration, whether it is the leader, and the collaborators that the
    charm imports ([wordpress], [yaml]). *)
Record Env := mkEnv {
  config : Config.t;
  is_leader : bool;
  app_name : string;
  WORDPRESS_SECRETS : list string;
  (** [password_generator(length)], [None] for the default length; the
      second argument numbers the draws. *)
  password_generator : option nat -> nat -> string;
  (** [Wordpress.first_install(password)]. *)
  first_install : pyval -> bool;
  (** [yaml.safe_load] of a mapping. *)
  safe_load : string -> gmap string pyval;
}.

(** ** Helpers on Python objects *)

(** [x is True] and [x is False]. *)
Definition is_True (v : pyval) : bool := bool_decide (v = PBool true).
Definition is_False (v : pyval) : bool := bool_decide (v = PBool false).

(** [d.update(l)] for a dict [d] and the items [l] of another dict. *)
Definition dict_update (l : list (string * pyval)) (d : gmap string pyval)
  : gmap string pyval :=
  foldl (fun m kv => <[fst kv := snd kv]> m) d l.

(** [d.get(k)]. *)
Definition dict_get (d : gmap string pyval) (k : string) : pyval :=
  default PNone (d !! k).

(** The elements of the sets that [on_database_config_changed] builds: plain
    values, and the [dict_values] view of a dict, which Python compares by
    identity, so that it equals no plain value and no other view. *)
Inductive pyobj :=
  | OVal (v : pyval)
  | ODictValues (vs : list pyval).

Definition pyobj_eqb (x y : pyobj) : bool :=
  match x, y with
  | OVal a, OVal b => bool_decide (a = b)
  | _, _ => false
  end.

(** A set literal [{x1, ..., xn}], as the list of its distinct elements. *)
Fixpoint py_set (l : list pyobj) : list pyobj :=
  match l with
  | [] => []
  | x :: l' => if existsb (pyobj_eqb x) l' then py_set l' else x :: py_set l'
  end.

(** [a.difference(b)]. *)
Definition py_difference (a b : list pyobj) : list pyobj :=
  List.filter (fun x => negb (existsb (pyobj_eqb x) b)) a.

Definition py_nonempty {A} (l : list A) : bool :=
  match l with [] => false | _ => true end.

(** ** Container operations *)

Record Layer := mkLayer {
  layer_summary : string;
  layer_description : string;
  layer_services : gmap string Service;
}.

(** [container.add_layer(name, layer, combine=True)]: the services of the
    layer replace those of the same name ([override: replace]). *)
Definition add_layer (name : string) (l : Layer) (w : World) : World :=
  log (AddLayer name (layer_services l))
    (set_container (fun c =>
       mkContainer (layer_services l ∪ plan_services c) (running c) (files c)) w).

Definition stop (name : string) (w : World) : World :=
  log (StopService name)
    (set_container (fun c =>
       mkContainer (plan_services c) (running c ∖ {[name]}) (files c)) w).

Definition push (dst : string) (permissions : N) (w : World) : World :=
  log (PushFile dst permissions)
    (set_container (fun c =>
       mkContainer (plan_services c) (running c) (files c ++ [(dst, permissions)])) w).

Definition enabled (p : string * Service) : Prop := svc_startup (snd p) = "enabled".

Definition autostart (w : World) : World :=
  log Autostart
    (set_container (fun c =>
       mkContainer (plan_services c)
         (running c ∪ dom (filter enabled (plan_services c))) (files c)) w).

Definition start_services (names : list string) (w : World) : World :=
  log (StartServices names)
    (set_container (fun c =>
       mkContainer (plan_services c) (running c ∪ list_to_set names) (files c)) w).

Definition wait_change (w : World) : World := log WaitChange w.

Definition set_status (s : Status) (w : World) : World := log (SetStatus s) w.

(** ** The charm *)

Definition container_name : string := "wordpress".
Definition service_port : Z := 80.

Definition ingress_config (env : Env) : gmap string pyval :=
  let ingress_config : gmap string pyval :=
    <["service-port" := PInt service_port]>
      (<["service-name" := PStr (app_name env)]>
         (<["service-hostname" := PStr (Config.blog_hostname (config env))]> ∅)) in
  let tls_secret_name := Config.tls_secret_name (config env) in
  if truthy (PStr tls_secret_name)
  then <["tls-secret-name" := PStr tls_secret_name]> ingress_config
  else ingress_config.

Definition _db_config (env : Env) (w : World) : list (string * pyval) :=
  if is_leader env then
    [("WORDPRESS_DB_HOST", State.db_host (state w));
     ("WORDPRESS_DB_NAME", State.db_name (state w));
     ("WORDPRESS_DB_USER", State.db_user (state w));
     ("WORDPRESS_DB_PASSWORD", State.db_password (state w))]
  else
    [("WORDPRESS_DB_HOST", LeadershipSettings.getitem (leader_data w) "db_host");
     ("WORDPRESS_DB_NAME", LeadershipSettings.getitem (leader_data w) "db_name");
     ("WORDPRESS_DB_USER", LeadershipSettings.getitem (leader_data w) "db_user");
     ("WORDPRESS_DB_PASSWORD", LeadershipSettings.getitem (leader_data w) "db_password")].

Definition _wordpress_secrets (env : Env) (w : World) : list (string * pyval) :=
  (fun secret => (secret, LeadershipSettings.get (leader_data w) secret))
    <$> WORDPRESS_SECRETS env.

Definition swift_keys : list (string * string) :=
  [("SWIFT_AUTH_URL", "auth-url"); ("SWIFT_BUCKET", "bucket");
   ("SWIFT_PASSWORD", "password"); ("SWIFT_PREFIX", "prefix");
   ("SWIFT_REGION", "region"); ("SWIFT_TENANT", "tenant");
   ("SWIFT_URL", "url"); ("SWIFT_USERNAME", "username");
   ("SWIFT_COPY_TO_SWIFT", "copy-to-swift");
   ("SWIFT_SERVE_FROM_SWIFT", "serve-from-swift");
   ("SWIFT_REMOVE_LOCAL_FILE", "remove-local-file")].

Definition _env_config (env : Env) (w : World) : gmap string pyval :=
  let config := config env in
  let env_config : gmap string pyval :=
    if truthy (PStr (Str.strip (Config.container_config config)))
    then safe_load env (Config.container_config config) else ∅ in
  let env_config := dict_update (_wordpress_secrets env w) env_config in
  let env_config :=
    if negb (truthy (PStr (Config.tls_secret_name config)))
    then <["WORDPRESS_TLS_DISABLED" := PStr "true"]> env_config else env_config in
  let env_config :=
    if truthy (opt_val (Config.wp_plugin_openid_team_map config))
    then <["WP_PLUGIN_OPENID_TEAM_MAP" := opt_val (Config.wp_plugin_openid_team_map config)]> env_config
    else env_config in
  let env_config :=
    if truthy (opt_val (Config.wp_plugin_akismet_key config))
    then <["WP_PLUGIN_AKISMET_KEY" := opt_val (Config.wp_plugin_akismet_key config)]> env_config
    else env_config in
  let env_config :=
    match Config.wp_plugin_openstack_objectstorage_config config with
    | Some s =>
        if truthy (PStr s) then
          let wp_plugin_swift_config := safe_load env s in
          dict_update
            ((fun kv => (fst kv, dict_get wp_plugin_swift_config (snd kv))) <$> swift_keys)
            env_config
        else env_config
    | None => env_config
    end in
  dict_update (_db_config env w) env_config.

Definition wordpress_workload (env : Env) (w : World) : Layer :=
  mkLayer "WordPress layer" "pebble config layer for WordPress"
    (<["wordpress-ready" :=
         mkService "replace" "WordPress plugin updater"
           "bash -c '/srv/wordpress-helpers/plugin_handler.py && stat /srv/wordpress-helpers/.ready && sleep infinity'"
           "enabled" [container_name] [container_name] [] (_env_config env w)]>
       (<[container_name :=
            mkService "replace" "WordPress service"
              "bash -c '/charm/bin/wordpressInit.sh >> /wordpressInit.log 2>&1'"
              "enabled" [] [] ["wordpress-ready"] (_env_config env w)]> ∅)).

(** The setup script that both [on_wordpress_initial_setup] and
    [on_config_changed] push: [/charm/bin/wordpressInit.sh], mode [0o755]. *)
Definition push_setup_script (w : World) : World :=
  push "/charm/bin/wordpressInit.sh" 493 w.

(** [is_valid_config]: the verdict, and the world with the statuses that the
    checks have set. *)
Definition is_valid_config (env : Env) (w : World) : bool * World :=
  let config := config env in
  let is_valid := true in
  let is_valid :=
    if is_False (State.installed_successfully (state w)) then false else is_valid in
  let '(is_valid, w) :=
    if negb (truthy (opt_val (Config.initial_settings config)))
    then (false, set_status (BlockedStatus "Missing initial_settings") w)
    else (is_valid, w) in
  let want := ["image"] in
  let db_state := snd <$> _db_config env w in
  let '(want, is_valid) :=
    if negb (py_all db_state)
    then (want ++ ["db_host"; "db_name"; "db_user"; "db_password"], false)
    else (want, is_valid) in
  let missing :=
    List.filter (fun k => String.eqb (Str.rstrip (Config.getitem config k)) "") want in
  let '(is_valid, w) :=
    if py_nonempty missing
    then
      let message := "Missing required config or relation: " +:+ Str.join " " missing in
      (false, set_status (BlockedStatus message) w)
    else (is_valid, w) in
  if truthy (PStr (Config.additional_hostnames config)) then
    let additional_hostnames :=
      juju_setting_to_list (Config.additional_hostnames config) default_split_char in
    let valid := hostname_match <$> additional_hostnames in
    if negb (forallb id valid)
    then
      let message :=
        "Invalid additional hostnames supplied: " +:+ Config.additional_hostnames config in
      (false, set_status (BlockedStatus message) w)
    else (is_valid, w)
  else (is_valid, w).

(** [_generate_wordpress_secrets]: the loop over [WORDPRESS_SECRETS]. *)
Definition generate_secret (env : Env) (acc : list (string * pyval) * World)
    (secret : string) : list (string * pyval) * World :=
  let '(wp_secrets, w) := acc in
  let w :=
    if negb (LeadershipSettings.contains (leader_data w) secret)
       || negb (truthy (LeadershipSettings.getitem (leader_data w) secret))
    then
      next_draw
        (set_leader_data
           (LeadershipSettings.setitem secret
              (PStr (password_generator env (Some 64) (draws w)))) w)
    else w in
  (wp_secrets ++ [(secret, LeadershipSettings.getitem (leader_data w) secret)], w).

Definition _generate_wordpress_secrets (env : Env) (w : World)
  : list (string * pyval) * World :=
  foldl (generate_secret env) ([], w) (WORDPRESS_SECRETS env).

(** [_get_initial_password]. *)
Definition _get_initial_password (env : Env) (w : World) : pyval * World :=
  let initial_password := LeadershipSettings.getitem (leader_data w) "initial_password" in
  if negb (truthy initial_password) then
    if is_leader env then
      let initial_password := PStr (password_generator env None (draws w)) in
      (initial_password,
       next_draw
         (set_leader_data (LeadershipSettings.setitem "initial_password" initial_password) w))
    else (initial_password, w)
  else (initial_password, w).

(** [_on_get_initial_password_action]. *)
Definition _on_get_initial_password_action (env : Env) (w : World) : World :=
  let '(initial_password, w) := _get_initial_password env w in
  if truthy initial_password
  then log (ActionSetResults [("password", initial_password)]) w
  else log (ActionFail "Initial password has not been set yet.") w.

(** [on_config_changed]. *)
Definition on_config_changed (env : Env) (w : World) : World :=
  let '(is_valid, w) := is_valid_config env w in
  if negb is_valid then w
  else
    let services := plan_services (container w) in
    let w :=
      if bool_decide (services ≠ layer_services (wordpress_workload env w)) then
        let w := set_status (MaintenanceStatus "Transitioning WordPress configuration") w in
        let w := add_layer container_name (wordpress_workload env w) w in
        let w := set_status (MaintenanceStatus "Restarting WordPress") w in
        let w :=
          if bool_decide (container_name ∈ running (container w))
          then stop container_name w else w in
        let w := push_setup_script w in
        autostart w
      else w in
    let w := set_status (ActiveStatus "WordPress service is live!") w in
    log (IngressUpdate (ingress_config env)) w.

(** [self.on.<event>.emit()]: what the framework does with an emitted
    event. *)
Definition emitter := Event -> World -> option World.

(** [on_database_config_changed]. *)
Definition on_database_config_changed (emit : emitter) (env : Env) (w : World)
  : option World :=
  if bool_decide (State.has_db_relation (state w) = false) then
    let db_config :=
      (fun kv => (fst kv, or_none (snd kv)))
        <$> List.filter (fun kv => Str.startswith "db_" (fst kv)) (Config.items (config env)) in
    if py_any (snd <$> db_config) then
      let current_db_data :=
        py_set [OVal (State.db_host (state w)); OVal (State.db_name (state w));
                OVal (State.db_user (state w)); OVal (State.db_password (state w))] in
      let new_db_data := py_set [ODictValues (snd <$> db_config)] in
      let db_differences := py_difference current_db_data new_db_data in
      if py_nonempty db_differences
      then emit WordpressStaticDatabaseChanged w
      else Some w
    else Some w
  else Some w.

(** [on_db_relation_created] and [on_db_relation_broken]. *)
Definition on_db_relation_created (emit : emitter) (w : World) : option World :=
  let w := set_state (State.set_db PNone PNone PNone PNone) w in
  let w := set_state (State.set_has_db_relation true) w in
  emit ConfigChanged w.

Definition on_db_relation_broken (emit : emitter) (w : World) : option World :=
  let w := set_state (State.set_db PNone PNone PNone PNone) w in
  let w := set_state (State.set_has_db_relation false) w in
  emit ConfigChanged w.

(** The [host], [database], [user] and [password] of a database event: the
    payload of the relation's event, or the declared configuration for
    [WordpressStaticDatabaseChanged]. *)
Definition event_db (env : Env) (event : Event) : pyval * pyval * pyval * pyval :=
  match event with
  | DatabaseChanged host database user password => (host, database, user, password)
  | WordpressStaticDatabaseChanged =>
      (PStr (Config.db_host (config env)), PStr (Config.db_name (config env)),
       PStr (Config.db_user (config env)), PStr (Config.db_password (config env)))
  | _ => (PNone, PNone, PNone, PNone)
  end.

(** [on_database_changed]. *)
Definition on_database_changed (emit : emitter) (env : Env) (event : Event)
    (w : World) : option World :=
  let '(host, database, user, password) := event_db env event in
  let w := set_state (State.set_db host database user password) w in
  let w :=
    if is_leader env then
      set_leader_data
        (fun ld =>
           LeadershipSettings.setitem "db_password" password
             (LeadershipSettings.setitem "db_user" user
                (LeadershipSettings.setitem "db_name" database
                   (LeadershipSettings.setitem "db_host" host ld)))) w
    else w in
  let w := set_state (State.set_has_db_relation true) w in
  let w := set_state (fun s => State.set_install_state ({["db"]} ∪ State.install_state s) s) w in
  emit ConfigChanged w.

(** [on_ingress_relation_broken] and [on_ingress_relation_changed]. *)
Definition on_ingress_relation_broken (emit : emitter) (w : World) : option World :=
  let w := log (IngressUpdate ∅) w in
  let w := set_state (State.set_has_ingress_relation false) w in
  let w := set_state (fun s => State.set_install_state (State.install_state s ∖ {["ingress"]}) s) w in
  emit ConfigChanged w.

Definition on_ingress_relation_changed (emit : emitter) (w : World) : option World :=
  let w := set_state (State.set_has_ingress_relation true) w in
  let w := set_state (fun s => State.set_install_state ({["ingress"]} ∪ State.install_state s) s) w in
  emit ConfigChanged w.

(** [on_leader_elected]. *)
Definition on_leader_elected (emit : emitter) (env : Env) (w : World) : option World :=
  let w :=
    if bool_decide (is_leader env = true) then
      let w :=
        if negb (py_all (snd <$> _wordpress_secrets env w))
        then snd (_generate_wordpress_secrets env w) else w in
      set_state (fun s => State.set_install_state ({["leader"]} ∪ State.install_state s) s) w
    else w in
  emit ConfigChanged w.

(** The two sets that [on_wordpress_uninitialised] compares with. *)
Definition first_time_ready : gset string := {["leader"; "db"; "ingress"; "leader"]}.
Definition install_running : gset string := {["attempted"; "ingress"; "db"; "leader"]}.

(** [on_wordpress_uninitialised]. *)
Definition on_wordpress_uninitialised (emit : emitter) (env : Env) (w : World)
  : option World :=
  let w :=
    if bool_decide (is_leader env = false) then
      let '(v, ld) := LeadershipSettings.setdefault (leader_data w) "installed" (PBool false) in
      set_state (State.set_installed_successfully v) (set_leader_data (fun _ => ld) w)
    else w in
  if is_True (State.installed_successfully (state w)) then Some w
  else if bool_decide (State.install_state (state w) = install_running) then Some w
  else if bool_decide (State.install_state (state w) = first_time_ready) then
    let w := set_state (State.set_attempted_install true) w in
    let w := set_state (fun s => State.set_install_state ({["attempted"]} ∪ State.install_state s) s) w in
    emit WordpressInitialSetup w
  else Some w.

(** [on_wordpress_initial_setup]. *)
Definition on_wordpress_initial_setup (emit : emitter) (env : Env) (w : World)
  : option World :=
  let w := push_setup_script w in
  let w := add_layer container_name (wordpress_workload env w) w in
  let w := log (IngressUpdate (ingress_config env)) w in
  let w := start_services ["wordpress-ready"; container_name] w in
  let w := wait_change w in
  match emit ConfigChanged w with
  | None => None
  | Some w =>
      let '(initial_password, w) := _get_initial_password env w in
      let w :=
        set_state (State.set_installed_successfully
                     (PBool (first_install env initial_password))) w in
      if is_False (State.installed_successfully (state w)) then Some w
      else
        let w := set_status (MaintenanceStatus "WordPress Initialised") w in
        let w := set_leader_data (LeadershipSettings.setitem "installed" (PBool true)) w in
        let w := set_state (State.set_installed_successfully (PBool true)) w in
        emit ConfigChanged w
  end.

(** ** The framework: observers and dispatch *)

Inductive Handler :=
  | H_on_config_changed
  | H_on_leader_elected
  | H_on_get_initial_password_action
  | H_on_db_relation_created
  | H_on_db_relation_broken
  | H_on_database_config_changed
  | H_on_database_changed
  | H_on_ingress_relation_changed
  | H_on_wordpress_uninitialised
  | H_on_wordpress_initial_setup.

(** An event without its payload. *)
Definition same_kind (a b : Event) : bool :=
  match a, b with
  | DatabaseChanged _ _ _ _, DatabaseChanged _ _ _ _ => true
  | _, _ => bool_decide (a = b)
  end.

(** The [framework.observe] calls of [__init__], in their order;
    [uninitialised] is [self.state.installed_successfully is False]. *)
Definition observe (uninitialised : bool) : list (Event * Handler) :=
  [(WordpressPebbleReady, H_on_config_changed);
   (ConfigChanged, H_on_config_changed);
   (LeaderElected, H_on_leader_elected);
   (GetInitialPasswordAction, H_on_get_initial_password_action);
   (DbRelationCreated, H_on_db_relation_created);
   (DbRelationBroken, H_on_db_relation_broken);
   (ConfigChanged, H_on_database_config_changed);
   (DatabaseChanged PNone PNone PNone PNone, H_on_database_changed);
   (WordpressStaticDatabaseChanged, H_on_database_changed);
   (IngressRelationChanged, H_on_ingress_relation_changed);
   (IngressRelationCreated, H_on_ingress_relation_changed)]
  ++ (if uninitialised
      then [(ConfigChanged, H_on_wordpress_uninitialised);
            (WordpressInitialSetup, H_on_wordpress_initial_setup)]
      else []).

Definition observers (uninitialised : bool) (event : Event) : list Handler :=
  snd <$> List.filter (fun p => same_kind (fst p) event) (observe uninitialised).

Definition call (emit : emitter) (env : Env) (h : Handler) (event : Event)
    (w : World) : option World :=
  match h with
  | H_on_config_changed => Some (on_config_changed env w)
  | H_on_leader_elected => on_leader_elected emit env w
  | H_on_get_initial_password_action => Some (_on_get_initial_password_action env w)
  | H_on_db_relation_created => on_db_relation_created emit w
  | H_on_db_relation_broken => on_db_relation_broken emit w
  | H_on_database_config_changed => on_database_config_changed emit env w
  | H_on_database_changed => on_database_changed emit env event w
  | H_on_ingress_relation_changed => on_ingress_relation_changed emit w
  | H_on_wordpress_uninitialised => on_wordpress_uninitialised emit env w
  | H_on_wordpress_initial_setup => on_wordpress_initial_setup emit env w
  end.

(** The observers of an event run one after the other, each to completion. *)
Fixpoint notify (emit : emitter) (env : Env) (hs : list Handler) (event : Event)
    (w : World) : option World :=
  match hs with
  | [] => Some w
  | h :: hs' =>
      match call emit env h event w with
      | Some w' => notify emit env hs' event w'
      | None => None
      end
  end.

(** [emit]: handlers emit events of their own, so the dispatch is bounded by
    [fuel], the depth of nested emissions; [None] means the bound was
    reached. *)
Fixpoint emit (fuel : nat) (env : Env) (uninitialised : bool) (event : Event)
    (w : World) : option World :=
  match fuel with
  | O => None
  | S n =>
      notify (emit n env uninitialised) env (observers uninitialised event) event
        (log (Emitted event) w)
  end.

(** One hook: [__init__] registers the observers, then the event is
    dispatched. *)
Definition registered (w : World) : bool :=
  is_False (State.installed_successfully (state w)).

Definition hook_fuel : nat := 6.

Definition hook (env : Env) (event : Event) (w : World) : option World :=
  emit hook_fuel env (registered w) event w.

(** The world of a unit when its charm first starts. *)
Definition init_world (c : Config.t) : World :=
  mkWorld (State.init c) ∅ (mkContainer ∅ ∅ []) [] 0.

(** ** The life of a unit *)

(** Between its hooks a unit sees the leadership settings change, as other
    units write them; [ok] restricts the hooks considered. *)
Inductive step (ok : Env -> Event -> Prop) : World -> World -> Prop :=
  | step_hook env event w w' :
      ok env event -> hook env event w = Some w' -> step ok w w'
  | step_replicated ld w :
      step ok w (set_leader_data (fun _ => ld) w).

Definition any_hook : Env -> Event -> Prop := fun _ _ => True.

(** ** Vocabulary of the statements *)

(** The checks of [is_valid_config], one by one. *)
Definition installed_check (w : World) : bool :=
  negb (is_False (State.installed_successfully (state w))).

Definition initial_settings_check (env : Env) : bool :=
  truthy (opt_val (Config.initial_settings (config env))).

Definition db_check (env : Env) (w : World) : bool :=
  py_all (snd <$> _db_config env w).

Definition blank (env : Env) (k : string) : bool :=
  String.eqb (Str.rstrip (Config.getitem (config env) k)) "".

Definition wanted (env : Env) (w : World) : list string :=
  if db_check env w then ["image"]
  else ["image"; "db_host"; "db_name"; "db_user"; "db_password"].

Definition missing_fields (env : Env) (w : World) : list string :=
  List.filter (blank env) (wanted env w).

Definition hostnames_check (env : Env) : bool :=
  let h := Config.additional_hostnames (config env) in
  negb (truthy (PStr h))
  || forallb hostname_match (juju_setting_to_list h default_split_char).

(** The statuses that the failed checks set, in the order of the checks. *)
Definition validator_statuses (env : Env) (w : World) : list Status :=
  (if initial_settings_check env then []
   else [BlockedStatus "Missing initial_settings"])
  ++ (if py_nonempty (missing_fields env w)
      then [BlockedStatus ("Missing required config or relation: "
                           +:+ Str.join " " (missing_fields env w))]
      else [])
  ++ (if hostnames_check env then []
      else [BlockedStatus ("Invalid additional hostnames supplied: "
                           +:+ Config.additional_hostnames (config env))]).

Definition log_all (es : list Effect) (w : World) : World :=
  mkWorld (state w) (leader_data w) (container w) (trace w ++ es) (draws w).

(** What was logged between [w] and [w']. *)
Definition new_trace (w w' : World) : list Effect :=
  drop (length (trace w)) (trace w').

(** The four credential fields are all [None] or none of them is. *)
Definition credentials_atomic (s : State.t) : Prop :=
  (State.db_host s = PNone /\ State.db_name s = PNone
   /\ State.db_user s = PNone /\ State.db_password s = PNone)
  \/ (State.db_host s <> PNone /\ State.db_name s <> PNone
      /\ State.db_user s <> PNone /\ State.db_password s <> PNone).

Definition payload_atomic (event : Event) : Prop :=
  match event with
  | DatabaseChanged h n u p =>
      (h = PNone /\ n = PNone /\ u = PNone /\ p = PNone)
      \/ (h <> PNone /\ n <> PNone /\ u <> PNone /\ p <> PNone)
  | _ => True
  end.

Definition config_db_atomic (c : Config.t) : Prop :=
  (Config.db_host c = "" /\ Config.db_name c = ""
   /\ Config.db_user c = "" /\ Config.db_password c = "")
  \/ (Config.db_host c <> "" /\ Config.db_name c <> ""
      /\ Config.db_user c <> "" /\ Config.db_password c <> "").

(** ** The footprint of the handlers *)

(** The events that handlers emit themselves. *)
Definition internal (ev : Event) : Prop :=
  ev = ConfigChanged \/ ev = WordpressStaticDatabaseChanged \/ ev = WordpressInitialSetup.

Definition is_database_event (ev : Event) : bool :=
  match ev with
  | DatabaseChanged _ _ _ _ | WordpressStaticDatabaseChanged => true
  | _ => false
  end.

(** The values of the [db_*] options as [on_database_config_changed] reads
    them, and its condition for emitting the static database event. *)
Definition static_db_values (env : Env) : list pyval :=
  snd <$> ((fun kv : string * string => (fst kv, or_none (snd kv)))
           <$> List.filter (fun kv => Str.startswith "db_" (fst kv))
                 (Config.items (config env))).

Definition static_fires (env : Env) (s : State.t) : bool :=
  bool_decide (State.has_db_relation s = false) && py_any (static_db_values env).

(** The writes to the leadership settings that the handlers of a hook for
    the event [top] perform, on the settings [ld]. *)
Inductive write_ok (env : Env) (top : Event) (w : World)
  : string -> pyval -> Prop :=
  | write_secret k i :
      is_leader env = true -> top = LeaderElected ->
      In k (WORDPRESS_SECRETS env) ->
      truthy (LeadershipSettings.getitem (leader_data w) k) = false ->
      write_ok env top w k (PStr (password_generator env (Some 64) i))
  | write_initial_password i :
      is_leader env = true ->
      truthy (LeadershipSettings.getitem (leader_data w) "initial_password") = false ->
      write_ok env top w "initial_password" (PStr (password_generator env None i))
  | write_db ev k v :
      is_leader env = true ->
      is_database_event ev = true ->
      ev = top \/ ev = WordpressStaticDatabaseChanged ->
      State.db_host (state w) = (event_db env ev).1.1.1 ->
      State.db_name (state w) = (event_db env ev).1.1.2 ->
      State.db_user (state w) = (event_db env ev).1.2 ->
      State.db_password (state w) = (event_db env ev).2 ->
      (k = "db_host" /\ v = State.db_host (state w)
       \/ k = "db_name" /\ v = State.db_name (state w)
       \/ k = "db_user" /\ v = State.db_user (state w)
       \/ k = "db_password" /\ v = State.db_password (state w)) ->
      write_ok env top w k v
  | write_installed p :
      first_install env p = true ->
      write_ok env top w "installed" (PBool true)
  | write_installed_default :
      is_leader env = false -> leader_data w !! "installed" = None ->
      write_ok env top w "installed" (PBool false).

(** The primitive steps that the handlers of a hook for the event [top] are
    made of; [reg] tells whether [__init__] has registered the two install
    handlers. *)
Inductive prim (env : Env) (reg : bool) (top : Event) : World -> World -> Prop :=
  | prim_write k v w :
      write_ok env top w k v ->
      prim env reg top w (set_leader_data (LeadershipSettings.setitem k v) w)
  | prim_draw w :
      prim env reg top w (next_draw w)
  | prim_container f w :
      prim env reg top w (set_container f w)
  | prim_log e w :
      (forall ev, e <> Emitted ev) ->
      prim env reg top w (log e w)
  | prim_emit ev w :
      ev = top \/ ev = ConfigChanged \/ ev = WordpressStaticDatabaseChanged ->
      prim env reg top w (log (Emitted ev) w)
  | prim_fire w :
      reg = true ->
      State.install_state (state w) = first_time_ready ->
      State.installed_successfully (state w) <> PBool true ->
      prim env reg top w
        (log (Emitted WordpressInitialSetup)
           (set_state
              (fun s => State.set_install_state ({["attempted"]} ∪ State.install_state s) s)
              (set_state (State.set_attempted_install true) w)))
  | prim_db_null w :
      top = DbRelationCreated \/ top = DbRelationBroken ->
      prim env reg top w (set_state (State.set_db PNone PNone PNone PNone) w)
  | prim_db_event ev w :
      ev = top
      \/ ev = WordpressStaticDatabaseChanged /\ static_fires env (state w) = true ->
      is_database_event ev = true ->
      prim env reg top w
        (set_state
           (State.set_db (event_db env ev).1.1.1 (event_db env ev).1.1.2
              (event_db env ev).1.2 (event_db env ev).2) w)
  | prim_has_db_relation b w :
      (b = false -> top = DbRelationBroken) ->
      (b = true ->
       top = DbRelationCreated \/ is_database_event top = true
       \/ static_fires env (state w) = true) ->
      prim env reg top w (set_state (State.set_has_db_relation b) w)
  | prim_has_ingress_relation w :
      prim env reg top w (set_state (State.set_has_ingress_relation true) w)
  | prim_tag tag w :
      tag = "leader" /\ is_leader env = true /\ top = LeaderElected
      \/ tag = "db" \/ tag = "ingress" ->
      prim env reg top w
        (set_state (fun s => State.set_install_state ({[tag]} ∪ State.install_state s) s) w)
  | prim_installed v w :
      reg = true ->
      (exists p, v = PBool (first_install env p))
      \/ is_leader env = false
         /\ v = default (PBool false) (leader_data w !! "installed") ->
      prim env reg top w (set_state (State.set_installed_successfully v) w).

(** The two state changes of [on_wordpress_uninitialised]: a follower's
    reading of the replicated flag, and the marking of the attempt. *)
Definition refresh_installed (env : Env) (w : World) : World :=
  if bool_decide (is_leader env = false) then
    let '(v, ld) := LeadershipSettings.setdefault (leader_data w) "installed" (PBool false) in
    set_state (State.set_installed_successfully v) (set_leader_data (fun _ => ld) w)
  else w.

Definition begin_install (w : World) : World :=
  set_state (fun s => State.set_install_state ({["attempted"]} ∪ State.install_state s) s)
    (set_state (State.set_attempted_install true) w).

(** ** Sample configurations and environments *)

Definition sample_config : Config.t :=
  Config.mk "10.0.0.5" "wordpress" "wp" "secret" "blog.example.com" "" "" ""
            "wordpresscharmers/wordpress:v5.9" (Some "user_name: admin") None None None.

(** Only [db_host] is set. *)
Definition partial_config : Config.t :=
  Config.mk "10.0.0.5" "" "" "" "blog.example.com" "" "" ""
            "wordpresscharmers/wordpress:v5.9" (Some "user_name: admin") None None None.

(** No [db_*] option is set. *)
Definition blank_db_config : Config.t :=
  Config.mk "" "" "" "" "blog.example.com" "" "" ""
            "wordpresscharmers/wordpress:v5.9" (Some "user_name: admin") None None None.

(** A generator that tells its draws apart: [length] copies of a letter
    chosen by the draw. *)
Fixpoint repeat_char (a : ascii) (n : nat) : string :=
  match n with
  | O => EmptyString
  | S k => String a (repeat_char a k)
  end.

Definition sample_generator (length : option nat) (draw : nat) : string :=
  repeat_char (ascii_of_nat (97 + draw mod 26)) (default 24 length).

Definition sample_env (c : Config.t) (leader : bool) : Env :=
  mkEnv c leader "wordpress"
        ["AUTH_KEY"; "SECURE_AUTH_KEY"; "LOGGED_IN_KEY"; "NONCE_KEY";
         "AUTH_SALT"; "SECURE_AUTH_SALT"; "LOGGED_IN_SALT"; "NONCE_SALT"]
        sample_generator (fun _ => true) (fun _ => ∅).

(** A unit whose install has completed. *)
Definition installed_world : World :=
  set_state (State.set_installed_successfully (PBool true)) (init_world sample_config).

Definition or_same (w : World) (o : option World) : World := default w o.

(** ** Spacing of the [additional_hostnames] option *)

Definition is_space (a : ascii) : bool := Ascii.eqb a " "%char.
Definition is_newline (a : ascii) : bool := Ascii.eqb a "010"%char.

Definition starts_with_space (s : string) : bool :=
  match s with
  | String a _ => is_space a
  | EmptyString => false
  end.

Fixpoint ends_with_space (s : string) : bool :=
  match s with
  | EmptyString => false
  | String a EmptyString => is_space a
  | String _ s' => ends_with_space s'
  end.

Fixpoint double_space (s : string) : bool :=
  match s with
  | EmptyString => false
  | String a s' => is_space a && starts_with_space s' || double_space s'
  end.

(** A whitespace character other than the space, a newline that ends an
    entry (the string, or the part before the next space) left aside. *)
Fixpoint stray_whitespace (s : string) : bool :=
  match s with
  | EmptyString => false
  | String a s' =>
      Str.isspace a && negb (is_space a)
      && negb (is_newline a && (String.eqb s' "" || starts_with_space s'))
      || stray_whitespace s'
  end.

(** Any whitespace character other than the space. *)
Fixpoint other_whitespace (s : string) : bool :=
  match s with
  | EmptyString => false
  | String a s' => Str.isspace a && negb (is_space a) || other_whitespace s'
  end.

Definition with_additional_hostnames (h : string) (env : Env) : Env :=
  mkEnv (Config.set_additional_hostnames h (config env)) (is_leader env)
        (app_name env) (WORDPRESS_SECRETS env) (password_generator env)
        (first_install env) (safe_load env).

(** An installed unit whose database relation has just been created: the
    stored credentials are [None], the [db_*] options are still set. *)
Definition awaiting_credentials_world : World :=
  set_state (State.set_has_db_relation true)
    (set_state (State.set_db PNone PNone PNone PNone) installed_world).

(** A valid host name followed by a newline. *)
Definition newline_terminated_hostname : string :=
  "example.com" +:+ String "010"%char EmptyString.

(** The stored credentials differ from the declared [db_*] options, by set
    difference of the two sets of values. *)
Definition db_values_differ (env : Env) (s : State.t) : bool :=
  py_nonempty
    (py_difference
       (py_set [OVal (State.db_host s); OVal (State.db_name s);
                OVal (State.db_user s); OVal (State.db_password s)])
       (py_set (OVal <$> static_db_values env))).

(** The installed flag that the install gate looks at: the stored one on the
    leader, the replicated one on a follower. *)
Definition effective_installed (env : Env) (w : World) : pyval :=
  State.installed_successfully (state (refresh_installed env w)).

Definition gate_open (env : Env) (w : World) : Prop :=
  effective_installed env w <> PBool true
  /\ State.install_state (state w) = first_time_ready.

(** A unit that met the three prerequisites while another unit, the leader
    since, completed the install. *)
Definition replicated_install_world : World :=
  set_leader_data (LeadershipSettings.setitem "installed" (PBool true))
    (set_state (State.set_install_state first_time_ready) (init_world sample_config)).

(** A leader that has met the three prerequisites. *)
Definition ready_world : World :=
  set_state (State.set_has_db_relation true)
    (set_state (State.set_install_state first_time_ready) (init_world sample_config)).

(** The secrets as [_wordpress_secrets] and [_generate_wordpress_secrets]
    return them: each name with its stored value. *)
Definition secrets_of (ld : gmap string pyval) (l : list string) : list (string * pyval) :=
  (fun k => (k, LeadershipSettings.getitem ld k)) <$> l.

(** What a handler may assume of the [emit] it is given: an emission is made
    of primitive steps.  The static database event is only emitted while the
    unit has no database relation and some [db_*] option is set. *)
Definition emission_ok (env : Env) (top ev : Event) (w : World) : Prop :=
  ev = top \/ ev <> WordpressStaticDatabaseChanged
  \/ static_fires env (state w) = true.

Definition emits_steps (env : Env) (reg : bool) (top : Event) (em : emitter) : Prop :=
  forall ev w w', internal ev -> emission_ok env top ev w -> em ev w = Some w' ->
    rtc (prim env reg top) (log (Emitted ev) w) w'.

(** The hooks that Juju runs: for any event but the two that only the charm
    emits. *)
Definition juju_hook : Env -> Event -> Prop := fun _ event => is_custom event = false.

(** How many times the install has begun, according to a trace. *)
Definition installs_begun (t : list Effect) : nat :=
  count_occ Effect_eq_dec t (Emitted WordpressInitialSetup).

(** The trace records at most one begun install, and not without the
    "attempted" mark. *)
Definition install_recorded (w : World) : Prop :=
  installs_begun (trace w) <= 1
  /\ (installs_begun (trace w) = 1 -> "attempted" ∈ State.install_state (state w)).

(** The four stored credentials. *)
Definition credentials (s : State.t) : pyval * pyval * pyval * pyval :=
  (State.db_host s, State.db_name s, State.db_user s, State.db_password s).

(** The four replicated credentials. *)
Definition replicated_credentials (ld : gmap string pyval)
  : option pyval * option pyval * option pyval * option pyval :=
  (ld !! "db_host", ld !! "db_name", ld !! "db_user", ld !! "db_password").

Definition is_db_key (k : string) : bool :=
  bool_decide (k ∈ ["db_host"; "db_name"; "db_user"; "db_password"]).

(** The names of the secrets are not keys that the charm itself writes. *)
Definition secret_names_ok (env : Env) : bool :=
  forallb (fun k => negb (is_db_key k) && negb (String.eqb k "installed"))
          (WORDPRESS_SECRETS env).

(** The stored credential that [on_database_changed] replicates under the
    key [k]. *)
Definition credential (s : State.t) (k : string) : pyval :=
  if String.eqb k "db_host" then State.db_host s
  else if String.eqb k "db_name" then State.db_name s
  else if String.eqb k "db_user" then State.db_user s
  else State.db_password s.

(** The hooks that Juju runs on a unit that is not the leader. *)
Definition follower_hook : Env -> Event -> Prop :=
  fun env event => is_leader env = false /\ is_custom event = false.

(** The events emitted according to a trace, in their order. *)
Definition emitted (e : Effect) : option Event :=
  match e with
  | Emitted event => Some event
  | _ => None
  end.

Definition emissions (t : list Effect) : list Event := omap emitted t.

(** An environment in which the HTTP installer fails. *)
Definition failing_install_env : Env :=
  mkEnv sample_config true "wordpress"
        ["AUTH_KEY"; "SECURE_AUTH_KEY"; "LOGGED_IN_KEY"; "NONCE_KEY";
         "AUTH_SALT"; "SECURE_AUTH_SALT"; "LOGGED_IN_SALT"; "NONCE_SALT"]
        sample_generator (fun _ => false) (fun _ => ∅).

(** The characters of a host name: lower-case letters, digits, the hyphen
    and the dot. *)
Definition hostname_char (a : ascii) : bool :=
  Re.in_cls a [("a", "z"); ("0", "9"); ("-", "-"); (".", ".")]%char.

(** The class holds the character [a] only. *)
Definition only (a : ascii) (c : Re.cls) : bool :=
  forallb (fun r => Ascii.eqb (fst r) a && Ascii.eqb (snd r) a) c.

(** A syntactic criterion for matching only strings that contain [a]. *)
Fixpoint needs (a : ascii) (r : Re.regex) : bool :=
  match r with
  | Re.Void => true
  | Re.Eps | Re.Star _ => false
  | Re.Set_ c => only a c
  | Re.Cat r1 r2 => needs a r1 || needs a r2
  | Re.Alt r1 r2 => needs a r1 && needs a r2
  end.

(** * Properties *)

(** ** The validator as the conjunction of its checks *)

Ltac wsimpl :=
  cbn [state leader_data container trace draws set_state set_leader_data
       set_container log next_draw log_all set_status
       add_layer stop push push_setup_script autostart start_services wait_change
       State.installed_successfully State.install_state State.has_db_relation
       State.has_ingress_relation State.db_host State.db_name State.db_user
       State.db_password State.attempted_install
       State.set_installed_successfully State.set_install_state
       State.set_has_db_relation State.set_has_ingress_relation State.set_db
       State.set_attempted_install fst snd] in *.

Lemma forallb_id_fmap {A} (f : A -> bool) (l : list A) :
  forallb id (f <$> l) = forallb f l.
Proof. induction l as [|a l IH]; [done|]. csimpl. by rewrite IH. Qed.

Lemma db_config_trace env st ld c tr d tr' :
  _db_config env (mkWorld st ld c tr d) = _db_config env (mkWorld st ld c tr' d).
Proof. reflexivity. Qed.

Lemma is_valid_config_eq env w :
  is_valid_config env w =
  (installed_check w && initial_settings_check env && db_check env w
   && negb (py_nonempty (missing_fields env w)) && hostnames_check env,
   log_all (SetStatus <$> validator_statuses env w) w).
Proof.
  unfold is_valid_config, validator_statuses, missing_fields, wanted, hostnames_check,
    installed_check, initial_settings_check, db_check.
  rewrite forallb_id_fmap.
  destruct w as [st ld c tr d]; unfold set_status, log, log_all.
  cbn [state trace leader_data container draws].
  destruct (truthy (opt_val (Config.initial_settings (config env)))); cbn [negb];
    rewrite ?(db_config_trace env st ld c _ d tr).
  all: destruct (py_all (_db_config env (mkWorld st ld c tr d)).*2); cbn [negb app];
    fold (blank env).
  all: (destruct (py_nonempty (List.filter (blank env) _)) eqn:E);
    cbn [state trace leader_data container draws negb].
  all: destruct (truthy (PStr (Config.additional_hostnames (config env)))); cbn [negb orb].
  all: try (destruct (forallb hostname_match _); cbn [negb]).
  all: destruct (is_False (State.installed_successfully st)); cbn [negb andb].
  all: rewrite ?app_nil_r, <- ?app_assoc; try reflexivity.
Qed.

(** ** The footprint of the helpers and of the dispatch *)

Lemma observers_spec reg ev h :
  In h (observers reg ev) ->
  match h with
  | H_on_config_changed => ev = WordpressPebbleReady \/ ev = ConfigChanged
  | H_on_leader_elected => ev = LeaderElected
  | H_on_get_initial_password_action => ev = GetInitialPasswordAction
  | H_on_db_relation_created => ev = DbRelationCreated
  | H_on_db_relation_broken => ev = DbRelationBroken
  | H_on_database_config_changed => ev = ConfigChanged
  | H_on_database_changed => is_database_event ev = true
  | H_on_ingress_relation_changed =>
      ev = IngressRelationChanged \/ ev = IngressRelationCreated
  | H_on_wordpress_uninitialised => reg = true /\ ev = ConfigChanged
  | H_on_wordpress_initial_setup => reg = true /\ ev = WordpressInitialSetup
  end.
Proof.
  intros Hin. destruct reg, ev; cbv in Hin; intuition subst; cbn; auto.
Qed.

Lemma observers_config_changed reg :
  observers reg ConfigChanged =
  [H_on_config_changed; H_on_database_config_changed]
  ++ (if reg then [H_on_wordpress_uninitialised] else []).
Proof. by destruct reg. Qed.

Lemma observers_static reg :
  observers reg WordpressStaticDatabaseChanged = [H_on_database_changed].
Proof. by destruct reg. Qed.

Lemma observers_initial_setup reg :
  observers reg WordpressInitialSetup =
  if reg then [H_on_wordpress_initial_setup] else [].
Proof. by destruct reg. Qed.

Lemma static_fires_true env s :
  static_fires env s = true ->
  State.has_db_relation s = false /\ py_any (static_db_values env) = true.
Proof. by intros [H%bool_decide_eq_true ?]%andb_true_iff. Qed.

Section Footprint.
Variables (env : Env) (reg : bool) (top : Event).

Abbreviation steps := (rtc (prim env reg top)).

Lemma log_all_steps es w :
  Forall (fun e => forall ev, e <> Emitted ev) es -> steps w (log_all es w).
Proof.
  revert w. induction es as [|e es IH]; intros w Hes.
  - unfold log_all. rewrite app_nil_r. by destruct w.
  - inversion Hes as [|? ? He Hes']; subst.
    eapply rtc_l; [by apply (prim_log env reg top e w)|].
    replace (log_all (e :: es) w) with (log_all es (log e w)); [by apply IH|].
    unfold log_all, log; cbn. by rewrite <- app_assoc.
Qed.

Lemma is_valid_config_steps w : steps w (snd (is_valid_config env w)).
Proof.
  rewrite is_valid_config_eq. cbn [snd]. apply log_all_steps.
  apply Forall_fmap, Forall_forall. intros s _ ev. done.
Qed.

Lemma on_config_changed_steps w : steps w (on_config_changed env w).
Proof.
  unfold on_config_changed.
  pose proof (is_valid_config_steps w) as Hv.
  destruct (is_valid_config env w) as [v w1]. cbn [snd] in Hv.
  etrans; [exact Hv|]. clear Hv.
  destruct v; cbn [negb]; [|done].
  eapply rtc_r; [|by apply prim_log].
  eapply rtc_r; [|by apply prim_log].
  case_bool_decide; [|done].
  unfold autostart. eapply rtc_r; [|by apply prim_log].
  eapply rtc_r; [|by apply prim_container].
  unfold push_setup_script, push. eapply rtc_r; [|by apply prim_log].
  eapply rtc_r; [|by apply prim_container].
  assert (Hbase : steps w1
    (set_status (MaintenanceStatus "Restarting WordPress")
       (add_layer container_name
          (wordpress_workload env
             (set_status (MaintenanceStatus "Transitioning WordPress configuration") w1))
          (set_status (MaintenanceStatus "Transitioning WordPress configuration") w1)))).
  { unfold set_status at 1. eapply rtc_r; [|by apply prim_log].
    unfold add_layer. eapply rtc_r; [|by apply prim_log].
    eapply rtc_r; [|by apply prim_container].
    apply rtc_once. by apply prim_log. }
  case_bool_decide; [|exact Hbase].
  unfold stop. eapply rtc_r; [|by apply prim_log].
  eapply rtc_r; [|by apply prim_container]. exact Hbase.
Qed.

Lemma get_initial_password_steps w : steps w (snd (_get_initial_password env w)).
Proof.
  unfold _get_initial_password.
  destruct (negb _) eqn:E; [|done].
  destruct (is_leader env) eqn:L; [|done]. cbn [snd].
  eapply rtc_r; [|by apply prim_draw].
  apply rtc_once. apply prim_write. apply write_initial_password; [done|].
  by apply negb_true_iff in E.
Qed.

Lemma on_get_initial_password_action_steps w :
  steps w (_on_get_initial_password_action env w).
Proof.
  unfold _on_get_initial_password_action.
  pose proof (get_initial_password_steps w) as H.
  destruct (_get_initial_password env w) as [p w1]. cbn [snd] in H.
  destruct (truthy p); (eapply rtc_r; [exact H|by apply prim_log]).
Qed.

Lemma generate_secret_steps acc secret :
  is_leader env = true -> top = LeaderElected -> In secret (WORDPRESS_SECRETS env) ->
  steps (snd acc) (snd (generate_secret env acc secret)).
Proof.
  intros L T Hin. destruct acc as [l w]. unfold generate_secret. cbn [snd].
  destruct (_ || _) eqn:E; cbn [snd]; [|done].
  eapply rtc_r; [|by apply prim_draw].
  apply rtc_once. apply prim_write. apply write_secret; [done..|].
  apply orb_true_iff in E as [E|E]; apply negb_true_iff in E; [|done].
  unfold LeadershipSettings.contains in E. apply bool_decide_eq_false in E.
  unfold LeadershipSettings.getitem.
  destruct (leader_data w !! secret) eqn:G; [|done]. by destruct E.
Qed.

Lemma generate_wordpress_secrets_steps w :
  is_leader env = true -> top = LeaderElected ->
  steps w (snd (_generate_wordpress_secrets env w)).
Proof.
  intros L T. unfold _generate_wordpress_secrets.
  assert (H : forall l acc, (forall s, In s l -> In s (WORDPRESS_SECRETS env)) ->
            steps (snd acc) (snd (foldl (generate_secret env) acc l))).
  { induction l as [|s l IH]; intros acc Hl; [done|]. cbn [foldl].
    etrans; [apply (generate_secret_steps acc s); [done..|apply Hl; by left]|].
    apply IH. intros s' Hs'. apply Hl. by right. }
  apply (H (WORDPRESS_SECRETS env) ([], w)). done.
Qed.

Lemma emit_config_changed_steps em w w' :
  emits_steps env reg top em -> em ConfigChanged w = Some w' -> steps w w'.
Proof.
  intros Hem H. eapply rtc_l; [apply (prim_emit env reg top ConfigChanged); tauto|].
  apply Hem; [by left|right; by left|done].
Qed.

Lemma call_steps em h ev w w' :
  internal ev \/ ev = top -> emission_ok env top ev w ->
  In h (observers reg ev) -> emits_steps env reg top em ->
  call em env h ev w = Some w' -> steps w w'.
Proof.
  intros Hev Hok Hin Hem H.
  pose proof (emit_config_changed_steps em) as Hcc. specialize (fun a b => Hcc a b Hem).
  destruct h; cbn [call] in H.
  - simplify_eq. apply on_config_changed_steps.
  - assert (ev = LeaderElected) as ->.
    { exact (observers_spec _ _ _ Hin). }
    assert (top = LeaderElected) as T.
    { destruct Hev as [ [ | [ | ] ] | ]; congruence. }
    unfold on_leader_elected in H. apply Hcc in H. etrans; [|exact H].
    case_bool_decide as L; [|done].
    eapply rtc_r; [|apply prim_tag; tauto].
    destruct (negb _); [|done]. by apply generate_wordpress_secrets_steps.
  - simplify_eq. apply on_get_initial_password_action_steps.
  - assert (ev = DbRelationCreated) as ->.
    { exact (observers_spec _ _ _ Hin). }
    assert (top = DbRelationCreated) as T.
    { destruct Hev as [ [ | [ | ] ] | ]; congruence. }
    unfold on_db_relation_created in H. apply Hcc in H. etrans; [|exact H].
    eapply rtc_r; [|apply prim_has_db_relation; [done|tauto]].
    apply rtc_once. apply prim_db_null. tauto.
  - assert (ev = DbRelationBroken) as ->.
    { exact (observers_spec _ _ _ Hin). }
    assert (top = DbRelationBroken) as T.
    { destruct Hev as [ [ | [ | ] ] | ]; congruence. }
    unfold on_db_relation_broken in H. apply Hcc in H. etrans; [|exact H].
    eapply rtc_r; [|by apply prim_has_db_relation].
    apply rtc_once. apply prim_db_null. tauto.
  - unfold on_database_config_changed in H. fold (static_db_values env) in H.
    case_bool_decide as Hnodb; [|by simplify_eq].
    destruct (py_any (static_db_values env)) eqn:A; [|by simplify_eq].
    destruct (py_nonempty _); [|by simplify_eq].
    eapply rtc_l; [apply (prim_emit env reg top WordpressStaticDatabaseChanged); tauto|].
    apply Hem; [right; by left| |done].
    right; right. unfold static_fires. by rewrite A, bool_decide_eq_true_2.
  - assert (Hdb : is_database_event ev = true).
    { exact (observers_spec _ _ _ Hin). }
    assert (Hsrc : ev = top
              \/ ev = WordpressStaticDatabaseChanged
                 /\ static_fires env (state w) = true).
    { destruct Hev as [ [-> | [-> | ->] ] | ]; try done; [|tauto].
      destruct Hok as [?|[?|?]]; [tauto|done|tauto]. }
    assert (Hsrc' : ev = top \/ ev = WordpressStaticDatabaseChanged) by tauto.
    unfold on_database_changed in H.
    pose proof (prim_db_event env reg top ev w Hsrc Hdb) as P1.
    pose proof (fun w0 k v => write_db env top w0 ev k v) as W.
    destruct (event_db env ev) as [[[h1 h2] h3] h4]. cbn [fst snd] in P1, W.
    apply Hcc in H. etrans; [|exact H].
    assert (Hdb' : top = DbRelationCreated \/ is_database_event top = true
                   \/ static_fires env (state w) = true).
    { destruct Hsrc as [<-|[_ ?]]; tauto. }
    eapply rtc_r; [|apply prim_tag; tauto].
    eapply rtc_r;
      [|apply prim_has_db_relation; [done|intros _; by destruct (is_leader env)]].
    destruct (is_leader env) eqn:L; [|by apply rtc_once].
    eapply rtc_l; [exact P1|].
    eapply rtc_l; [apply (prim_write env reg top "db_host" h1); apply W; wsimpl; tauto|].
    eapply rtc_l; [apply (prim_write env reg top "db_name" h2); apply W; wsimpl; tauto|].
    eapply rtc_l; [apply (prim_write env reg top "db_user" h3); apply W; wsimpl; tauto|].
    apply rtc_once. apply (prim_write env reg top "db_password" h4); apply W; wsimpl; tauto.
  - unfold on_ingress_relation_changed in H. apply Hcc in H. etrans; [|exact H].
    eapply rtc_r; [|apply prim_tag; tauto].
    apply rtc_once. apply prim_has_ingress_relation.
  - assert (reg = true) as R.
    { exact (proj1 (observers_spec _ _ _ Hin)). }
    unfold on_wordpress_uninitialised in H.
    match type of H with context [is_True (State.installed_successfully (state ?x))] =>
      set (w1 := x) in H end.
    assert (H1 : steps w w1).
    { clear H. unfold w1. case_bool_decide as L; [|done].
      unfold LeadershipSettings.setdefault.
      destruct (leader_data w !! "installed") as [v|] eqn:G.
      - apply rtc_once. replace (set_leader_data _ w) with w; [|by destruct w].
        apply prim_installed; [done|]. right. by rewrite G.
      - eapply rtc_r; [|apply prim_installed; [done|]].
        2:{ right. split; [done|]. cbn [leader_data set_leader_data].
            by rewrite lookup_insert_eq. }
        apply rtc_once.
        apply (prim_write env reg top "installed" (PBool false)).
        by apply write_installed_default. }
    etrans; [exact H1|]. clearbody w1.
    destruct (is_True _) eqn:I; [by simplify_eq|].
    case_bool_decide; [by simplify_eq|].
    case_bool_decide as F; [|by simplify_eq].
    eapply rtc_l; [apply (prim_fire env reg top w1); [done..|]|].
    { unfold is_True in I. by apply bool_decide_eq_false in I. }
    apply Hem; [right; by right|right; by left|]. exact H.
  - assert (reg = true) as R.
    { exact (proj1 (observers_spec _ _ _ Hin)). }
    cbv beta zeta delta [on_wordpress_initial_setup] in H.
    destruct (em ConfigChanged _) as [w2|] eqn:E2; [|done].
    apply Hcc in E2.
    pose proof (get_initial_password_steps w2) as G.
    destruct (_get_initial_password env w2) as [p w3]. cbn [snd] in G.
    assert (H0 : steps w w3).
    { etrans; [|exact G]. etrans; [|exact E2].
      unfold wait_change. eapply rtc_r; [|by apply prim_log].
      unfold start_services. eapply rtc_r; [|by apply prim_log].
      eapply rtc_r; [|by apply prim_container].
      eapply rtc_r; [|by apply prim_log].
      unfold add_layer. eapply rtc_r; [|by apply prim_log].
      eapply rtc_r; [|by apply prim_container].
      unfold push_setup_script, push. eapply rtc_r; [|by apply prim_log].
      apply rtc_once. by apply prim_container. }
    etrans; [exact H0|].
    assert (P0 : forall a, prim env reg top a
                   (set_state (State.set_installed_successfully
                                 (PBool (first_install env p))) a)).
    { intros a. apply prim_installed; [done|]. left. by exists p. }
    destruct (is_False _) eqn:F.
    + simplify_eq. apply rtc_once. apply P0.
    + assert (Hp : first_install env p = true).
      { cbn [state set_state State.installed_successfully
             State.set_installed_successfully] in F.
        destruct (first_install env p); [done|]. by vm_compute in F. }
      apply Hcc in H. etrans; [|exact H].
      eapply rtc_r; [|apply prim_installed; [done|left; exists p; by rewrite Hp]].
      eapply rtc_r; [|apply prim_write, (write_installed _ _ _ p Hp)].
      eapply rtc_r; [|by apply prim_log].
      apply rtc_once. apply P0.
Qed.

Lemma notify_steps em hs ev w w' :
  internal ev \/ ev = top -> (forall a, emission_ok env top ev a) ->
  (forall h, In h hs -> In h (observers reg ev)) ->
  emits_steps env reg top em -> notify em env hs ev w = Some w' -> steps w w'.
Proof.
  intros Hev Hok Hsub Hem. revert w. induction hs as [|h hs IH]; intros w H.
  - cbn in H. by simplify_eq.
  - cbn [notify] in H. destruct (call em env h ev w) as [w1|] eqn:E; [|done].
    etrans; [apply (call_steps em h ev w w1); [done|done|apply Hsub; by left|done..]|].
    apply IH; [|done]. intros h' Hh'. apply Hsub. by right.
Qed.

Lemma emit_body_steps n ev w w' :
  internal ev \/ ev = top -> emission_ok env top ev w ->
  emit n env reg ev w = Some w' -> steps (log (Emitted ev) w) w'.
Proof.
  revert ev w w'. induction n as [|n IH]; intros ev w w' Hev Hok H; [done|].
  assert (Hem : emits_steps env reg top (emit n env reg)).
  { intros ev' a b Hi Ho. apply IH; [by left|done]. }
  cbn [emit] in H.
  destruct (decide (ev = top)) as [Ht|Ht].
  { revert H. apply notify_steps; [done|by left|done..]. }
  destruct (decide (ev = WordpressStaticDatabaseChanged)) as [->|Hs].
  2:{ revert H. apply notify_steps; [done|by right; left|done..]. }
  rewrite observers_static in H. cbn [notify] in H.
  destruct (call _ _ _ _ _) as [w1|] eqn:E; [|done]. simplify_eq.
  revert E. apply call_steps; [done| |rewrite observers_static; by left|done].
  destruct Hok as [?|[?|?]]; [done..|]. right; by right.
Qed.

Lemma emit_steps n w w' : emit n env reg top w = Some w' -> steps w w'.
Proof.
  intros H. eapply rtc_l; [apply (prim_emit env reg top top); tauto|].
  apply (emit_body_steps n); [by right|by left|done].
Qed.

End Footprint.

(** ** Invariants of the primitive steps *)

Lemma hook_steps env ev w w' :
  hook env ev w = Some w' -> rtc (prim env (registered w) ev) w w'.
Proof. apply emit_steps. Qed.

Lemma prim_grows env reg top w w' :
  prim env reg top w w' ->
  State.install_state (state w) ⊆ State.install_state (state w').
Proof. intros H. destruct H; wsimpl; try done; apply union_subseteq_r. Qed.

Lemma steps_grows env reg top w w' :
  rtc (prim env reg top) w w' ->
  State.install_state (state w) ⊆ State.install_state (state w').
Proof.
  induction 1 as [|a b c Hab _ IH]; [done|].
  apply prim_grows in Hab. set_solver.
Qed.

Lemma prim_has_db_relation_stays env reg top w w' :
  top <> DbRelationBroken -> prim env reg top w w' ->
  State.has_db_relation (state w) = true -> State.has_db_relation (state w') = true.
Proof.
  intros Htop H. destruct H as [| | | | | | | |b w Hb| | |]; wsimpl; try done.
  intros _. destruct b; [done|]. by destruct Htop; apply Hb.
Qed.

Lemma steps_has_db_relation_stays env reg top w w' :
  top <> DbRelationBroken -> rtc (prim env reg top) w w' ->
  State.has_db_relation (state w) = true -> State.has_db_relation (state w') = true.
Proof.
  intros Htop. induction 1 as [|a b c Hab _ IH]; [done|].
  intros Ha. apply IH. by apply (prim_has_db_relation_stays env reg top a b).
Qed.

Lemma prim_installed_unregistered env top w w' :
  prim env false top w w' ->
  State.installed_successfully (state w') = State.installed_successfully (state w).
Proof. destruct 1; wsimpl; done. Qed.

Lemma steps_installed_unregistered env top w w' :
  rtc (prim env false top) w w' ->
  State.installed_successfully (state w') = State.installed_successfully (state w).
Proof.
  induction 1 as [|a b c Hab _ IH]; [done|].
  rewrite IH. by apply (prim_installed_unregistered env top).
Qed.

Lemma event_db_atomic env ev :
  is_database_event ev = true -> payload_atomic ev ->
  let '(h, n, u, p) := event_db env ev in
  (h = PNone /\ n = PNone /\ u = PNone /\ p = PNone)
  \/ (h <> PNone /\ n <> PNone /\ u <> PNone /\ p <> PNone).
Proof.
  destruct ev; try done. intros _ _. right. done.
Qed.

Lemma prim_credentials_atomic env reg top w w' :
  payload_atomic top -> prim env reg top w w' ->
  credentials_atomic (state w) -> credentials_atomic (state w').
Proof.
  intros Hp H. destruct H as [| | | | | | |ev w Hsrc Hdb| | | |]; wsimpl; try done.
  - intros _. left. done.
  - intros _. assert (Hev : payload_atomic ev).
    { destruct Hsrc as [->|[-> _]]; done. }
    pose proof (event_db_atomic env ev Hdb Hev) as Ha.
    destruct (event_db env ev) as [[[h n] u] p]. exact Ha.
Qed.

Lemma steps_credentials_atomic env reg top w w' :
  payload_atomic top -> rtc (prim env reg top) w w' ->
  credentials_atomic (state w) -> credentials_atomic (state w').
Proof.
  intros Hp. induction 1 as [|a b c Hab _ IH]; [done|].
  intros Ha. apply IH. by apply (prim_credentials_atomic env reg top a b).
Qed.

(** The trace only grows, and a primitive step logs at most one effect. *)
Lemma prim_trace env reg top w w' :
  prim env reg top w w' ->
  trace w' = trace w \/ exists e, trace w' = trace w ++ [e].
Proof. destruct 1; wsimpl; eauto. Qed.

Lemma steps_trace env reg top w w' :
  rtc (prim env reg top) w w' -> exists t, trace w' = trace w ++ t.
Proof.
  induction 1 as [|a b c Hab _ [t IH]]; [exists []; by rewrite app_nil_r|].
  apply prim_trace in Hab as [E|[e E]]; rewrite IH, E; [by eexists|].
  exists (e :: t). by rewrite <- app_assoc.
Qed.

Lemma new_trace_app w w' t : trace w' = trace w ++ t -> new_trace w w' = t.
Proof. intros E. unfold new_trace. rewrite E. by rewrite drop_app_length. Qed.

(** Once an install has been attempted, a hook for another event begins no
    install. *)
Lemma prim_no_second_install env reg top w w' :
  top <> WordpressInitialSetup -> prim env reg top w w' ->
  "attempted" ∈ State.install_state (state w) ->
  exists t, trace w' = trace w ++ t /\ Emitted WordpressInitialSetup ∉ t.
Proof.
  intros Htop H Ha.
  destruct H as [| | |e w He|ev w Hev|w _ Hr _| | | | | |]; wsimpl;
    try (exists []; rewrite app_nil_r; split; [done|set_solver]).
  - exists [e]. split; [done|]. intros Hin%list_elem_of_singleton. by eapply He.
  - exists [Emitted ev]. split; [done|]. intros Hin%list_elem_of_singleton.
    simplify_eq. destruct Hev as [?|[?|?]]; congruence.
  - rewrite Hr in Ha. exfalso. revert Ha. unfold first_time_ready. set_solver.
Qed.

Lemma steps_no_second_install env reg top w w' :
  top <> WordpressInitialSetup -> rtc (prim env reg top) w w' ->
  "attempted" ∈ State.install_state (state w) ->
  exists t, trace w' = trace w ++ t /\ Emitted WordpressInitialSetup ∉ t.
Proof.
  intros Htop. induction 1 as [|a b c Hab Hbc IH]; intros Ha.
  - exists []. rewrite app_nil_r. split; [done|set_solver].
  - destruct (prim_no_second_install env reg top a b Htop Hab Ha) as (t1 & E1 & N1).
    destruct IH as (t2 & E2 & N2).
    { apply prim_grows in Hab. set_solver. }
    exists (t1 ++ t2). split; [by rewrite E2, E1, <- app_assoc|].
    set_solver.
Qed.

(** ** The static database handler *)

Lemma static_db_values_eq env :
  static_db_values env =
  [or_none (Config.db_host (config env)); or_none (Config.db_name (config env));
   or_none (Config.db_user (config env)); or_none (Config.db_password (config env))].
Proof.
  unfold static_db_values, Config.items.
  destruct (Config.initial_settings (config env)),
    (Config.wp_plugin_openid_team_map (config env)),
    (Config.wp_plugin_akismet_key (config env)),
    (Config.wp_plugin_openstack_objectstorage_config (config env)); reflexivity.
Qed.

Lemma py_set_nonempty l : l <> [] -> py_set l <> [].
Proof.
  induction l as [|x l IH]; [done|]. intros _. cbn [py_set].
  destruct (existsb (pyobj_eqb x) l) eqn:E; [|done].
  apply IH. by destruct l.
Qed.

Lemma py_set_In x l : In x (py_set l) -> In x l.
Proof.
  induction l as [|y l IH]; [done|]. cbn [py_set].
  destruct (existsb (pyobj_eqb y) l); cbn; intuition.
Qed.

(** A set of plain values loses nothing when the set that holds the
    [dict_values] view is taken away from it. *)
Lemma py_difference_view (vals : list pyval) (vs : list pyval) :
  py_difference (py_set (OVal <$> vals)) (py_set [ODictValues vs])
  = py_set (OVal <$> vals).
Proof.
  unfold py_difference. cbn [py_set existsb].
  apply forallb_filter_id, forallb_forall. intros x Hx%py_set_In.
  apply in_map_iff in Hx as (v & <- & _). reflexivity.
Qed.

Lemma db_differences_nonempty (h n u p : pyval) (vs : list pyval) :
  py_nonempty
    (py_difference (py_set [OVal h; OVal n; OVal u; OVal p]) (py_set [ODictValues vs]))
  = true.
Proof.
  change [OVal h; OVal n; OVal u; OVal p] with (OVal <$> [h; n; u; p]).
  rewrite (py_difference_view [h; n; u; p] vs).
  pose proof (py_set_nonempty (OVal <$> [h; n; u; p])) as H.
  destruct (py_set _); [by destruct H|done].
Qed.

Lemma on_database_config_changed_eq em env w :
  on_database_config_changed em env w =
  if static_fires env (state w) then em WordpressStaticDatabaseChanged w else Some w.
Proof.
  unfold on_database_config_changed, static_fires.
  fold (static_db_values env).
  destruct (bool_decide _); [|done]. cbn [andb].
  destruct (py_any _); [|done].
  by rewrite db_differences_nonempty.
Qed.

(** ** Every dispatch ends *)

Lemma on_wordpress_uninitialised_eq em env w :
  on_wordpress_uninitialised em env w =
  let w1 := refresh_installed env w in
  if is_True (State.installed_successfully (state w1)) then Some w1
  else if bool_decide (State.install_state (state w1) = install_running) then Some w1
  else if bool_decide (State.install_state (state w1) = first_time_ready)
  then em WordpressInitialSetup (begin_install w1)
  else Some w1.
Proof. reflexivity. Qed.

Lemma refresh_installed_state env w :
  State.install_state (state (refresh_installed env w)) = State.install_state (state w)
  /\ State.has_db_relation (state (refresh_installed env w)) = State.has_db_relation (state w)
  /\ trace (refresh_installed env w) = trace w.
Proof.
  unfold refresh_installed. case_bool_decide; [|done].
  unfold LeadershipSettings.setdefault. by destruct (leader_data w !! "installed").
Qed.

Lemma attempted_not_ready (s : gset string) :
  "attempted" ∈ s -> s <> first_time_ready.
Proof. intros H ->. by vm_compute in H. Qed.

Lemma emit_S n env reg ev w :
  emit (S n) env reg ev w =
  notify (emit n env reg) env (observers reg ev) ev (log (Emitted ev) w).
Proof. reflexivity. Qed.

Lemma emit_config_changed_eq env reg n w :
  emit (S n) env reg ConfigChanged w =
  match on_database_config_changed (emit n env reg) env
          (on_config_changed env (log (Emitted ConfigChanged) w)) with
  | Some w2 =>
      if reg then on_wordpress_uninitialised (emit n env reg) env w2 else Some w2
  | None => None
  end.
Proof.
  rewrite emit_S, observers_config_changed. cbn [app notify call].
  destruct (on_database_config_changed _ _ _) as [w2|]; [|done].
  destruct reg; cbn [notify call]; [|done].
  by destruct (on_wordpress_uninitialised _ _ _).
Qed.

Lemma emit_static_eq env reg n w :
  emit (S n) env reg WordpressStaticDatabaseChanged w =
  on_database_changed (emit n env reg) env WordpressStaticDatabaseChanged
    (log (Emitted WordpressStaticDatabaseChanged) w).
Proof.
  rewrite emit_S, observers_static. cbn [notify call].
  by destruct (on_database_changed _ _ _ _).
Qed.

Lemma emit_initial_setup_eq env reg n w :
  emit (S n) env reg WordpressInitialSetup w =
  if reg
  then on_wordpress_initial_setup (emit n env reg) env (log (Emitted WordpressInitialSetup) w)
  else Some (log (Emitted WordpressInitialSetup) w).
Proof.
  rewrite emit_S, observers_initial_setup. destruct reg; cbn [notify call]; [|done].
  by destruct (on_wordpress_initial_setup _ _ _).
Qed.

Lemma emit_internal_static_off env reg n ev w w' :
  internal ev -> emit n env reg ev w = Some w' ->
  static_fires env (state w) = false -> static_fires env (state w') = false.
Proof.
  intros Hi H%emit_steps. unfold static_fires.
  destruct (py_any _); [|by rewrite !andb_false_r]. rewrite !andb_true_r.
  intros Hw%bool_decide_eq_false. apply bool_decide_eq_false.
  assert (Hdb : State.has_db_relation (state w) = true)
    by (by destruct (State.has_db_relation (state w))).
  rewrite (steps_has_db_relation_stays env reg ev w w'); [done| |done..].
  destruct Hi as [-> | [-> | ->] ]; done.
Qed.

Lemma emit_attempted env reg n ev w w' :
  emit n env reg ev w = Some w' ->
  "attempted" ∈ State.install_state (state w) ->
  "attempted" ∈ State.install_state (state w').
Proof. intros H%emit_steps%steps_grows. set_solver. Qed.

Lemma on_config_changed_state env w : state (on_config_changed env w) = state w.
Proof.
  unfold on_config_changed. rewrite is_valid_config_eq.
  destruct (_ && _); cbn [negb]; [|done].
  case_bool_decide; [case_bool_decide|]; done.
Qed.

Lemma get_initial_password_state env w :
  state (snd (_get_initial_password env w)) = state w.
Proof.
  unfold _get_initial_password.
  destruct (negb _); [destruct (is_leader env)|]; done.
Qed.

(** Static event off and gate closed: [ConfigChanged] emits nothing. *)
Lemma emit_config_changed_quiet env reg n w :
  static_fires env (state w) = false ->
  reg = false \/ "attempted" ∈ State.install_state (state w) ->
  exists w', emit (S n) env reg ConfigChanged w = Some w'.
Proof.
  intros Hs Hg. rewrite emit_config_changed_eq, on_database_config_changed_eq.
  rewrite on_config_changed_state. wsimpl. rewrite Hs.
  destruct reg; [|by eexists]. destruct Hg as [|Hg]; [done|].
  rewrite on_wordpress_uninitialised_eq. cbv zeta.
  set (w1 := on_config_changed env _).
  assert (Ha : "attempted" ∈ State.install_state (state (refresh_installed env w1))).
  { rewrite (proj1 (refresh_installed_state env w1)). unfold w1.
    by rewrite on_config_changed_state. }
  apply attempted_not_ready in Ha.
  repeat case_match; try by eexists.
  by case_bool_decide.
Qed.

Lemma emit_initial_setup_total env reg n w :
  static_fires env (state w) = false ->
  "attempted" ∈ State.install_state (state w) ->
  exists w', emit (S (S n)) env reg WordpressInitialSetup w = Some w'.
Proof.
  intros Hs Ha. rewrite emit_initial_setup_eq. destruct reg; [|by eexists].
  cbv beta zeta delta [on_wordpress_initial_setup].
  match goal with |- context [emit (S n) env true ConfigChanged ?x] => set (wa := x) end.
  destruct (emit_config_changed_quiet env true n wa) as [w2 E2]; [done|by right|].
  rewrite E2.
  pose proof (emit_internal_static_off _ _ _ _ _ _ (or_introl eq_refl) E2 Hs) as Hs2.
  pose proof (emit_attempted _ _ _ _ _ _ E2 Ha) as Ha2.
  pose proof (get_initial_password_state env w2) as G.
  destruct (_get_initial_password env w2) as [p w3]. cbn [snd] in G.
  destruct (is_False _); [by eexists|].
  match goal with |- context [emit (S n) env true ConfigChanged ?x] => set (wb := x) end.
  destruct (emit_config_changed_quiet env true n wb) as [w4 E4].
  - unfold wb. wsimpl. rewrite G. exact Hs2.
  - right. unfold wb. wsimpl. by rewrite G.
  - by eexists.
Qed.

Lemma begin_install_state w :
  "attempted" ∈ State.install_state (state (begin_install w))
  /\ State.has_db_relation (state (begin_install w)) = State.has_db_relation (state w).
Proof. unfold begin_install. wsimpl. split; [set_solver|done]. Qed.

Lemma static_fires_has_db env s s' :
  State.has_db_relation s' = State.has_db_relation s ->
  static_fires env s' = static_fires env s.
Proof. unfold static_fires. by intros ->. Qed.

Lemma on_wordpress_uninitialised_total env reg n w :
  static_fires env (state w) = false ->
  exists w', on_wordpress_uninitialised (emit (S (S n)) env reg) env w = Some w'.
Proof.
  intros Hs. rewrite on_wordpress_uninitialised_eq. cbv zeta.
  pose proof (refresh_installed_state env w) as (_ & Hdb & _).
  set (w1 := refresh_installed env w) in *.
  destruct (is_True _); [by eexists|].
  case_bool_decide; [by eexists|]. case_bool_decide; [|by eexists].
  apply emit_initial_setup_total.
  - rewrite (static_fires_has_db env (state w)); [done|].
    by rewrite (proj2 (begin_install_state w1)).
  - apply begin_install_state.
Qed.

(** Static event off: [ConfigChanged] may still begin the install. *)
Lemma emit_config_changed_static_off env reg n w :
  static_fires env (state w) = false ->
  exists w', emit (S (S (S n))) env reg ConfigChanged w = Some w'.
Proof.
  intros Hs. rewrite emit_config_changed_eq, on_database_config_changed_eq.
  rewrite on_config_changed_state. wsimpl. rewrite Hs.
  destruct reg; [|by eexists].
  apply on_wordpress_uninitialised_total. by rewrite on_config_changed_state.
Qed.

Lemma on_database_changed_total env reg n ev w :
  exists w', on_database_changed (emit (S (S (S n))) env reg) env ev w = Some w'.
Proof.
  unfold on_database_changed. destruct (event_db env ev) as [[[h1 h2] h3] h4].
  apply emit_config_changed_static_off. unfold static_fires.
  destruct (is_leader env); wsimpl; done.
Qed.

Lemma on_database_changed_has_db env reg n ev w w' :
  on_database_changed (emit n env reg) env ev w = Some w' ->
  State.has_db_relation (state w') = true.
Proof.
  unfold on_database_changed. destruct (event_db env ev) as [[[h1 h2] h3] h4].
  intros H%emit_steps.
  assert (Hc : ConfigChanged <> DbRelationBroken) by done.
  apply (steps_has_db_relation_stays env reg ConfigChanged _ _ Hc H).
  by destruct (is_leader env).
Qed.

Lemma on_wordpress_uninitialised_closed env em w :
  "attempted" ∈ State.install_state (state w) ->
  exists w', on_wordpress_uninitialised em env w = Some w'.
Proof.
  intros Ha. rewrite on_wordpress_uninitialised_eq. cbv zeta.
  assert (Hn : State.install_state (state (refresh_installed env w)) <> first_time_ready).
  { apply attempted_not_ready. by rewrite (proj1 (refresh_installed_state env w)). }
  repeat case_match; try by eexists.
  by case_bool_decide.
Qed.

(** Gate closed, static event possibly on. *)
Lemma emit_config_changed_closed env reg n w :
  reg = false \/ "attempted" ∈ State.install_state (state w) ->
  exists w', emit (S (S (S n))) env reg ConfigChanged w = Some w'.
Proof.
  intros Hg. rewrite emit_config_changed_eq, on_database_config_changed_eq.
  set (w1 := on_config_changed env _).
  assert (Hg1 : reg = false \/ "attempted" ∈ State.install_state (state w1)).
  { unfold w1. by rewrite on_config_changed_state. }
  assert (H2 : exists w2,
    (if static_fires env (state w1)
     then emit (S (S n)) env reg WordpressStaticDatabaseChanged w1
     else Some w1) = Some w2
    /\ (reg = false \/ "attempted" ∈ State.install_state (state w2))).
  { destruct (static_fires env (state w1)) eqn:Hs; [|by eexists].
    pose proof (emit_attempted env reg (S (S n)) WordpressStaticDatabaseChanged w1) as Hat.
    rewrite emit_static_eq in Hat |- *. unfold on_database_changed in Hat |- *.
    destruct (event_db env WordpressStaticDatabaseChanged) as [[[h1 h2] h3] h4].
    match goal with |- context [emit (S n) env reg ConfigChanged ?x] => set (wa := x) in * end.
    destruct (emit_config_changed_quiet env reg n wa) as [w2 E2].
    - unfold wa, static_fires. by destruct (is_leader env).
    - destruct Hg1 as [|Hg1]; [by left|right].
      unfold wa. destruct (is_leader env); wsimpl; set_solver.
    - exists w2. split; [done|]. destruct Hg1 as [|Hg1]; [by left|right].
      by apply Hat. }
  destruct H2 as (w2 & -> & Hg2).
  destruct reg; [|by eexists]. destruct Hg2 as [|Hg2]; [done|].
  by apply on_wordpress_uninitialised_closed.
Qed.

Lemma emit_initial_setup_closed env reg n w :
  "attempted" ∈ State.install_state (state w) ->
  exists w', emit (S (S (S (S n)))) env reg WordpressInitialSetup w = Some w'.
Proof.
  intros Ha. rewrite emit_initial_setup_eq. destruct reg; [|by eexists].
  cbv beta zeta delta [on_wordpress_initial_setup].
  match goal with |- context [emit _ env true ConfigChanged ?x] => set (wa := x) end.
  destruct (emit_config_changed_closed env true n wa) as [w2 E2]; [by right|].
  rewrite E2.
  pose proof (emit_attempted _ _ _ _ _ _ E2 Ha) as Ha2.
  pose proof (get_initial_password_state env w2) as G.
  destruct (_get_initial_password env w2) as [p w3]. cbn [snd] in G.
  destruct (is_False _); [by eexists|].
  apply emit_config_changed_closed. right. wsimpl. by rewrite G.
Qed.

Lemma on_wordpress_uninitialised_any env reg n w :
  exists w', on_wordpress_uninitialised (emit (S (S (S (S n)))) env reg) env w = Some w'.
Proof.
  rewrite on_wordpress_uninitialised_eq. cbv zeta.
  destruct (is_True _); [by eexists|].
  case_bool_decide; [by eexists|]. case_bool_decide; [|by eexists].
  apply emit_initial_setup_closed, begin_install_state.
Qed.

(** [ConfigChanged] from any state. *)
Lemma emit_config_changed_total env reg n w :
  exists w', emit (S (S (S (S (S n))))) env reg ConfigChanged w = Some w'.
Proof.
  rewrite emit_config_changed_eq, on_database_config_changed_eq.
  set (w1 := on_config_changed env _).
  assert (H2 : exists w2,
    (if static_fires env (state w1)
     then emit (S (S (S (S n)))) env reg WordpressStaticDatabaseChanged w1
     else Some w1) = Some w2 /\ static_fires env (state w2) = false).
  { destruct (static_fires env (state w1)) eqn:Hs; [|by eexists].
    rewrite emit_static_eq.
    destruct (on_database_changed_total env reg n WordpressStaticDatabaseChanged
                (log (Emitted WordpressStaticDatabaseChanged) w1)) as [w2 E2].
    exists w2. split; [done|].
    apply on_database_changed_has_db in E2. unfold static_fires. by rewrite E2. }
  destruct H2 as (w2 & -> & Hs2).
  destruct reg; [|by eexists].
  by apply (on_wordpress_uninitialised_total env true (S (S n))).
Qed.

(** Six levels of nested emissions are enough for every event. *)
Theorem emit_total env reg n ev w :
  exists w', emit (6 + n) env reg ev w = Some w'.
Proof.
  assert (Hcc : forall a, exists b, emit (5 + n) env reg ConfigChanged a = Some b)
    by apply emit_config_changed_total.
  change (6 + n) with (S (5 + n)). rewrite emit_S.
  assert (Hcall : forall h a, exists b, call (emit (5 + n) env reg) env h ev a = Some b).
  { intros h a. destruct h; cbn [call]; try by eexists.
    - apply Hcc.
    - apply Hcc.
    - apply Hcc.
    - rewrite on_database_config_changed_eq. destruct (static_fires _ _); [|by eexists].
      change (5 + n) with (S (4 + n)). rewrite emit_static_eq.
      apply (on_database_changed_total env reg (1 + n)).
    - apply (on_database_changed_total env reg (2 + n)).
    - apply Hcc.
    - apply (on_wordpress_uninitialised_any env reg (1 + n)).
    - cbv beta zeta delta [on_wordpress_initial_setup].
      match goal with |- context [emit (5 + n) env reg ConfigChanged ?x] =>
        destruct (Hcc x) as [w2 ->] end.
      destruct (_get_initial_password env w2) as [p w3].
      destruct (is_False _); [by eexists|]. apply Hcc. }
  generalize (log (Emitted ev) w).
  induction (observers reg ev) as [|h hs IH]; intros a; [by eexists|].
  cbn [notify]. destruct (Hcall h a) as [b ->]. apply IH.
Qed.

(** ** Invariants of the life of a unit *)

(** C2: once [installed_successfully] is [True], no sequence of hooks, for
    any events, on a leader or on a follower, and no change of the
    replicated settings by other units, sets it to anything else. *)
Theorem installed_monotonic (w w' : World) :
  rtc (step any_hook) w w' ->
  State.installed_successfully (state w) = PBool true ->
  State.installed_successfully (state w') = PBool true.
Proof.
  induction 1 as [|a b c Hab _ IH]; [done|].
  intros Ha. apply IH. destruct Hab as [env ev a b _ Hh|ld a]; [|done].
  apply hook_steps in Hh. unfold registered in Hh. rewrite Ha in Hh.
  change (is_False (PBool true)) with false in Hh.
  by rewrite (steps_installed_unregistered env ev a b Hh).
Qed.

Lemma installed_monotonic_witness :
  State.installed_successfully
    (state (or_same installed_world
              (hook (sample_env sample_config false) ConfigChanged installed_world)))
  = PBool true.
Proof.
  apply (installed_monotonic installed_world).
  - apply rtc_once.
    apply (step_hook any_hook (sample_env sample_config false) ConfigChanged).
    + exact I.
    + vm_compute. reflexivity.
  - reflexivity.
Defined.

(** C3 as stated fails at initialisation: with only [db_host] configured the
    stored credentials are a partial mix. *)
Lemma credentials_partial_at_init :
  ~ credentials_atomic (state (init_world partial_config)).
Proof.
  unfold credentials_atomic. cbn. intros [(H & _)|(_ & H & _)]; [done|by apply H].
Qed.

Lemma init_credentials_atomic (c : Config.t) :
  config_db_atomic c -> credentials_atomic (state (init_world c)).
Proof.
  unfold config_db_atomic, credentials_atomic, init_world, State.init, or_none. wsimpl.
  intros [(-> & -> & -> & ->)|(H1 & H2 & H3 & H4)]; [by left|right].
  apply String.eqb_neq in H1, H2, H3, H4. by rewrite H1, H2, H3, H4.
Qed.

(** C3, amended: when the declared [db_*] options are all blank or all set at
    first start, and every database-changed event of the relation carries
    four values that are all [None] or all set, the four stored credentials
    are all [None] or all set in every state the unit reaches. *)
Theorem credentials_stay_atomic (c : Config.t) (w : World) :
  config_db_atomic c ->
  rtc (step (fun _ event => payload_atomic event)) (init_world c) w ->
  credentials_atomic (state w).
Proof.
  intros Hc H. apply rtc_ind_r with (P := fun w => credentials_atomic (state w)) in H.
  - exact H.
  - by apply init_credentials_atomic.
  - intros a b _ Hab Ha. destruct Hab as [env ev a b Hev Hh|ld a]; [|done].
    apply hook_steps in Hh.
    by apply (steps_credentials_atomic env (registered a) ev a b).
Qed.

Lemma credentials_stay_atomic_witness :
  credentials_atomic
    (state (or_same (init_world sample_config)
              (hook (sample_env sample_config true)
                 (DatabaseChanged (PStr "db.local") (PStr "wp") (PStr "u") (PStr "p"))
                 (init_world sample_config)))).
Proof.
  apply (credentials_stay_atomic sample_config).
  - right. repeat split; discriminate.
  - apply rtc_once.
    apply (step_hook _ (sample_env sample_config true)
             (DatabaseChanged (PStr "db.local") (PStr "wp") (PStr "u") (PStr "p"))).
    + right. repeat split; discriminate.
    + vm_compute. reflexivity.
Defined.

(** C4 as stated fails for [on_ingress_relation_broken]: it takes "ingress"
    out of the install state while the install has not completed. *)
Lemma ingress_broken_shrinks_install_state :
  let w :=
    set_state (State.set_install_state {["ingress"]}) (init_world sample_config) in
  exists w',
    on_ingress_relation_broken (emit hook_fuel (sample_env sample_config true) true) w
    = Some w'
    /\ State.installed_successfully (state w) = PBool false
    /\ "ingress" ∈ State.install_state (state w)
    /\ "ingress" ∉ State.install_state (state w').
Proof.
  cbv zeta. eexists. split; [vm_compute; reflexivity|].
  split; [reflexivity|]. split; [by vm_compute|].
  intros H. by vm_compute in H.
Qed.

(** C4, amended: every hook, whatever its event, runs to its end and leaves
    the install state a superset of what it was: the handlers that
    [__init__] registers only add to it.  ([on_ingress_relation_broken],
    which removes "ingress", is not among them.) *)
Theorem install_state_only_grows (env : Env) (event : Event) (w : World) :
  exists w', hook env event w = Some w'
  /\ State.install_state (state w) ⊆ State.install_state (state w').
Proof.
  destruct (emit_total env (registered w) 0 event w) as [w' H].
  exists w'. split; [exact H|]. by apply hook_steps, steps_grows in H.
Qed.

(** ** Strings: splitting and matching *)

Lemma cons_head_app a (l1 l2 : list string) :
  l1 <> [] -> Str.cons_head a (l1 ++ l2) = Str.cons_head a l1 ++ l2.
Proof. by destruct l1. Qed.

Lemma fields_nonempty p s : Str.fields p s <> [].
Proof. destruct s as [|a s]; cbn; [done|]. destruct (p a); [done|]. by destruct (Str.fields p s). Qed.

(** Splitting on a one-character separator cuts at each occurrence of it. *)
Lemma split_single_char (c : ascii) (s : string) :
  Str.split s (Str.Sep c "") = Str.fields (fun a => Ascii.eqb a c) s.
Proof.
  unfold Str.split. induction s as [|a s IH]; [done|].
  cbn. rewrite andb_true_r. by rewrite IH.
Qed.

Lemma juju_setting_to_list_default s :
  juju_setting_to_list s default_split_char = Str.fields is_space s.
Proof. apply split_single_char. Qed.

(** *** The derivative matcher *)

Lemma dead_not_nullable r : Re.dead r = true -> Re.nullable r = false.
Proof.
  induction r; cbn; try done.
  - intros [H|H]%orb_true_iff; [rewrite IHr1|rewrite IHr2]; try done. apply andb_false_r.
  - intros [H1 H2]%andb_true_iff. by rewrite IHr1, IHr2.
Qed.

Lemma dead_deriv a r : Re.dead r = true -> Re.dead (Re.deriv a r) = true.
Proof.
  induction r; cbn; try done.
  - intros [H|H]%orb_true_iff.
    + rewrite (IHr1 H). cbn. by rewrite (dead_not_nullable r1 H).
    + rewrite H, orb_true_r. cbn. destruct (Re.nullable r1); [by apply IHr2|done].
  - intros [H1 H2]%andb_true_iff. by rewrite IHr1, IHr2.
Qed.

Lemma dead_accepts r s : Re.dead r = true -> Re.accepts r s = false.
Proof.
  revert r. induction s as [|a s IH]; intros r H; cbn.
  - by apply dead_not_nullable.
  - by apply IH, dead_deriv.
Qed.

Lemma deriv_outside a r : Re.alphabet r a = false -> Re.dead (Re.deriv a r) = true.
Proof.
  induction r; cbn; try done.
  - by intros ->.
  - intros [H1 H2]%orb_false_iff. rewrite (IHr1 H1). cbn.
    destruct (Re.nullable r1); [by apply IHr2|done].
  - intros [H1 H2]%orb_false_iff. by rewrite IHr1, IHr2.
  - intros H. by rewrite IHr.
Qed.

Lemma deriv_alphabet a b r :
  Re.alphabet (Re.deriv b r) a = true -> Re.alphabet r a = true.
Proof.
  induction r; cbn; try done.
  - by destruct (Re.in_cls b c).
  - intros [[H|H]%orb_true_iff|H]%orb_true_iff.
    + by rewrite IHr1.
    + by rewrite H, orb_true_r.
    + destruct (Re.nullable r1); [|done]. by rewrite IHr2, orb_true_r.
  - intros [H|H]%orb_true_iff; [by rewrite IHr1|by rewrite IHr2, orb_true_r].
  - intros [H|H]%orb_true_iff; [by apply IHr|done].
Qed.

(** A matched string is made of characters of the classes of the pattern. *)
Lemma accepts_alphabet r s a :
  Re.accepts r s = true -> Str.mem a s = true -> Re.alphabet r a = true.
Proof.
  revert r. induction s as [|b s IH]; intros r Hacc Hin; [done|].
  cbn in Hacc, Hin. apply orb_true_iff in Hin as [Hin|Hin].
  - apply Ascii.eqb_eq in Hin as ->.
    destruct (Re.alphabet r b) eqn:E; [done|].
    by rewrite (dead_accepts _ s (deriv_outside b r E)) in Hacc.
  - eapply deriv_alphabet, IH; done.
Qed.

Lemma domain_alphabet_no_whitespace a :
  Re.alphabet valid_domain_name_pattern a = true -> Str.isspace a = false.
Proof. destruct a as [[] [] [] [] [] [] [] []]; vm_compute; congruence. Qed.

Lemma domain_not_empty : Re.accepts valid_domain_name_pattern "" = false.
Proof. reflexivity. Qed.

Lemma accepted_no_whitespace s a :
  Re.accepts valid_domain_name_pattern s = true -> Str.mem a s = true ->
  Str.isspace a = false.
Proof. intros H1 H2. eapply domain_alphabet_no_whitespace, accepts_alphabet; done. Qed.

(** *** Entries and words *)

Lemma is_space_isspace a : is_space a = true -> Str.isspace a = true.
Proof. intros ->%Ascii.eqb_eq. reflexivity. Qed.

(** Cutting at whitespace is cutting at spaces, then cutting each entry at
    whitespace. *)
Lemma fields_isspace_of_entries s :
  Str.fields Str.isspace s = concat (Str.fields Str.isspace <$> Str.fields is_space s).
Proof.
  induction s as [|a s IH]; [done|]. cbn [Str.fields].
  destruct (is_space a) eqn:Ea.
  - rewrite (is_space_isspace a Ea). cbn. by rewrite IH.
  - pose proof (fields_nonempty is_space s) as Hne.
    destruct (Str.fields is_space s) as [|h t] eqn:Eh; [done|].
    cbn [Str.cons_head fmap list_fmap concat] in *. rewrite IH. cbn [Str.fields].
    destruct (Str.isspace a); [done|].
    apply cons_head_app, fields_nonempty.
Qed.

Lemma words_of_entries s :
  Str.words s = concat (Str.words <$> Str.fields is_space s).
Proof.
  unfold Str.words. rewrite fields_isspace_of_entries.
  induction (Str.fields is_space s) as [|e l IH]; [done|].
  cbn [fmap list_fmap concat] in *. by rewrite List.filter_app, IH.
Qed.

Lemma fields_whole p s :
  (forall a, Str.mem a s = true -> p a = false) -> Str.fields p s = [s].
Proof.
  induction s as [|a s IH]; intros H; [done|]. cbn.
  rewrite (H a); [|by cbn; rewrite Ascii.eqb_refl].
  rewrite IH; [done|]. intros b Hb. apply H. cbn. by rewrite Hb, orb_true_r.
Qed.

Lemma fields_snoc p s s' z :
  Str.unsnoc s = Some (s', z) -> p z = true ->
  (forall a, Str.mem a s' = true -> p a = false) ->
  Str.fields p s = [s'; ""].
Proof.
  revert s'. induction s as [|a s IH]; intros s' Hu Hz H; [done|].
  cbn in Hu. destruct (Str.unsnoc s) as [[r y]|] eqn:Er.
  - simplify_eq. cbn [Str.fields].
    rewrite (H a); [|by cbn; rewrite Ascii.eqb_refl].
    rewrite (IH r); [done..|]. intros b Hb. apply H. cbn. by rewrite Hb, orb_true_r.
  - simplify_eq. destruct s; [|by cbn in Er; destruct (Str.unsnoc s) as [[]|]].
    cbn. by rewrite Hz.
Qed.

(** The words of an entry that matches are that one host name. *)
Lemma words_of_matching_entry e :
  hostname_match e = true ->
  exists h, Str.words e = [h] /\ Re.accepts valid_domain_name_pattern h = true.
Proof.
  unfold hostname_match, Re.match_anchored. intros [H|H]%orb_true_iff.
  - exists e. split; [|done]. unfold Str.words.
    rewrite fields_whole; [|intros a; by apply accepted_no_whitespace].
    cbn. destruct e; [by rewrite domain_not_empty in H|done].
  - destruct (Str.unsnoc e) as [[e' z]|] eqn:Eu; [|done].
    apply andb_true_iff in H as [Hz%Ascii.eqb_eq H]. subst z.
    exists e'. split; [|done]. unfold Str.words.
    rewrite (fields_snoc Str.isspace e e' "010"%char Eu eq_refl);
      [|intros a; by apply accepted_no_whitespace].
    cbn. destruct e'; [by rewrite domain_not_empty in H|done].
Qed.

Lemma words_of_matching_entries l h :
  forallb hostname_match l = true -> In h (concat (Str.words <$> l)) ->
  Re.accepts valid_domain_name_pattern h = true.
Proof.
  induction l as [|e l IH]; [done|]. cbn [forallb fmap list_fmap concat].
  intros [He Hl]%andb_true_iff [Hin|Hin]%in_app_or; [|by apply IH].
  destruct (words_of_matching_entry e He) as (h' & E & Hacc).
  rewrite E in Hin. destruct Hin as [<-|[]]. done.
Qed.

(** *** Misplaced whitespace *)

Lemma empty_entry_after_space s :
  ends_with_space s = true \/ double_space s = true ->
  In "" (tail (Str.fields is_space s)).
Proof.
  induction s as [|a s IH]; [intros [H|H]; discriminate H|].
  intros H. cbn [Str.fields].
  assert (Hstep : In "" (tail (Str.fields is_space s)) ->
    In "" (tail (if is_space a then "" :: Str.fields is_space s
                 else Str.cons_head a (Str.fields is_space s)))).
  { intros Hin. destruct (is_space a); cbn [tail].
    - destruct (Str.fields is_space s); [done|]. by right.
    - by destruct (Str.fields is_space s). }
  destruct H as [H|H].
  - cbn [ends_with_space] in H. destruct s as [|b s].
    + rewrite H. cbn. by left.
    + apply Hstep, IH. by left.
  - cbn [double_space] in H. apply orb_true_iff in H as [H|H].
    + apply andb_true_iff in H as [Ha Hs]. rewrite Ha. cbn [tail].
      destruct s as [|b s]; [done|]. cbn in Hs. cbn [Str.fields]. rewrite Hs. by left.
    + apply Hstep, IH. by right.
Qed.

Lemma empty_entry s :
  starts_with_space s || ends_with_space s || double_space s = true ->
  In "" (Str.fields is_space s).
Proof.
  intros [[H|H]%orb_true_iff|H]%orb_true_iff.
  - destruct s as [|a s]; [done|]. cbn in H. cbn. rewrite H. by left.
  - pose proof (empty_entry_after_space s (or_introl H)) as Hin.
    destruct (Str.fields is_space s); [done|]. by right.
  - pose proof (empty_entry_after_space s (or_intror H)) as Hin.
    destruct (Str.fields is_space s); [done|]. by right.
Qed.

Lemma first_entry_empty s h t :
  Str.fields is_space s = h :: t -> h = "" ->
  String.eqb s "" || starts_with_space s = true.
Proof.
  destruct s as [|a s]; [reflexivity|]. cbn [Str.fields starts_with_space].
  destruct (is_space a); [intros; apply orb_true_r|].
  destruct (Str.fields is_space s); cbn; intros ? ?; simplify_eq.
Qed.

Lemma stray_in_entry s :
  stray_whitespace s = true ->
  Exists (fun e => stray_whitespace e = true) (Str.fields is_space s).
Proof.
  induction s as [|a s IH]; [done|]. cbn [stray_whitespace Str.fields].
  destruct (Str.fields is_space s) as [|h t] eqn:Eh; [by destruct (fields_nonempty is_space s)|].
  intros [H|H]%orb_true_iff.
  - apply andb_true_iff in H as [H Hnl]. apply andb_true_iff in H as [Hws Hsp].
    apply negb_true_iff in Hsp. rewrite Hsp. cbn [Str.cons_head].
    apply Exists_cons_hd. cbn [stray_whitespace]. rewrite Hws, Hsp. cbn [negb andb].
    apply orb_true_iff. left. apply negb_true_iff. apply negb_true_iff in Hnl.
    destruct (is_newline a); [|done]. cbn [andb] in *.
    destruct h as [|b h]; [by rewrite (first_entry_empty s "" t Eh eq_refl) in Hnl|].
    cbn. destruct (is_space b) eqn:Eb; [|done].
    exfalso. clear -Eh Eb. revert Eh. destruct s as [|c s]; [done|]. cbn.
    destruct (is_space c) eqn:Ec; [done|].
    destruct (Str.fields is_space s); cbn; intros ?; simplify_eq; congruence.
  - specialize (IH H). destruct (is_space a); [by apply Exists_cons_tl|].
    cbn [Str.cons_head]. apply Exists_cons in IH as [IH|IH].
    + apply Exists_cons_hd. cbn [stray_whitespace]. rewrite IH. apply orb_true_r.
    + by apply Exists_cons_tl.
Qed.

Lemma no_whitespace_no_stray s :
  (forall a, Str.mem a s = true -> Str.isspace a = false) -> stray_whitespace s = false.
Proof.
  induction s as [|a s IH]; intros H; [done|]. cbn [stray_whitespace].
  rewrite (H a); [|by cbn; rewrite Ascii.eqb_refl]. cbn [andb orb].
  apply IH. intros b Hb. apply H. cbn. by rewrite Hb, orb_true_r.
Qed.

Lemma final_newline_no_stray s s' :
  Str.unsnoc s = Some (s', "010"%char) ->
  (forall a, Str.mem a s' = true -> Str.isspace a = false) -> stray_whitespace s = false.
Proof.
  revert s'. induction s as [|a s IH]; intros s' Hu H; [done|].
  cbn in Hu. destruct (Str.unsnoc s) as [[r y]|] eqn:Er.
  - simplify_eq. cbn [stray_whitespace].
    rewrite (H a); [|by cbn; rewrite Ascii.eqb_refl]. cbn [andb orb].
    apply (IH r); [done|]. intros b Hb. apply H. cbn. by rewrite Hb, orb_true_r.
  - simplify_eq. destruct s; [done|]. by cbn in Er; destruct (Str.unsnoc s) as [[]|].
Qed.

(** An entry with misplaced whitespace does not match. *)
Lemma stray_entry_rejected e :
  stray_whitespace e = true -> hostname_match e = false.
Proof.
  intros Hs. destruct (hostname_match e) eqn:Hm; [|done].
  unfold hostname_match, Re.match_anchored in Hm. apply orb_true_iff in Hm as [H|H].
  - rewrite no_whitespace_no_stray in Hs; [done|].
    intros a. by apply accepted_no_whitespace.
  - destruct (Str.unsnoc e) as [[e' z]|] eqn:Eu; [|done].
    apply andb_true_iff in H as [Hz%Ascii.eqb_eq H]. subst z.
    rewrite (final_newline_no_stray e e' Eu) in Hs; [done|].
    intros a. by apply accepted_no_whitespace.
Qed.

Lemma badly_spaced_rejected s :
  starts_with_space s || ends_with_space s || double_space s || stray_whitespace s = true ->
  forallb hostname_match (juju_setting_to_list s default_split_char) = false.
Proof.
  rewrite juju_setting_to_list_default. intros [H|H]%orb_true_iff.
  - apply empty_entry in H. apply not_true_is_false. intros Hall.
    rewrite forallb_forall in Hall. by specialize (Hall "" H).
  - apply stray_in_entry in H. apply not_true_is_false. intros Hall.
    rewrite forallb_forall in Hall.
    apply Exists_exists in H as (e & Hin & He).
    apply list_elem_of_In in Hin. specialize (Hall e Hin).
    by rewrite (stray_entry_rejected e He) in Hall.
Qed.

(** ** The validator *)

Lemma new_trace_log_all es w : new_trace w (log_all es w) = es.
Proof. unfold new_trace, log_all. cbn. by rewrite drop_app_length. Qed.

(** C6 as stated fails: on an installed unit whose relation has not provided
    credentials yet, the four checks that the claim lists pass (the [db_*]
    options are not blank), and the validator answers [False] all the same. *)
Lemma unresolved_credentials_fail :
  let env := sample_env sample_config true in
  let w := awaiting_credentials_world in
  installed_check w = true
  /\ initial_settings_check env = true
  /\ forallb (fun k => negb (blank env k))
       ["image"; "db_host"; "db_name"; "db_user"; "db_password"] = true
  /\ hostnames_check env = true
  /\ fst (is_valid_config env w) = false.
Proof. vm_compute. done. Qed.

(** C6, amended: the validator runs all its checks without stopping at the
    first failure: the installed flag, [initial_settings], the resolved
    database credentials (a failure by itself when they are not all set),
    the required options that must not be blank, and the syntax of the
    additional host names.  Its verdict is the conjunction of the five, each
    failed check that has a message sets its status, in the order of the
    checks, and [on_config_changed] does nothing more when the verdict is
    [False], while it ends with the active status and the ingress update
    when the verdict is [True]. *)
Theorem validator_accumulates (env : Env) (w : World) :
  fst (is_valid_config env w)
  = installed_check w && initial_settings_check env && db_check env w
    && negb (py_nonempty (missing_fields env w)) && hostnames_check env
  /\ snd (is_valid_config env w) = log_all (SetStatus <$> validator_statuses env w) w
  /\ (fst (is_valid_config env w) = false ->
      on_config_changed env w = snd (is_valid_config env w))
  /\ (fst (is_valid_config env w) = true ->
      exists t,
        new_trace w (on_config_changed env w)
        = t ++ [SetStatus (ActiveStatus "WordPress service is live!");
                IngressUpdate (ingress_config env)]).
Proof.
  rewrite is_valid_config_eq. cbn [fst snd]. split; [done|]. split; [done|].
  unfold on_config_changed. rewrite is_valid_config_eq.
  set (v := _ && _). set (w1 := log_all _ w).
  split; intros Hv; rewrite Hv; cbn [negb]; [done|].
  assert (H1 : trace w1 = trace w ++ (SetStatus <$> validator_statuses env w)) by done.
  clearbody w1.
  match goal with |- context [set_status _ ?x] => set (w2 := x) end.
  assert (H2 : exists t, trace w2 = trace w1 ++ t).
  { unfold w2. case_bool_decide; [|exists []; by rewrite app_nil_r].
    case_bool_decide; wsimpl; rewrite <- ?app_assoc; by eexists. }
  destruct H2 as [t H2]. clearbody w2.
  exists ((SetStatus <$> validator_statuses env w) ++ t).
  apply new_trace_app. wsimpl. rewrite H2, H1. by rewrite <- !app_assoc.
Qed.

Lemma is_valid_hostnames_check env w :
  fst (is_valid_config env w) = true -> hostnames_check env = true.
Proof. rewrite is_valid_config_eq. cbn [fst]. by intros [_ H]%andb_true_iff. Qed.

Lemma hostnames_check_false env w :
  hostnames_check env = false -> fst (is_valid_config env w) = false.
Proof. rewrite is_valid_config_eq. cbn [fst]. intros ->. apply andb_false_r. Qed.

Lemma truthy_nonempty s : s <> "" -> truthy (PStr s) = true.
Proof. intros H%String.eqb_neq. cbn. by rewrite H. Qed.

Lemma hostnames_check_with h env :
  hostnames_check (with_additional_hostnames h env)
  = negb (truthy (PStr h))
    || forallb hostname_match (juju_setting_to_list h default_split_char).
Proof. reflexivity. Qed.

Lemma blank_with h env k :
  In k ["image"; "db_host"; "db_name"; "db_user"; "db_password"] ->
  blank (with_additional_hostnames h env) k = blank env k.
Proof. intros [<-|[<-|[<-|[<-|[<-|[]]]]]]; reflexivity. Qed.

(** The other checks do not read [additional_hostnames]. *)
Lemma is_valid_config_with h env w :
  fst (is_valid_config (with_additional_hostnames h env) w)
  = installed_check w && initial_settings_check env && db_check env w
    && negb (py_nonempty (missing_fields env w))
    && (negb (truthy (PStr h))
        || forallb hostname_match (juju_setting_to_list h default_split_char)).
Proof.
  rewrite is_valid_config_eq. cbn [fst]. rewrite hostnames_check_with.
  change (initial_settings_check (with_additional_hostnames h env))
    with (initial_settings_check env).
  change (db_check (with_additional_hostnames h env) w) with (db_check env w).
  do 2 f_equal. unfold missing_fields, wanted.
  change (db_check (with_additional_hostnames h env) w) with (db_check env w).
  destruct (db_check env w); cbn [List.filter];
    rewrite ?(blank_with h env) by (cbn; tauto); reflexivity.
Qed.

(** C7: when [additional_hostnames] is not empty, the configuration is valid
    only if every entry that [juju_setting_to_list] yields, and so every
    whitespace-delimited word of the option, matches the pattern;
    "blog.example.com" and "a-b.example.io" do not change the verdict,
    "Blog.Example.com" and "example" make it [False]. *)
Theorem additional_hostnames_checked (env : Env) (w : World) :
  Config.additional_hostnames (config env) <> "" ->
  (fst (is_valid_config env w) = true ->
   (forall h, In h (juju_setting_to_list (Config.additional_hostnames (config env))
                      default_split_char) -> hostname_match h = true)
   /\ (forall h, In h (Str.words (Config.additional_hostnames (config env))) ->
         hostname_match h = true))
  /\ (forall h, In h ["blog.example.com"; "a-b.example.io"] ->
        fst (is_valid_config (with_additional_hostnames h env) w)
        = fst (is_valid_config (with_additional_hostnames "" env) w))
  /\ (forall h, In h ["Blog.Example.com"; "example"] ->
        fst (is_valid_config (with_additional_hostnames h env) w) = false).
Proof.
  intros Hne. split; [|split].
  - intros Hv%is_valid_hostnames_check. unfold hostnames_check in Hv.
    rewrite (truthy_nonempty _ Hne) in Hv. cbn [negb orb] in Hv.
    split.
    + by apply forallb_forall.
    + intros h Hh. rewrite words_of_entries in Hh.
      rewrite juju_setting_to_list_default in Hv.
      unfold hostname_match, Re.match_anchored.
      by rewrite (words_of_matching_entries _ h Hv Hh).
  - intros h Hh. rewrite !is_valid_config_with.
    destruct Hh as [<-|[<-|[]]]; reflexivity.
  - intros h Hh. rewrite is_valid_config_with.
    destruct Hh as [<-|[<-|[]]]; apply andb_false_r.
Qed.

Lemma additional_hostnames_checked_witness :
  let env :=
    with_additional_hostnames "blog.example.com a-b.example.io"
      (sample_env sample_config true) in
  fst (is_valid_config env installed_world) = true
  /\ forall h, In h (Str.words (Config.additional_hostnames (config env))) ->
       hostname_match h = true.
Proof.
  cbv zeta. split; [by vm_compute|].
  refine (proj2 (proj1 (additional_hostnames_checked _ installed_world _) _)).
  - discriminate.
  - by vm_compute.
Defined.

(** C10 as stated fails: a host name followed by a newline contains
    whitespace other than the space, and the configuration is accepted,
    because [$] also matches just before a final newline. *)
Lemma final_newline_accepted :
  other_whitespace newline_terminated_hostname = true
  /\ fst (is_valid_config
            (with_additional_hostnames newline_terminated_hostname
               (sample_env sample_config true))
            installed_world) = true.
Proof. split; by vm_compute. Qed.

(** C10, amended: [additional_hostnames] is split on the space only, so a
    leading space, a trailing space, two spaces in a row, or any other
    whitespace character that is not a newline ending an entry, yields an
    entry that does not match, and the configuration is rejected with the
    "Invalid additional hostnames" status whatever the host names are. *)
Theorem misplaced_whitespace_rejected (env : Env) (w : World) :
  starts_with_space (Config.additional_hostnames (config env))
  || ends_with_space (Config.additional_hostnames (config env))
  || double_space (Config.additional_hostnames (config env))
  || stray_whitespace (Config.additional_hostnames (config env)) = true ->
  fst (is_valid_config env w) = false
  /\ In (SetStatus (BlockedStatus ("Invalid additional hostnames supplied: "
                                   +:+ Config.additional_hostnames (config env))))
        (new_trace w (snd (is_valid_config env w))).
Proof.
  intros H.
  assert (Hc : hostnames_check env = false).
  { unfold hostnames_check. rewrite (badly_spaced_rejected _ H).
    destruct (Config.additional_hostnames (config env)); [done|reflexivity]. }
  split; [by apply hostnames_check_false|].
  rewrite is_valid_config_eq. cbn [snd]. rewrite new_trace_log_all.
  unfold validator_statuses. rewrite Hc. rewrite !fmap_app.
  apply in_or_app. right. apply in_or_app. right. by left.
Qed.

Lemma misplaced_whitespace_rejected_witness :
  fst (is_valid_config
         (with_additional_hostnames "blog.example.com  a-b.example.io"
            (sample_env sample_config true))
         installed_world) = false.
Proof.
  refine (proj1 (misplaced_whitespace_rejected _ installed_world _)).
  by vm_compute.
Defined.

(** ** The install gate *)

(** C1 as stated fails on a follower: its stored flag is [False] and its
    install state is the ready set, but the leader has replicated
    "installed", so the gate stays closed. *)
Lemma follower_gate_closed :
  let env := sample_env sample_config false in
  let w := replicated_install_world in
  State.installed_successfully (state w) = PBool false
  /\ State.install_state (state w) = first_time_ready
  /\ exists w',
       on_wordpress_uninitialised (emit hook_fuel env true) env w = Some w'
       /\ ("attempted" ∉ State.install_state (state w'))
       /\ new_trace w w' = [].
Proof.
  cbv zeta. split; [reflexivity|]. split; [reflexivity|].
  eexists. split; [vm_compute; reflexivity|].
  split; [|reflexivity]. intros H. by vm_compute in H.
Qed.

Lemma refresh_installed_leader env w :
  is_leader env = true -> refresh_installed env w = w.
Proof. unfold refresh_installed. by intros ->. Qed.

(** C1, amended: the gate looks at the effective installed flag: the stored
    flag on the leader, on a follower the replicated "installed" value, which
    first overwrites the stored flag.  When that flag is not [True], the
    handler begins the install if and only if the install state equals
    {"leader", "db", "ingress"}: it then adds "attempted" and emits the
    initial-setup event, exactly once.  In every other case, the running set
    {"attempted", "ingress", "db", "leader"} included, it does nothing
    beyond the follower's reading of the flag: the install state is
    unchanged and nothing is emitted. *)
Theorem install_gate_exact (env : Env) (n : nat) (w : World) :
  exists w',
    on_wordpress_uninitialised (emit (4 + n) env true) env w = Some w'
    /\ (gate_open env w ->
        "attempted" ∈ State.install_state (state w')
        /\ exists t, new_trace w w' = (Emitted WordpressInitialSetup :: t)
                     /\ Emitted WordpressInitialSetup ∉ t)
    /\ (~ gate_open env w ->
        w' = refresh_installed env w
        /\ State.install_state (state w') = State.install_state (state w)
        /\ new_trace w w' = []).
Proof.
  rewrite on_wordpress_uninitialised_eq. cbv zeta. unfold gate_open, effective_installed.
  pose proof (refresh_installed_state env w) as (Hset & _ & Htr).
  set (w1 := refresh_installed env w) in *.
  assert (Hquiet : State.install_state (state w1) = State.install_state (state w)
                   /\ new_trace w w1 = []).
  { split; [done|]. unfold new_trace. rewrite Htr. apply drop_all. }
  destruct (is_True _) eqn:Ht.
  { exists w1. split; [done|]. apply bool_decide_eq_true in Ht.
    split; [by intros [? _]|done]. }
  apply bool_decide_eq_false in Ht.
  case_bool_decide as Hrun.
  { exists w1. split; [done|]. split; [|done]. intros [_ Hr].
    rewrite Hset, Hr in Hrun. by vm_compute in Hrun. }
  case_bool_decide as Hready.
  - destruct (emit_initial_setup_closed env true n (begin_install w1)) as [w' E].
    { apply begin_install_state. }
    exists w'. split; [exact E|]. split; [|intros Hno; destruct Hno; by rewrite <- Hset].
    intros _.
    assert (Hsteps : rtc (prim env true ConfigChanged)
                       (log (Emitted WordpressInitialSetup) (begin_install w1)) w').
    { revert E. apply emit_body_steps; [left; right; by right|right; by left]. }
    split.
    + apply steps_grows in Hsteps. apply Hsteps. apply begin_install_state.
    + apply steps_no_second_install in Hsteps as (t & Et & Ht'); [|done|apply begin_install_state].
      exists t. split; [|done]. apply new_trace_app.
      rewrite Et. cbn [trace log begin_install set_state]. rewrite Htr.
      by rewrite <- app_assoc.
  - exists w1. split; [done|]. split; [|done]. intros [_ Hr]. by rewrite Hset in Hready.
Qed.

(** ** The static database configuration *)

(** C5 as stated fails: with no relation and stored credentials that differ
    from the declared options, nothing is emitted when every [db_*] option
    is blank. *)
Lemma blank_static_config_not_signalled :
  let env := sample_env blank_db_config true in
  let w := init_world sample_config in
  State.has_db_relation (state w) = false
  /\ db_values_differ env (state w) = true
  /\ on_database_config_changed (emit hook_fuel env true) env w = Some w.
Proof. cbv zeta. split; [reflexivity|]. split; by vm_compute. Qed.

(** C5, amended: the handler does nothing when the unit has a database
    relation or when every [db_*] option is blank; without a relation and
    with at least one [db_*] option set, it emits the static database event
    when the stored credentials differ from the declared values. *)
Theorem static_database_signal (env : Env) (reg : bool) (n : nat) (w : World) :
  exists w',
    on_database_config_changed (emit (4 + n) env reg) env w = Some w'
    /\ (State.has_db_relation (state w) = true \/ py_any (static_db_values env) = false ->
        w' = w)
    /\ (State.has_db_relation (state w) = false ->
        py_any (static_db_values env) = true ->
        db_values_differ env (state w) = true ->
        In (Emitted WordpressStaticDatabaseChanged) (new_trace w w')).
Proof.
  rewrite on_database_config_changed_eq. unfold static_fires.
  destruct (State.has_db_relation (state w)) eqn:Hdb.
  { exists w. split; [done|]. split; [done|]. done. }
  destruct (py_any (static_db_values env)) eqn:Hany.
  2:{ exists w. split; [done|]. split; [done|]. done. }
  cbn [bool_decide decide_rel andb]. change (bool_decide (false = false)) with true.
  cbn [andb].
  change (4 + n) with (S (3 + n)). rewrite emit_static_eq.
  destruct (on_database_changed_total env reg n WordpressStaticDatabaseChanged
              (log (Emitted WordpressStaticDatabaseChanged) w)) as [w' E].
  exists w'. split; [exact E|]. split; [by intros [|]|]. intros _ _ _.
  rewrite <- emit_static_eq in E.
  apply (emit_body_steps env reg WordpressStaticDatabaseChanged) in E; [|by right|by left].
  apply steps_trace in E as [t Et]. cbn [trace log] in Et.
  rewrite <- app_assoc in Et. rewrite (new_trace_app _ _ _ Et). by left.
Qed.

(** ** The initial password *)

(** C9: on a follower, before the leader has set the initial password, the
    replicated value reads as [None], nothing is written, and the action
    fails with "Initial password has not been set yet."; the hook runs to
    its end. *)
Theorem initial_password_not_set (env : Env) (w : World) :
  is_leader env = false ->
  leader_data w !! "initial_password" = None ->
  LeadershipSettings.getitem (leader_data w) "initial_password" = PNone
  /\ _get_initial_password env w = (PNone, w)
  /\ _on_get_initial_password_action env w
     = log (ActionFail "Initial password has not been set yet.") w
  /\ hook env GetInitialPasswordAction w
     = Some (log (ActionFail "Initial password has not been set yet.")
               (log (Emitted GetInitialPasswordAction) w)).
Proof.
  intros Hl Hnone.
  assert (Hgen : forall w0, leader_data w0 !! "initial_password" = None ->
    _get_initial_password env w0 = (PNone, w0)).
  { intros w0 H0. unfold _get_initial_password, LeadershipSettings.getitem.
    by rewrite H0, Hl. }
  split; [unfold LeadershipSettings.getitem; by rewrite Hnone|].
  split; [by apply Hgen|]. split.
  - unfold _on_get_initial_password_action. by rewrite Hgen.
  - unfold hook, hook_fuel. rewrite emit_S.
    replace (observers (registered w) GetInitialPasswordAction)
      with [H_on_get_initial_password_action] by (by destruct (registered w)).
    cbn [notify call]. unfold _on_get_initial_password_action.
    by rewrite Hgen.
Qed.

Lemma initial_password_not_set_witness :
  _on_get_initial_password_action (sample_env sample_config false)
    (init_world sample_config)
  = log (ActionFail "Initial password has not been set yet.") (init_world sample_config).
Proof.
  refine (proj1 (proj2 (proj2
    (initial_password_not_set (sample_env sample_config false)
       (init_world sample_config) _ _)))); reflexivity.
Defined.

(** ** The secret store *)

Lemma string_length_truthy s n : String.length s = S n -> truthy (PStr s) = true.
Proof. by destruct s. Qed.

Section Secrets.
Variable env : Env.
Hypothesis generator_length :
  forall i, String.length (password_generator env (Some 64) i) = 64.

Lemma generated_truthy i : truthy (PStr (password_generator env (Some 64) i)) = true.
Proof. eapply string_length_truthy, generator_length. Qed.

(** One turn of the loop: the secret is generated only if its stored value
    is falsy, and is truthy afterwards. *)
Lemma generate_secret_spec acc w secret :
  let r := generate_secret env (acc, w) secret in
  fst r = acc ++ [(secret, LeadershipSettings.getitem (leader_data (snd r)) secret)]
  /\ truthy (LeadershipSettings.getitem (leader_data (snd r)) secret) = true
  /\ (forall k, k <> secret -> leader_data (snd r) !! k = leader_data w !! k)
  /\ (truthy (LeadershipSettings.getitem (leader_data w) secret) = true -> snd r = w)
  /\ (truthy (LeadershipSettings.getitem (leader_data w) secret) = false ->
      exists i, leader_data (snd r) !! secret
                = Some (PStr (password_generator env (Some 64) i))).
Proof.
  cbv zeta. unfold generate_secret.
  assert (Hc : negb (LeadershipSettings.contains (leader_data w) secret)
               || negb (truthy (LeadershipSettings.getitem (leader_data w) secret))
               = negb (truthy (LeadershipSettings.getitem (leader_data w) secret))).
  { unfold LeadershipSettings.contains, LeadershipSettings.getitem.
    destruct (leader_data w !! secret); [|done]. rewrite bool_decide_eq_true_2; [done|by eexists]. }
  rewrite Hc. destruct (truthy (LeadershipSettings.getitem (leader_data w) secret)) eqn:Ht;
    cbn [negb fst snd].
  - repeat split; try done.
  - wsimpl. unfold LeadershipSettings.getitem, LeadershipSettings.setitem.
    rewrite lookup_insert_eq. cbn [default].
    split; [done|]. split; [apply generated_truthy|].
    split; [intros k Hk; by rewrite lookup_insert_ne|].
    split; [done|]. intros _. by eexists.
Qed.

Lemma generate_fold_spec l acc w :
  let r := foldl (generate_secret env) (acc, w) l in
  fst r = acc ++ secrets_of (leader_data (snd r)) l
  /\ (forall k, In k l -> truthy (LeadershipSettings.getitem (leader_data (snd r)) k) = true)
  /\ (forall k, truthy (LeadershipSettings.getitem (leader_data w) k) = true \/ ~ In k l ->
        leader_data (snd r) !! k = leader_data w !! k)
  /\ (forall k, In k l -> truthy (LeadershipSettings.getitem (leader_data w) k) = false ->
        exists i, leader_data (snd r) !! k
                  = Some (PStr (password_generator env (Some 64) i))).
Proof.
  revert acc w. induction l as [|s l IH]; intros acc w; cbv zeta.
  - cbn. rewrite app_nil_r. repeat split; try done.
  - cbn [foldl].
    pose proof (generate_secret_spec acc w s) as (H1 & H2 & H3 & H4 & H5). cbv zeta in *.
    destruct (generate_secret env (acc, w) s) as [acc1 w1]. cbn [fst snd] in *.
    specialize (IH acc1 w1) as (I1 & I2 & I3 & I4). cbv zeta in *.
    set (r := foldl (generate_secret env) (acc1, w1) l) in *.
    assert (Hs : leader_data (snd r) !! s = leader_data w1 !! s).
    { apply I3. by left. }
    assert (Hget : forall k m m', m !! k = m' !! k ->
              LeadershipSettings.getitem m k = LeadershipSettings.getitem m' k).
    { intros k m m' E. unfold LeadershipSettings.getitem. by rewrite E. }
    split; [|split; [|split]].
    + rewrite I1, H1, <- app_assoc. cbn. by rewrite (Hget s _ _ Hs).
    + intros k [<-|Hk]; [by rewrite (Hget s _ _ Hs)|by apply I2].
    + intros k Hk. destruct (decide (k = s)) as [->|Hne].
      * destruct Hk as [Hk|Hk]; [|destruct Hk; by left].
        rewrite Hs. by rewrite (H4 Hk).
      * rewrite <- (H3 k Hne). apply I3.
        destruct Hk as [Hk|Hk]; [left|right; intros ?; apply Hk; by right].
        by rewrite (Hget k _ _ (H3 k Hne)).
    + intros k Hk Hf. destruct (decide (k = s)) as [->|Hne].
      * rewrite Hs. by apply H5.
      * destruct Hk as [Hk|Hk]; [done|]. apply I4; [done|].
        by rewrite (Hget k _ _ (H3 k Hne)).
Qed.

(** Nothing is generated when every secret is set. *)
Lemma generate_fold_noop l acc w :
  (forall k, In k l -> truthy (LeadershipSettings.getitem (leader_data w) k) = true) ->
  foldl (generate_secret env) (acc, w) l = (acc ++ secrets_of (leader_data w) l, w).
Proof.
  revert acc. induction l as [|s l IH]; intros acc H.
  - cbn. by rewrite app_nil_r.
  - cbn [foldl].
    pose proof (generate_secret_spec acc w s) as (H1 & _ & _ & H4 & _). cbv zeta in *.
    destruct (generate_secret env (acc, w) s) as [acc1 w1]. cbn [fst snd] in *.
    rewrite H4 in * by (apply H; by left). rewrite H1, IH, <- app_assoc; [done|].
    intros k Hk. apply H. by right.
Qed.

(** C8: [_generate_wordpress_secrets] returns, for each name, the value
    stored in the leadership settings; it generates a 64-character value
    for each name whose stored value is missing or falsy and leaves every
    other key as it is, so that running it again returns the same values
    and changes nothing. *)
Theorem secrets_idempotent (w : World) :
  let r1 := _generate_wordpress_secrets env w in
  let r2 := _generate_wordpress_secrets env (snd r1) in
  fst r1 = secrets_of (leader_data (snd r1)) (WORDPRESS_SECRETS env)
  /\ (forall k, truthy (LeadershipSettings.getitem (leader_data w) k) = true
                \/ ~ In k (WORDPRESS_SECRETS env) ->
        leader_data (snd r1) !! k = leader_data w !! k)
  /\ (forall k, In k (WORDPRESS_SECRETS env) ->
        truthy (LeadershipSettings.getitem (leader_data w) k) = false ->
        exists v, leader_data (snd r1) !! k = Some (PStr v) /\ String.length v = 64)
  /\ r2 = r1.
Proof.
  cbv zeta. unfold _generate_wordpress_secrets.
  pose proof (generate_fold_spec (WORDPRESS_SECRETS env) [] w) as (H1 & H2 & H3 & H4).
  cbv zeta in *.
  destruct (foldl (generate_secret env) ([], w) (WORDPRESS_SECRETS env)) as [s1 w1].
  cbn [fst snd] in *. split; [done|]. split; [done|]. split.
  - intros k Hk Hf. destruct (H4 k Hk Hf) as [i Hi]. eauto.
  - rewrite generate_fold_noop by done. by rewrite H1.
Qed.
End Secrets.

Lemma repeat_char_length a n : String.length (repeat_char a n) = n.
Proof. induction n as [|n IH]; [done|]. cbn. by rewrite IH. Qed.

Lemma secrets_idempotent_witness :
  let env := sample_env sample_config true in
  let r1 := _generate_wordpress_secrets env (init_world sample_config) in
  _generate_wordpress_secrets env (snd r1) = r1.
Proof.
  cbv zeta.
  refine (proj2 (proj2 (proj2
    (secrets_idempotent (sample_env sample_config true) _ (init_world sample_config))))).
  intros i. apply repeat_char_length.
Defined.

(** ** The bound on nested emissions does not matter *)

Lemma call_mono (em em' : emitter) env h ev w w' :
  (forall e a b, em e a = Some b -> em' e a = Some b) ->
  call em env h ev w = Some w' -> call em' env h ev w = Some w'.
Proof.
  intros Hle. destruct h; cbn [call]; try done.
  - apply Hle.
  - apply Hle.
  - apply Hle.
  - rewrite !on_database_config_changed_eq. destruct (static_fires _ _); [apply Hle|done].
  - unfold on_database_changed. destruct (event_db env ev) as [[[h1 h2] h3] h4]. apply Hle.
  - apply Hle.
  - rewrite !on_wordpress_uninitialised_eq. cbv zeta.
    repeat case_match; try done. apply Hle.
  - cbv beta zeta delta [on_wordpress_initial_setup].
    destruct (em ConfigChanged _) as [w2|] eqn:E; [|done].
    rewrite (Hle _ _ _ E).
    destruct (_get_initial_password env w2) as [p w3].
    destruct (is_False _); [done|]. apply Hle.
Qed.

Lemma notify_mono (em em' : emitter) env hs ev w w' :
  (forall e a b, em e a = Some b -> em' e a = Some b) ->
  notify em env hs ev w = Some w' -> notify em' env hs ev w = Some w'.
Proof.
  intros Hle. revert w. induction hs as [|h hs IH]; intros w; [done|].
  cbn [notify]. destruct (call em env h ev w) as [w1|] eqn:E; [|done].
  rewrite (call_mono em em' env h ev w w1 Hle E). apply IH.
Qed.

Lemma emit_mono n env reg ev w w' :
  emit n env reg ev w = Some w' -> emit (S n) env reg ev w = Some w'.
Proof.
  revert ev w w'. induction n as [|n IH]; intros ev w w'; [done|].
  rewrite (emit_S (S n)), (emit_S n). apply notify_mono. exact IH.
Qed.

Lemma emit_mono_plus k n env reg ev w w' :
  emit n env reg ev w = Some w' -> emit (k + n) env reg ev w = Some w'.
Proof. induction k as [|k IH]; [done|]. intros H. by apply emit_mono, IH. Qed.

(** X1: every hook runs to its end: whatever the event, the configuration
    and the state, six levels of nested emissions are enough, and a larger
    bound gives the same outcome. *)
Theorem hook_terminates (env : Env) (event : Event) (w : World) :
  exists w', hook env event w = Some w'
             /\ forall n, emit (hook_fuel + n) env (registered w) event w = Some w'.
Proof.
  destruct (emit_total env (registered w) 0 event w) as [w' H].
  exists w'. split; [exact H|]. intros n.
  rewrite Nat.add_comm. by apply emit_mono_plus.
Qed.

(** ** The install begins at most once *)

Lemma installs_begun_snoc t e :
  installs_begun (t ++ [e])
  = installs_begun t + (if decide (e = Emitted WordpressInitialSetup) then 1 else 0).
Proof.
  unfold installs_begun. rewrite count_occ_app. cbn.
  destruct (Effect_eq_dec e _), (decide (e = _)); done.
Qed.

Lemma prim_install_recorded env reg top w w' :
  top <> WordpressInitialSetup -> prim env reg top w w' ->
  install_recorded w -> install_recorded w'.
Proof.
  intros Htop H [Hle Hat]. unfold install_recorded.
  destruct H as [| | |e w He|ev w Hev|w _ Hr _| | | | |tag w _|]; wsimpl;
    rewrite ?installs_begun_snoc; try done.
  - destruct (decide (e = _)) as [->|]; [by destruct (He WordpressInitialSetup)|].
    by rewrite Nat.add_0_r.
  - destruct (decide (Emitted ev = _)) as [E|]; [|by rewrite Nat.add_0_r].
    simplify_eq. destruct Hev as [?|[?|?]]; congruence.
  - destruct (decide (_ = _)); [|done].
    assert (H0 : installs_begun (trace w) = 0).
    { destruct (installs_begun (trace w)) as [|[|k]] eqn:E; [done| |lia].
      specialize (Hat eq_refl). rewrite Hr in Hat. by vm_compute in Hat. }
    rewrite H0. split; [lia|]. intros _. apply elem_of_union_l. by apply elem_of_singleton.
  - split; [done|]. intros H1. apply elem_of_union_r. by apply Hat.
Qed.

Lemma steps_install_recorded env reg top w w' :
  top <> WordpressInitialSetup -> rtc (prim env reg top) w w' ->
  install_recorded w -> install_recorded w'.
Proof.
  intros Htop. induction 1 as [|a b c Hab _ IH]; [done|].
  intros Ha. apply IH. by apply (prim_install_recorded env reg top a b).
Qed.

Lemma juju_hook_not_setup env ev : juju_hook env ev -> ev <> WordpressInitialSetup.
Proof. by intros H ->. Qed.

(** X2: in every run of a unit from its first start, through hooks for Juju
    events on a leader or a follower, the install begins at most once. *)
Theorem install_begins_at_most_once (c : Config.t) (w : World) :
  rtc (step juju_hook) (init_world c) w ->
  installs_begun (trace w) <= 1.
Proof.
  intros H. apply (rtc_ind_r (fun w => install_recorded w)) in H; [by destruct H| |].
  - split; [cbn; lia|]. by cbn.
  - intros a b _ Hab Ha. destruct Hab as [env ev a b Hev Hh|ld a]; [|done].
    apply hook_steps in Hh.
    apply (steps_install_recorded env (registered a) ev a b); [|done..].
    by apply (juju_hook_not_setup env).
Qed.

Lemma install_begins_at_most_once_witness :
  installs_begun
    (trace (or_same ready_world
              (hook (sample_env sample_config true) ConfigChanged
                 (or_same (init_world sample_config)
                    (hook (sample_env sample_config true) LeaderElected
                       (init_world sample_config)))))) <= 1.
Proof.
  apply (install_begins_at_most_once sample_config).
  eapply rtc_l; [|apply rtc_once].
  - apply (step_hook juju_hook (sample_env sample_config true) LeaderElected);
      [reflexivity|vm_compute; reflexivity].
  - apply (step_hook juju_hook (sample_env sample_config true) ConfigChanged);
      [reflexivity|vm_compute; reflexivity].
Defined.

(** X3: no retry: once "attempted" is in the install state, whether the
    install succeeded or failed, no later hook for a Juju event begins the
    install again. *)
Theorem no_retry_after_attempt (w w' : World) :
  "attempted" ∈ State.install_state (state w) ->
  rtc (step juju_hook) w w' ->
  "attempted" ∈ State.install_state (state w')
  /\ exists t, trace w' = trace w ++ t /\ Emitted WordpressInitialSetup ∉ t.
Proof.
  intros Ha H. induction H as [|a b c Hab _ IH].
  - split; [done|]. exists []. rewrite app_nil_r. split; [done|]. apply not_elem_of_nil.
  - assert (Hb : "attempted" ∈ State.install_state (state b)
                 /\ exists t, trace b = trace a ++ t /\ Emitted WordpressInitialSetup ∉ t).
    { destruct Hab as [env ev a b Hev Hh|ld a].
      - apply hook_steps in Hh. split.
        + apply steps_grows in Hh. by apply Hh.
        + apply (steps_no_second_install env (registered a) ev a b); [|done..].
          by apply (juju_hook_not_setup env).
      - split; [done|]. exists []. rewrite app_nil_r. split; [done|]. apply not_elem_of_nil. }
    destruct Hb as (Hb & t1 & E1 & N1). destruct (IH Hb) as (Hc & t2 & E2 & N2).
    split; [done|]. exists (t1 ++ t2). split; [by rewrite E2, E1, <- app_assoc|].
    intros [?|?]%elem_of_app; done.
Qed.

Lemma no_retry_after_attempt_witness :
  let w := set_state (State.set_install_state install_running) (init_world sample_config) in
  let w' := or_same w (hook (sample_env sample_config true) ConfigChanged w) in
  "attempted" ∈ State.install_state (state w')
  /\ exists t, trace w' = trace w ++ t /\ Emitted WordpressInitialSetup ∉ t.
Proof.
  cbv zeta. apply no_retry_after_attempt.
  - by vm_compute.
  - apply rtc_once.
    apply (step_hook juju_hook (sample_env sample_config true) ConfigChanged);
      [reflexivity|vm_compute; reflexivity].
Defined.

(** ** Database events, hook by hook *)

(** While the unit has a database relation and no event of the hook carries
    other credentials, the stored credentials stay what they are. *)
Lemma prim_credentials_settled env reg top c w w' :
  top <> DbRelationBroken ->
  (top = DbRelationCreated -> c = (PNone, PNone, PNone, PNone)) ->
  (is_database_event top = true -> event_db env top = c) ->
  prim env reg top w w' ->
  State.has_db_relation (state w) = true /\ credentials (state w) = c ->
  State.has_db_relation (state w') = true /\ credentials (state w') = c.
Proof.
  intros Hb Hc Hd H [Hdb Hcr].
  destruct H as [| | | | | |w Ht|ev w Hsrc Hev|b w Hbb| | |]; wsimpl; try done.
  - split; [done|]. destruct Ht as [Ht|Ht]; [by rewrite (Hc Ht)|done].
  - split; [done|]. destruct Hsrc as [->|[_ [Hno _]%static_fires_true]]; [|congruence].
    rewrite <- (Hd Hev). unfold credentials. wsimpl.
    by destruct (event_db env top) as [[[? ?] ?] ?].
  - split; [|done]. destruct b; [done|]. by destruct Hb; apply Hbb.
Qed.

Lemma steps_credentials_settled env reg top c w w' :
  top <> DbRelationBroken ->
  (top = DbRelationCreated -> c = (PNone, PNone, PNone, PNone)) ->
  (is_database_event top = true -> event_db env top = c) ->
  rtc (prim env reg top) w w' ->
  State.has_db_relation (state w) = true /\ credentials (state w) = c ->
  State.has_db_relation (state w') = true /\ credentials (state w') = c.
Proof.
  intros Hb Hc Hd. induction 1 as [|a b c' Hab _ IH]; [done|].
  intros Ha. apply IH. by apply (prim_credentials_settled env reg top c a b).
Qed.

Lemma config_changed_keeps_credentials env reg n w w' :
  emit n env reg ConfigChanged w = Some w' ->
  State.has_db_relation (state w) = true ->
  State.has_db_relation (state w') = true /\ credentials (state w') = credentials (state w).
Proof.
  intros H%emit_steps Hdb.
  by apply (steps_credentials_settled env reg ConfigChanged (credentials (state w)) w w').
Qed.

(** X4: the static database event is emitted whenever the unit has no
    database relation and some [db_*] option is set, whether or not the
    stored credentials differ from the declared values (the set that they
    are compared with holds the [dict_values] view, not the values).  The
    credentials then become the declared options, the unit counts as having
    a database relation, and "db" joins the install state. *)
Theorem static_database_always_signalled (env : Env) (reg : bool) (n : nat) (w : World) :
  State.has_db_relation (state w) = false ->
  py_any (static_db_values env) = true ->
  exists w',
    on_database_config_changed (emit (4 + n) env reg) env w = Some w'
    /\ In (Emitted WordpressStaticDatabaseChanged) (new_trace w w')
    /\ credentials (state w')
       = (PStr (Config.db_host (config env)), PStr (Config.db_name (config env)),
          PStr (Config.db_user (config env)), PStr (Config.db_password (config env)))
    /\ State.has_db_relation (state w') = true
    /\ "db" ∈ State.install_state (state w').
Proof.
  intros Hdb Hany. rewrite on_database_config_changed_eq. unfold static_fires.
  rewrite Hdb, Hany. change (bool_decide (false = false) && true) with true. cbv iota.
  change (4 + n) with (S (3 + n)).
  destruct (on_database_changed_total env reg n WordpressStaticDatabaseChanged
              (log (Emitted WordpressStaticDatabaseChanged) w)) as [w' E].
  exists w'. rewrite emit_static_eq. split; [exact E|].
  assert (Htr : In (Emitted WordpressStaticDatabaseChanged) (new_trace w w')).
  { rewrite <- emit_static_eq in E.
    apply (emit_body_steps env reg WordpressStaticDatabaseChanged) in E; [|by right|by left].
    apply steps_trace in E as [t Et]. cbn [trace log] in Et.
    rewrite <- app_assoc in Et. rewrite (new_trace_app _ _ _ Et). by left. }
  split; [exact Htr|].
  unfold on_database_changed in E. cbn [event_db] in E.
  pose proof (config_changed_keeps_credentials _ _ _ _ _ E) as [K1 K2].
  { by destruct (is_leader env). }
  split; [|split; [done|]].
  - rewrite K2. by destruct (is_leader env).
  - apply emit_steps, steps_grows in E. apply E.
    destruct (is_leader env); wsimpl; apply elem_of_union_l; by apply elem_of_singleton.
Qed.

Lemma static_database_always_signalled_witness :
  let env := sample_env sample_config true in
  let w := init_world sample_config in
  db_values_differ env (state w) = false
  /\ exists w',
       on_database_config_changed (emit hook_fuel env true) env w = Some w'
       /\ In (Emitted WordpressStaticDatabaseChanged) (new_trace w w').
Proof.
  cbv zeta. split; [by vm_compute|].
  destruct (static_database_always_signalled (sample_env sample_config true) true 2
              (init_world sample_config)) as (w' & H1 & H2 & _); [reflexivity..|].
  exists w'. split; [exact H1|exact H2].
Defined.

Lemma observers_db_relation_created reg :
  observers reg DbRelationCreated = [H_on_db_relation_created].
Proof. by destruct reg. Qed.

Lemma observers_database_changed reg h n u p :
  observers reg (DatabaseChanged h n u p) = [H_on_database_changed].
Proof. by destruct reg. Qed.

(** X5: the db-relation-created hook: the four stored credentials are
    [None] and [has_db_relation] is [True] when it ends, whatever the static
    configuration and the credentials held before. *)
Theorem db_relation_created_resets (env : Env) (w : World) :
  exists w',
    hook env DbRelationCreated w = Some w'
    /\ credentials (state w') = (PNone, PNone, PNone, PNone)
    /\ State.has_db_relation (state w') = true.
Proof.
  destruct (emit_total env (registered w) 0 DbRelationCreated w) as [w' H].
  exists w'. split; [exact H|].
  change (6 + 0) with (S 5) in H. rewrite emit_S, observers_db_relation_created in H.
  cbn [notify call] in H. unfold on_db_relation_created in H.
  destruct (emit 5 _ _ _ _) as [w1|] eqn:E; [|done]. simplify_eq.
  apply config_changed_keeps_credentials in E as [K1 K2]; [|done].
  split; [by rewrite K2|done].
Qed.

(** X6: a database-changed hook of the relation: when it ends the stored
    credentials are the four values of the event, [has_db_relation] is
    [True] and "db" is in the install state. *)
Theorem database_changed_stores_payload (env : Env) (h n u p : pyval) (w : World) :
  exists w',
    hook env (DatabaseChanged h n u p) w = Some w'
    /\ credentials (state w') = (h, n, u, p)
    /\ State.has_db_relation (state w') = true
    /\ "db" ∈ State.install_state (state w').
Proof.
  destruct (emit_total env (registered w) 0 (DatabaseChanged h n u p) w) as [w' H].
  exists w'. split; [exact H|].
  change (6 + 0) with (S 5) in H. rewrite emit_S, observers_database_changed in H.
  cbn [notify call] in H. unfold on_database_changed in H. cbn [event_db] in H.
  destruct (emit 5 _ _ _ _) as [w1|] eqn:E; [|done]. simplify_eq.
  pose proof (config_changed_keeps_credentials _ _ _ _ _ E) as [K1 K2].
  { by destruct (is_leader env). }
  split; [|split; [done|]].
  - rewrite K2. by destruct (is_leader env).
  - apply emit_steps, steps_grows in E. apply E.
    destruct (is_leader env); wsimpl; apply elem_of_union_l; by apply elem_of_singleton.
Qed.

(** ** The leadership settings, hook by hook *)

(** A primitive step leaves a key of the leadership settings as it is, or
    performs one of the writes of the handlers. *)
Lemma prim_leader_data env reg top w w' :
  prim env reg top w w' ->
  forall k, leader_data w' !! k = leader_data w !! k
            \/ exists v, write_ok env top w k v /\ leader_data w' !! k = Some v.
Proof.
  intros H k. destruct H as [k' v w Hw| | | | | | | | | | |]; wsimpl; try by left.
  unfold LeadershipSettings.setitem. destruct (decide (k' = k)) as [->|Hne].
  - right. exists v. by rewrite lookup_insert_eq.
  - left. by rewrite lookup_insert_ne.
Qed.

Lemma write_ok_follower env top w k v :
  is_leader env = false -> write_ok env top w k v -> k = "installed".
Proof. intros Hl H. destruct H; congruence. Qed.

Lemma steps_follower_writes env reg top w w' k :
  is_leader env = false -> k <> "installed" ->
  rtc (prim env reg top) w w' -> leader_data w' !! k = leader_data w !! k.
Proof.
  intros Hl Hk. induction 1 as [|a b c Hab _ IH]; [done|].
  rewrite IH. destruct (prim_leader_data _ _ _ _ _ Hab k) as [E|(v & Hw & _)]; [done|].
  by apply (write_ok_follower _ _ _ _ _ Hl) in Hw.
Qed.

(** X7: a hook on a follower writes no key of the leadership settings other
    than "installed". *)
Theorem follower_writes_only_installed (env : Env) (event : Event) (w w' : World) (k : string) :
  is_leader env = false ->
  hook env event w = Some w' ->
  k <> "installed" ->
  leader_data w' !! k = leader_data w !! k.
Proof.
  intros Hl H%hook_steps Hk. by apply (steps_follower_writes env (registered w) event).
Qed.

Lemma follower_writes_only_installed_witness :
  let env := sample_env sample_config false in
  let w := set_leader_data (LeadershipSettings.setitem "AUTH_KEY" (PStr "k"))
             (init_world sample_config) in
  leader_data (or_same w (hook env LeaderElected w)) !! "AUTH_KEY" = Some (PStr "k")
  /\ leader_data (or_same w (hook env LeaderElected w)) !! "installed" = Some (PBool false).
Proof.
  cbv zeta. split; [|by vm_compute].
  etrans;
    [apply (follower_writes_only_installed (sample_env sample_config false) LeaderElected
              (set_leader_data (LeadershipSettings.setitem "AUTH_KEY" (PStr "k"))
                 (init_world sample_config)));
       [reflexivity|vm_compute; reflexivity|done]
    |by vm_compute].
Defined.

Lemma getitem_lookup (m m' : gmap string pyval) k :
  m !! k = m' !! k -> LeadershipSettings.getitem m k = LeadershipSettings.getitem m' k.
Proof. unfold LeadershipSettings.getitem. by intros ->. Qed.

Lemma is_db_key_spec k :
  is_db_key k = false ->
  k <> "db_host" /\ k <> "db_name" /\ k <> "db_user" /\ k <> "db_password".
Proof.
  unfold is_db_key. intros H%bool_decide_eq_false.
  repeat split; intros ->; apply H; set_solver.
Qed.

Lemma write_ok_truthy env top w k v :
  write_ok env top w k v ->
  truthy (LeadershipSettings.getitem (leader_data w) k) = true ->
  is_db_key k = false -> k = "installed".
Proof.
  intros H Ht Hk. apply is_db_key_spec in Hk as (K1 & K2 & K3 & K4).
  destruct H as [k i _ _ _ Hf|i _ Hf|ev k v _ _ _ _ _ _ _ Hkv| |]; try congruence; try done.
  destruct Hkv as [ [-> _] | [ [-> _] | [ [-> _] | [-> _] ] ] ]; done.
Qed.

Lemma steps_truthy_kept env reg top w w' k :
  truthy (LeadershipSettings.getitem (leader_data w) k) = true ->
  is_db_key k = false -> k <> "installed" ->
  rtc (prim env reg top) w w' -> leader_data w' !! k = leader_data w !! k.
Proof.
  intros Ht Hd Hk H. revert Ht. induction H as [|a b c Hab _ IH]; [done|]. intros Ht.
  destruct (prim_leader_data _ _ _ _ _ Hab k) as [E|(v & Hw & _)].
  - rewrite <- E. apply IH. by rewrite (getitem_lookup _ _ _ E).
  - by apply (write_ok_truthy _ _ _ _ _ Hw Ht) in Hd.
Qed.

(** X8: a secret or an initial password that is set is never replaced: a
    key of the leadership settings whose value is truthy, other than
    "installed" and the four credentials, keeps its value through a hook. *)
Theorem truthy_settings_kept (env : Env) (event : Event) (w w' : World) (k : string) :
  hook env event w = Some w' ->
  truthy (LeadershipSettings.getitem (leader_data w) k) = true ->
  is_db_key k = false -> k <> "installed" ->
  leader_data w' !! k = leader_data w !! k.
Proof.
  intros H%hook_steps Ht Hd Hk.
  by apply (steps_truthy_kept env (registered w) event).
Qed.

Lemma truthy_settings_kept_witness :
  let env := sample_env sample_config true in
  let w := set_leader_data (LeadershipSettings.setitem "AUTH_KEY" (PStr "k"))
             (init_world sample_config) in
  leader_data (or_same w (hook env LeaderElected w)) !! "AUTH_KEY" = Some (PStr "k")
  /\ is_Some (leader_data (or_same w (hook env LeaderElected w)) !! "NONCE_KEY").
Proof.
  cbv zeta. split; [|vm_compute; by eexists].
  etrans;
    [apply (truthy_settings_kept (sample_env sample_config true) LeaderElected
              (set_leader_data (LeadershipSettings.setitem "AUTH_KEY" (PStr "k"))
                 (init_world sample_config)));
       [vm_compute; reflexivity|by vm_compute|reflexivity|done]
    |by vm_compute].
Defined.

Lemma write_ok_installed env top w v :
  write_ok env top w "installed" v ->
  leader_data w !! "installed" = Some (PBool true) -> v = PBool true.
Proof.
  intros H Hi.
  remember "installed" as k eqn:Ek.
  destruct H as [k i _ _ _ Hf|i _ Hf|ev k v _ _ _ _ _ _ _ Hkv| |? Hn]; try done.
  - subst k. unfold LeadershipSettings.getitem in Hf. by rewrite Hi in Hf.
  - destruct Hkv as [ [-> _] | [ [-> _] | [ [-> _] | [-> _] ] ] ]; done.
  - congruence.
Qed.

Lemma steps_installed_replicated env reg top w w' :
  rtc (prim env reg top) w w' ->
  leader_data w !! "installed" = Some (PBool true) ->
  leader_data w' !! "installed" = Some (PBool true).
Proof.
  induction 1 as [|a b c Hab _ IH]; [done|]. intros Ha. apply IH.
  destruct (prim_leader_data _ _ _ _ _ Hab "installed") as [E|(v & Hw & E)]; [congruence|].
  by rewrite E, (write_ok_installed _ _ _ _ Hw Ha).
Qed.

(** X9: no hook takes back the replicated flag: if "installed" is [True]
    in the leadership settings when a hook begins, it is when the hook
    ends. *)
Theorem replicated_installed_stays (env : Env) (event : Event) (w w' : World) :
  hook env event w = Some w' ->
  leader_data w !! "installed" = Some (PBool true) ->
  leader_data w' !! "installed" = Some (PBool true).
Proof.
  intros H%hook_steps. by apply (steps_installed_replicated env (registered w) event).
Qed.

Lemma replicated_installed_stays_witness :
  leader_data (or_same replicated_install_world
                 (hook (sample_env sample_config false) ConfigChanged
                    replicated_install_world)) !! "installed" = Some (PBool true).
Proof.
  apply (replicated_installed_stays (sample_env sample_config false) ConfigChanged
           replicated_install_world); [by vm_compute|reflexivity].
Defined.

(** ** Credentials from the relation and from the configuration *)

Lemma emit_emits_steps n env reg top : emits_steps env reg top (emit n env reg).
Proof. intros ev a b Hi Ho. apply emit_body_steps; [by left|done]. Qed.

(** Without declared [db_*] options, only the hooks of the database
    relation touch the database part of the state. *)
Lemma prim_db_untouched env reg top w w' :
  py_any (static_db_values env) = false ->
  top <> DbRelationCreated -> top <> DbRelationBroken ->
  is_database_event top = false ->
  prim env reg top w w' ->
  State.has_db_relation (state w') = State.has_db_relation (state w)
  /\ credentials (state w') = credentials (state w).
Proof.
  intros Hany Hc Hb Hd H.
  assert (Hs : forall s, static_fires env s = true -> False).
  { intros s [_ ?]%static_fires_true. congruence. }
  destruct H as [| | | | | |w Ht|ev w Hsrc Hev|b w Hbf Hbt| | |]; wsimpl; try done.
  - by destruct Ht.
  - destruct Hsrc as [->|[_ Hf]]; [congruence|by destruct (Hs _ Hf)].
  - split; [|done]. destruct b.
    + destruct Hbt as [?|[?|Hf]]; [done..|congruence|by destruct (Hs _ Hf)].
    + by destruct Hb; apply Hbf.
Qed.

Lemma steps_db_untouched env reg top w w' :
  py_any (static_db_values env) = false ->
  top <> DbRelationCreated -> top <> DbRelationBroken ->
  is_database_event top = false ->
  rtc (prim env reg top) w w' ->
  State.has_db_relation (state w') = State.has_db_relation (state w)
  /\ credentials (state w') = credentials (state w).
Proof.
  intros Hany Hc Hb Hd. induction 1 as [|a b c Hab _ [IH1 IH2]]; [done|].
  destruct (prim_db_untouched env reg top a b Hany Hc Hb Hd Hab) as [E1 E2].
  split; congruence.
Qed.

(** A dispatch of [ConfigChanged] while the static database event is due:
    the declared options become the credentials. *)
Lemma config_changed_static env reg n w w' :
  emit n env reg ConfigChanged w = Some w' ->
  static_fires env (state w) = true ->
  State.has_db_relation (state w') = true
  /\ credentials (state w') = event_db env WordpressStaticDatabaseChanged
  /\ "db" ∈ State.install_state (state w').
Proof.
  intros H Hs. destruct n as [|n]; [done|].
  rewrite emit_config_changed_eq, on_database_config_changed_eq in H.
  rewrite on_config_changed_state in H. cbn [state log] in H. rewrite Hs in H.
  destruct (emit n env reg WordpressStaticDatabaseChanged _) as [w2|] eqn:E2; [|done].
  destruct n as [|n]; [done|]. rewrite emit_static_eq in E2.
  unfold on_database_changed in E2. cbn [event_db] in E2.
  pose proof (config_changed_keeps_credentials _ _ _ _ _ E2) as [K1 K2].
  { by destruct (is_leader env). }
  assert (K3 : "db" ∈ State.install_state (state w2)).
  { apply emit_steps, steps_grows in E2. apply E2.
    destruct (is_leader env); wsimpl; apply elem_of_union_l; by apply elem_of_singleton. }
  assert (K4 : credentials (state w2) = event_db env WordpressStaticDatabaseChanged).
  { rewrite K2. by destruct (is_leader env). }
  clear E2 K2. destruct reg; [|by simplify_eq].
  assert (S : rtc (prim env true ConfigChanged) w2 w').
  { apply (call_steps env true ConfigChanged (emit (S n) env true)
             H_on_wordpress_uninitialised ConfigChanged);
      [by right|by left|by vm_compute; tauto|apply emit_emits_steps|exact H]. }
  destruct (steps_credentials_settled env true ConfigChanged
              (event_db env WordpressStaticDatabaseChanged) w2 w') as [R1 R2]; try done.
  split; [done|]. split; [done|]. apply steps_grows in S. by apply S.
Qed.

Lemma observers_db_relation_broken reg :
  observers reg DbRelationBroken = [H_on_db_relation_broken].
Proof. by destruct reg. Qed.

(** X12: the db-relation-broken hook falls back on the configuration: when
    it ends, if some [db_*] option is set the credentials are the four
    declared options, [has_db_relation] is [True] again and "db" is in the
    install state; otherwise the credentials are [None] and
    [has_db_relation] is [False]. *)
Theorem db_relation_broken_falls_back (env : Env) (w : World) :
  exists w',
    hook env DbRelationBroken w = Some w'
    /\ if py_any (static_db_values env)
       then State.has_db_relation (state w') = true
            /\ credentials (state w')
               = (PStr (Config.db_host (config env)), PStr (Config.db_name (config env)),
                  PStr (Config.db_user (config env)), PStr (Config.db_password (config env)))
            /\ "db" ∈ State.install_state (state w')
       else State.has_db_relation (state w') = false
            /\ credentials (state w') = (PNone, PNone, PNone, PNone).
Proof.
  destruct (emit_total env (registered w) 0 DbRelationBroken w) as [w' H].
  exists w'. split; [exact H|].
  change (6 + 0) with (S 5) in H. rewrite emit_S, observers_db_relation_broken in H.
  cbn [notify call] in H. unfold on_db_relation_broken in H.
  destruct (emit 5 _ _ _ _) as [w1|] eqn:E; [|done]. simplify_eq.
  destruct (py_any (static_db_values env)) eqn:A.
  - apply config_changed_static in E; [done|]. unfold static_fires. by rewrite A.
  - apply emit_steps in E. by apply steps_db_untouched in E.
Qed.

Lemma credential_eq s s' k :
  credentials s = credentials s' -> credential s k = credential s' k.
Proof. unfold credentials, credential. intros [= -> -> -> ->]. done. Qed.

Lemma write_ok_db env w k v :
  write_ok env ConfigChanged w k v -> is_db_key k = true -> v = credential (state w) k.
Proof.
  intros H Hk.
  destruct H as [k i _ ? _ _|i _ _|ev k v _ _ _ _ _ _ _ Hkv| |]; try done.
  destruct Hkv as [ [-> ->] | [ [-> ->] | [ [-> ->] | [-> ->] ] ] ]; done.
Qed.

(** Once the credentials are stored and replicated, a dispatch of
    [ConfigChanged] keeps the replica equal to them. *)
Lemma steps_replica_settled env reg w w' :
  rtc (prim env reg ConfigChanged) w w' ->
  State.has_db_relation (state w) = true ->
  (forall k, is_db_key k = true -> leader_data w !! k = Some (credential (state w) k)) ->
  forall k, is_db_key k = true -> leader_data w' !! k = Some (credential (state w) k).
Proof.
  induction 1 as [|a b c Hab _ IH]; [done|]. intros Hdb Ha k Hk.
  destruct (prim_credentials_settled env reg ConfigChanged (credentials (state a)) a b)
    as [B1 B2]; try done.
  rewrite <- (credential_eq _ _ k B2). apply IH; [done| |done].
  intros k' Hk'. rewrite (credential_eq _ _ k' B2).
  destruct (prim_leader_data _ _ _ _ _ Hab k') as [E|(v & Hw & E)]; [by rewrite E; apply Ha|].
  by rewrite E, (write_ok_db _ _ _ _ Hw Hk').
Qed.

(** X10: on the leader, a database-changed hook replicates the credentials:
    when it ends, the four keys of the leadership settings hold the four
    values of the event. *)
Theorem leader_replicates_credentials (env : Env) (h n u p : pyval) (w : World) :
  is_leader env = true ->
  exists w',
    hook env (DatabaseChanged h n u p) w = Some w'
    /\ replicated_credentials (leader_data w') = (Some h, Some n, Some u, Some p).
Proof.
  intros Hl.
  destruct (emit_total env (registered w) 0 (DatabaseChanged h n u p) w) as [w' H].
  exists w'. split; [exact H|].
  change (6 + 0) with (S 5) in H. rewrite emit_S, observers_database_changed in H.
  cbn [notify call] in H. unfold on_database_changed in H. cbn [event_db] in H.
  rewrite Hl in H.
  destruct (emit 5 _ _ _ _) as [w1|] eqn:E; [|done]. simplify_eq.
  apply emit_steps in E.
  pose proof (steps_replica_settled _ _ _ _ E eq_refl) as R.
  cbn [state set_state leader_data set_leader_data log] in R.
  unfold LeadershipSettings.setitem in R.
  assert (R' : forall k, is_db_key k = true ->
                 leader_data w' !! k
                 = Some (credential (State.set_db h n u p (state w)) k)).
  { apply R. intros k Hk. unfold is_db_key in Hk. apply bool_decide_eq_true in Hk.
    repeat (apply elem_of_cons in Hk as [->|Hk]);
      [repeat (rewrite lookup_insert_ne by done); by rewrite lookup_insert_eq..|].
    by apply elem_of_nil in Hk. }
  unfold replicated_credentials.
  by rewrite (R' "db_host"), (R' "db_name"), (R' "db_user"), (R' "db_password").
Qed.

Lemma leader_replicates_credentials_witness :
  exists w',
    hook (sample_env sample_config true)
      (DatabaseChanged (PStr "10.0.0.8") (PStr "wordpress") (PStr "wp") (PStr "s3cret"))
      (init_world sample_config) = Some w'
    /\ replicated_credentials (leader_data w')
       = (Some (PStr "10.0.0.8"), Some (PStr "wordpress"), Some (PStr "wp"),
          Some (PStr "s3cret")).
Proof.
  apply (leader_replicates_credentials (sample_env sample_config true)). reflexivity.
Defined.

(** ** The leader's part *)

Lemma observers_leader_elected reg :
  observers reg LeaderElected = [H_on_leader_elected].
Proof. by destruct reg. Qed.

Lemma py_all_secrets env w :
  py_all (snd <$> _wordpress_secrets env w) = true ->
  forall k, In k (WORDPRESS_SECRETS env) ->
    truthy (LeadershipSettings.getitem (leader_data w) k) = true.
Proof.
  unfold _wordpress_secrets, py_all.
  induction (WORDPRESS_SECRETS env) as [|s l IH]; [done|].
  csimpl. intros [H1 H2]%andb_true_iff k [<-|Hk]; [done|by apply IH].
Qed.

Lemma secret_names_ok_spec env k :
  secret_names_ok env = true -> In k (WORDPRESS_SECRETS env) ->
  is_db_key k = false /\ k <> "installed".
Proof.
  unfold secret_names_ok. rewrite forallb_forall. intros H Hk.
  apply H in Hk. apply andb_true_iff in Hk as [H1 H2].
  split; [by destruct (is_db_key k)|].
  intros ->. done.
Qed.

(** X11: the leader-elected hook on the leader: when it ends every secret
    of [WORDPRESS_SECRETS] is set in the leadership settings and "leader"
    is in the install state. *)
Theorem leader_elected_generates_secrets (env : Env) (w : World) :
  is_leader env = true ->
  (forall i, String.length (password_generator env (Some 64) i) = 64) ->
  secret_names_ok env = true ->
  exists w',
    hook env LeaderElected w = Some w'
    /\ (forall k, In k (WORDPRESS_SECRETS env) ->
          truthy (LeadershipSettings.getitem (leader_data w') k) = true)
    /\ "leader" ∈ State.install_state (state w').
Proof.
  intros Hl Hlen Hok.
  destruct (emit_total env (registered w) 0 LeaderElected w) as [w' H].
  exists w'. split; [exact H|].
  change (6 + 0) with (S 5) in H. rewrite emit_S, observers_leader_elected in H.
  cbn [notify call] in H. unfold on_leader_elected in H.
  rewrite bool_decide_eq_true_2 in H by done.
  destruct (emit 5 _ _ _ _) as [w1|] eqn:E; [|done]. simplify_eq.
  apply emit_steps in E.
  match type of E with rtc _ (set_state _ ?x) _ => set (w1 := x) in E end.
  assert (A : forall k, In k (WORDPRESS_SECRETS env) ->
                truthy (LeadershipSettings.getitem (leader_data w1) k) = true).
  { unfold w1. destruct (py_all _) eqn:P; cbn [negb].
    - by apply py_all_secrets.
    - unfold _generate_wordpress_secrets.
      by destruct (generate_fold_spec env Hlen (WORDPRESS_SECRETS env) []
                     (log (Emitted LeaderElected) w)) as (_ & ? & _). }
  clearbody w1. split.
  - intros k Hk. destruct (secret_names_ok_spec env k Hok Hk) as [D I].
    rewrite (getitem_lookup (leader_data w') (leader_data w1) k); [by apply A|].
    apply (steps_truthy_kept _ _ _ _ _ k) in E; [done|by apply A|done..].
  - apply steps_grows in E. apply E. wsimpl. apply elem_of_union_l. by apply elem_of_singleton.
Qed.

Lemma leader_elected_generates_secrets_witness :
  exists w',
    hook (sample_env sample_config true) LeaderElected (init_world sample_config) = Some w'
    /\ truthy (LeadershipSettings.getitem (leader_data w') "NONCE_SALT") = true
    /\ "leader" ∈ State.install_state (state w').
Proof.
  destruct (leader_elected_generates_secrets (sample_env sample_config true)
              (init_world sample_config)) as (w' & H1 & H2 & H3);
    [reflexivity|intros i; apply repeat_char_length|reflexivity|].
  exists w'. split; [exact H1|]. split; [|exact H3].
  apply H2. cbn. tauto.
Defined.

(** X13: the database part of the state belongs to the database hooks:
    while the static database event is not due, a hook for any other event
    leaves [has_db_relation] and the four credentials as they are. *)
Theorem database_state_settled (env : Env) (event : Event) (w w' : World) :
  static_fires env (state w) = false ->
  event <> DbRelationCreated -> event <> DbRelationBroken ->
  is_database_event event = false ->
  hook env event w = Some w' ->
  State.has_db_relation (state w') = State.has_db_relation (state w)
  /\ credentials (state w') = credentials (state w).
Proof.
  intros Hs Hc Hb Hd H%hook_steps. unfold static_fires in Hs.
  destruct (py_any (static_db_values env)) eqn:A.
  - rewrite andb_true_r in Hs. apply bool_decide_eq_false in Hs.
    assert (Hdb : State.has_db_relation (state w) = true)
      by (by destruct (State.has_db_relation (state w))).
    rewrite Hdb.
    apply (steps_credentials_settled env (registered w) event (credentials (state w)) w w');
      [done|done|congruence|done|done].
  - by apply (steps_db_untouched env (registered w) event).
Qed.

Lemma database_state_settled_witness :
  let w' := or_same awaiting_credentials_world
              (hook (sample_env sample_config true) LeaderElected
                 awaiting_credentials_world) in
  State.has_db_relation (state w') = true
  /\ credentials (state w') = (PNone, PNone, PNone, PNone).
Proof.
  cbv zeta.
  apply (database_state_settled (sample_env sample_config true) LeaderElected
           awaiting_credentials_world); [reflexivity|done|done|reflexivity|].
  vm_compute; reflexivity.
Defined.

(** ** A unit that never leads *)

Lemma prim_never_led env reg top w w' :
  is_leader env = false -> top <> WordpressInitialSetup ->
  prim env reg top w w' ->
  ("leader" ∉ State.install_state (state w)) /\ installs_begun (trace w) = 0 ->
  ("leader" ∉ State.install_state (state w')) /\ installs_begun (trace w') = 0.
Proof.
  intros Hl Htop H [Hn H0].
  destruct H as [| | |e w He|ev w Hev|w _ Hr _| | | | |tag w Htag|]; wsimpl;
    rewrite ?installs_begun_snoc; try done.
  - split; [done|]. destruct (decide (e = _)) as [->|]; [by destruct (He WordpressInitialSetup)|].
    by rewrite H0.
  - split; [done|]. destruct (decide (Emitted ev = _)) as [E|]; [|by rewrite H0].
    simplify_eq. destruct Hev as [?|[?|?]]; congruence.
  - destruct Hn. rewrite Hr. by vm_compute.
  - split; [|done]. intros [Ht%elem_of_singleton|?]%elem_of_union; [|done].
    destruct Htag as [(_ & ? & _)|[->| ->]]; congruence.
Qed.

Lemma steps_never_led env reg top w w' :
  is_leader env = false -> top <> WordpressInitialSetup ->
  rtc (prim env reg top) w w' ->
  ("leader" ∉ State.install_state (state w)) /\ installs_begun (trace w) = 0 ->
  ("leader" ∉ State.install_state (state w')) /\ installs_begun (trace w') = 0.
Proof.
  intros Hl Htop. induction 1 as [|a b c Hab _ IH]; [done|].
  intros Ha. apply IH. by apply (prim_never_led env reg top a b).
Qed.

(** X14: a unit that has only ever run hooks as a follower never begins
    the install: "leader" never joins its install state, so the ready state
    is out of reach. *)
Theorem follower_never_installs (c : Config.t) (w : World) :
  rtc (step follower_hook) (init_world c) w ->
  ("leader" ∉ State.install_state (state w)) /\ installs_begun (trace w) = 0.
Proof.
  intros H.
  apply (rtc_ind_r (fun w => ("leader" ∉ State.install_state (state w))
                             /\ installs_begun (trace w) = 0)) in H; [done| |].
  - split; [|done]. cbn. apply not_elem_of_empty.
  - intros a b _ Hab Ha. destruct Hab as [env ev a b [Hl Hev] Hh|ld a]; [|done].
    apply hook_steps in Hh.
    apply (steps_never_led env (registered a) ev a b); [done| |done..].
    by intros ->.
Qed.

Lemma follower_never_installs_witness :
  installs_begun
    (trace (or_same (init_world sample_config)
              (hook (sample_env sample_config false) IngressRelationChanged
                 (init_world sample_config)))) = 0.
Proof.
  apply (follower_never_installs sample_config).
  apply rtc_once.
  apply (step_hook follower_hook (sample_env sample_config false) IngressRelationChanged);
    [split; reflexivity|vm_compute; reflexivity].
Defined.

(** ** Ingress *)

Lemma prim_has_ingress_stays env reg top w w' :
  prim env reg top w w' ->
  State.has_ingress_relation (state w) = true ->
  State.has_ingress_relation (state w') = true.
Proof. destruct 1; wsimpl; done. Qed.

Lemma steps_has_ingress_stays env reg top w w' :
  rtc (prim env reg top) w w' ->
  State.has_ingress_relation (state w) = true ->
  State.has_ingress_relation (state w') = true.
Proof.
  induction 1 as [|a b c Hab _ IH]; [done|].
  intros Ha. apply IH. by apply (prim_has_ingress_stays env reg top a b).
Qed.

Lemma observers_ingress reg ev :
  ev = IngressRelationChanged \/ ev = IngressRelationCreated ->
  observers reg ev = [H_on_ingress_relation_changed].
Proof. intros [->| ->]; by destruct reg. Qed.

(** X15: an ingress-relation-changed or ingress-relation-created hook
    records the relation: when it ends [has_ingress_relation] is [True] and
    "ingress" is in the install state. *)
Theorem ingress_relation_recorded (env : Env) (event : Event) (w : World) :
  event = IngressRelationChanged \/ event = IngressRelationCreated ->
  exists w',
    hook env event w = Some w'
    /\ State.has_ingress_relation (state w') = true
    /\ "ingress" ∈ State.install_state (state w').
Proof.
  intros Hev. destruct (emit_total env (registered w) 0 event w) as [w' H].
  exists w'. split; [exact H|].
  change (6 + 0) with (S 5) in H. rewrite emit_S, (observers_ingress _ _ Hev) in H.
  cbn [notify call] in H. unfold on_ingress_relation_changed in H.
  destruct (emit 5 _ _ _ _) as [w1|] eqn:E; [|done]. simplify_eq.
  apply emit_steps in E. split.
  - by apply steps_has_ingress_stays in E.
  - apply steps_grows in E. apply E. wsimpl. apply elem_of_union_l. by apply elem_of_singleton.
Qed.

Lemma ingress_relation_recorded_witness :
  exists w',
    hook (sample_env sample_config true) IngressRelationCreated (init_world sample_config)
    = Some w'
    /\ State.has_ingress_relation (state w') = true
    /\ "ingress" ∈ State.install_state (state w').
Proof.
  apply (ingress_relation_recorded (sample_env sample_config true)). by right.
Defined.

(** X16: no handler observes ingress-relation-broken: its hook leaves the
    unit as it is, and over any run of hooks [has_ingress_relation], once
    [True], stays [True]. *)
Theorem ingress_relation_never_forgotten (env : Env) (w w' : World) :
  hook env IngressRelationBroken w = Some (log (Emitted IngressRelationBroken) w)
  /\ (rtc (step any_hook) w w' ->
      State.has_ingress_relation (state w) = true ->
      State.has_ingress_relation (state w') = true).
Proof.
  split; [by unfold hook; destruct (registered w)|].
  induction 1 as [|a b c Hab _ IH]; [done|]. intros Ha. apply IH.
  destruct Hab as [env' ev a b _ Hh|ld a]; [|done].
  apply hook_steps in Hh. by apply steps_has_ingress_stays in Hh.
Qed.

(** ** The depth of nested emissions *)

(** X17: the bound of six on nested emissions is reached: on a leader that
    is ready to install and has declared [db_*] options, db-relation-broken
    emits config-changed, which emits the static database event, which
    emits config-changed, which emits the initial setup, which emits
    config-changed; a dispatch bounded by five does not complete. *)
Theorem hook_fuel_reached :
  let env := sample_env sample_config true in
  emit 5 env (registered ready_world) DbRelationBroken ready_world = None
  /\ exists w',
       hook env DbRelationBroken ready_world = Some w'
       /\ emissions (trace w')
          = [DbRelationBroken; ConfigChanged; WordpressStaticDatabaseChanged;
             ConfigChanged; WordpressInitialSetup; ConfigChanged; ConfigChanged].
Proof.
  cbv zeta. split; [by vm_compute|].
  destruct (hook (sample_env sample_config true) DbRelationBroken ready_world)
    as [w'|] eqn:E; [|by vm_compute in E].
  exists w'. split; [done|].
  vm_compute in E. simplify_eq. reflexivity.
Qed.

(** ** The outcome of the install *)

Lemma on_config_changed_leader_data env w :
  leader_data (on_config_changed env w) = leader_data w.
Proof.
  unfold on_config_changed. rewrite is_valid_config_eq.
  destruct (_ && _); cbn [negb]; [|done].
  case_bool_decide; [case_bool_decide|]; done.
Qed.

Lemma refresh_installed_cong env w1 w :
  state w1 = state w -> leader_data w1 = leader_data w ->
  state (refresh_installed env w1) = state (refresh_installed env w)
  /\ leader_data (refresh_installed env w1) = leader_data (refresh_installed env w).
Proof.
  intros Hs Hl. unfold refresh_installed. case_bool_decide; [|done].
  unfold LeadershipSettings.setdefault. rewrite Hl.
  destruct (leader_data w !! "installed"); wsimpl; by rewrite Hs.
Qed.


Lemma refresh_installed_idem env w :
  refresh_installed env (refresh_installed env w) = refresh_installed env w.
Proof.
  unfold refresh_installed. case_bool_decide; [|done].
  unfold LeadershipSettings.setdefault.
  destruct (leader_data w !! "installed") as [v|] eqn:E; wsimpl.
  - by rewrite E.
  - by rewrite lookup_insert_eq.
Qed.



Lemma prim_running env reg top w w' :
  prim env reg top w w' ->
  State.install_state (state w) = install_running ->
  State.install_state (state w') = install_running.
Proof.
  intros H Hr.
  destruct H as [| | | | |w _ Hf _| | | | |tag w Htag|]; wsimpl; try done.
  - rewrite Hr in Hf. by vm_compute in Hf.
  - rewrite Hr. apply set_eq. intros x. rewrite elem_of_union, elem_of_singleton.
    split; [|by right]. intros [->|?]; [|done].
    destruct Htag as [(-> & _)|[->| ->]]; by vm_compute.
Qed.

Lemma steps_running env reg top w w' :
  rtc (prim env reg top) w w' ->
  State.install_state (state w) = install_running ->
  State.install_state (state w') = install_running.
Proof.
  induction 1 as [|a b c Hab _ IH]; [done|].
  intros Ha. apply IH. by apply (prim_running env reg top a b).
Qed.

Lemma begin_install_running w :
  State.install_state (state w) = first_time_ready ->
  State.install_state (state (begin_install w)) = install_running.
Proof. unfold begin_install. wsimpl. intros ->. by vm_compute. Qed.

Lemma effective_installed_cong env w1 w :
  State.installed_successfully (state w1) = State.installed_successfully (state w) ->
  leader_data w1 !! "installed" = leader_data w !! "installed" ->
  effective_installed env w1 = effective_installed env w.
Proof.
  intros Hs Hl. unfold effective_installed, refresh_installed. case_bool_decide; [|done].
  unfold LeadershipSettings.setdefault. rewrite Hl.
  by destruct (leader_data w !! "installed").
Qed.

Lemma emit_trace env reg n ev w w' :
  emit n env reg ev w = Some w' -> exists t, trace w' = trace w ++ Emitted ev :: t.
Proof.
  intros H. apply (emit_body_steps env reg ev) in H; [|by right|by left].
  apply steps_trace in H as [t Ht]. exists t. rewrite Ht. cbn [trace log].
  by rewrite <- app_assoc.
Qed.

Lemma on_config_changed_trace env w :
  exists t, trace (on_config_changed env w) = trace w ++ t.
Proof. apply (steps_trace env true ConfigChanged), on_config_changed_steps. Qed.


(** The gate is open and the static database event is not due: the
    dispatch of [ConfigChanged] is the install. *)
Lemma config_changed_installs_direct env n w w' :
  emit n env true ConfigChanged w = Some w' ->
  static_fires env (state w) = false -> gate_open env w ->
  exists m wi,
    emit m env true WordpressInitialSetup wi = Some w'
    /\ State.install_state (state wi) = install_running
    /\ exists t, trace wi = trace w ++ t.
Proof.
  intros H F [G1 G2]. destruct n as [|n]; [done|].
  rewrite emit_config_changed_eq, on_database_config_changed_eq in H.
  destruct (on_config_changed_trace env (log (Emitted ConfigChanged) w)) as [t1 T1].
  set (w1 := on_config_changed env (log (Emitted ConfigChanged) w)) in *.
  assert (S1 : state w1 = state w) by (unfold w1; by rewrite on_config_changed_state).
  assert (L1 : leader_data w1 = leader_data w)
    by (unfold w1; by rewrite on_config_changed_leader_data).
  clearbody w1. rewrite S1, F in H.
  rewrite on_wordpress_uninitialised_eq in H. cbv zeta in H.
  assert (E1 : State.installed_successfully (state (refresh_installed env w1))
               = effective_installed env w).
  { rewrite <- (effective_installed_cong env w1 w); [done|by rewrite S1|by rewrite L1]. }
  pose proof (refresh_installed_state env w1) as (R1 & _ & R3).
  unfold is_True in H. rewrite E1 in H. rewrite bool_decide_eq_false_2 in H by done.
  rewrite R1, S1, G2 in H.
  rewrite bool_decide_eq_false_2 in H by (by vm_compute).
  rewrite bool_decide_eq_true_2 in H by done.
  exists n, (begin_install (refresh_installed env w1)). split; [done|]. split.
  - apply begin_install_running. by rewrite R1, S1.
  - exists (Emitted ConfigChanged :: t1). unfold begin_install. wsimpl.
    rewrite R3, T1. cbn [trace log]. by rewrite <- app_assoc.
Qed.

Lemma uninitialised_running env em w w' :
  on_wordpress_uninitialised em env w = Some w' ->
  State.install_state (state w) = install_running ->
  w' = refresh_installed env w.
Proof.
  rewrite on_wordpress_uninitialised_eq. cbv zeta. intros H Hr.
  pose proof (refresh_installed_state env w) as (R1 & _).
  rewrite R1, Hr in H. rewrite bool_decide_eq_true_2 in H by done.
  destruct (is_True _); by simplify_eq.
Qed.

(** The gate is open: the dispatch of [ConfigChanged] contains the install,
    and ends with it or with a reading of the replicated flag. *)
Lemma config_changed_installs env n w w' :
  emit n env true ConfigChanged w = Some w' -> gate_open env w ->
  exists m wi wf,
    emit m env true WordpressInitialSetup wi = Some wf
    /\ State.install_state (state wi) = install_running
    /\ (exists t, trace wi = trace w ++ t)
    /\ (w' = wf \/ w' = refresh_installed env wf).
Proof.
  intros H G. destruct (static_fires env (state w)) eqn:F.
  2:{ destruct (config_changed_installs_direct env n w w' H F G) as (m & wi & ? & ? & ?).
      exists m, wi, w'. by repeat split; [..|left]. }
  destruct G as [G1 G2]. destruct n as [|n]; [done|].
  rewrite emit_config_changed_eq, on_database_config_changed_eq in H.
  destruct (on_config_changed_trace env (log (Emitted ConfigChanged) w)) as [t1 T1].
  set (w1 := on_config_changed env (log (Emitted ConfigChanged) w)) in *.
  assert (S1 : state w1 = state w) by (unfold w1; by rewrite on_config_changed_state).
  assert (L1 : leader_data w1 = leader_data w)
    by (unfold w1; by rewrite on_config_changed_leader_data).
  clearbody w1. rewrite S1, F in H.
  destruct (emit n env true WordpressStaticDatabaseChanged w1) as [w2|] eqn:E2; [|done].
  destruct n as [|n2]; [done|]. rewrite emit_static_eq in E2.
  unfold on_database_changed in E2. cbn [event_db] in E2.
  apply config_changed_installs_direct in E2 as (m & wi & E & Hr & t & T).
  - exists m, wi, w2. split; [done|]. split; [done|]. split.
    + exists (Emitted ConfigChanged :: t1 ++ Emitted WordpressStaticDatabaseChanged :: t).
      rewrite T. destruct (is_leader env); wsimpl; rewrite T1; cbn [trace log];
        by rewrite <- !app_assoc.
    + right. apply (uninitialised_running env _ _ _ H).
      apply emit_steps in E. by apply steps_running in E.
  - unfold static_fires. by destruct (is_leader env).
  - split.
    + erewrite effective_installed_cong; [exact G1|..].
      * destruct (is_leader env); wsimpl; by rewrite S1.
      * destruct (is_leader env); wsimpl; unfold LeadershipSettings.setitem;
          rewrite ?lookup_insert_ne by done; by rewrite L1.
    + destruct (is_leader env); wsimpl; rewrite S1, G2; by vm_compute.
Qed.

Lemma installing_trace env m wi wf w w' :
  emit m env true WordpressInitialSetup wi = Some wf ->
  (exists t, trace wi = trace w ++ t) ->
  w' = wf \/ w' = refresh_installed env wf ->
  In (Emitted WordpressInitialSetup) (new_trace w w').
Proof.
  intros [t2 T2]%emit_trace [t T] W.
  assert (Tw : trace w' = trace wf).
  { destruct W as [->| ->]; [done|]. apply refresh_installed_state. }
  rewrite (new_trace_app w w' (t ++ Emitted WordpressInitialSetup :: t2)).
  - apply in_or_app. right. by left.
  - by rewrite Tw, T2, T, <- app_assoc.
Qed.



Lemma write_ok_installed_failing env top w v :
  is_leader env = true -> (forall p, first_install env p = false) ->
  top <> LeaderElected -> write_ok env top w "installed" v -> False.
Proof.
  intros Hl Hf Ht H. remember "installed" as k eqn:Ek.
  destruct H as [k i _ ? _ _|i _ _|ev k v _ _ _ _ _ _ _ Hkv|p Hp|?]; try done.
  - destruct Hkv as [ [-> _] | [ [-> _] | [ [-> _] | [-> _] ] ] ]; done.
  - by rewrite Hf in Hp.
  - congruence.
Qed.

Lemma prim_failed_install env reg top w w' :
  is_leader env = true -> (forall p, first_install env p = false) ->
  top <> LeaderElected -> prim env reg top w w' ->
  State.installed_successfully (state w) = PBool false ->
  State.installed_successfully (state w') = PBool false
  /\ leader_data w' !! "installed" = leader_data w !! "installed".
Proof.
  intros Hl Hf Ht H Hi. split.
  - destruct H as [| | | | | | | | | | |v w _ Hv]; wsimpl; try done.
    destruct Hv as [[p ->]|[? _] ]; [by rewrite Hf|congruence].
  - destruct (prim_leader_data _ _ _ _ _ H "installed") as [E|(v & Hw & _)]; [done|].
    by destruct (write_ok_installed_failing env top w v).
Qed.

Lemma steps_failed_install env reg top w w' :
  is_leader env = true -> (forall p, first_install env p = false) ->
  top <> LeaderElected -> rtc (prim env reg top) w w' ->
  State.installed_successfully (state w) = PBool false ->
  State.installed_successfully (state w') = PBool false
  /\ leader_data w' !! "installed" = leader_data w !! "installed".
Proof.
  intros Hl Hf Ht. induction 1 as [|a b c Hab _ IH]; [done|]. intros Ha.
  destruct (prim_failed_install env reg top a b Hl Hf Ht Hab Ha) as [B1 B2].
  destruct (IH B1) as [C1 C2]. split; [done|congruence].
Qed.

(** X19: the install fails: on a leader whose gate is open, when the HTTP
    installer answers [False], the config-changed hook ends with
    [installed_successfully] [False], nothing replicated under "installed",
    and the install state {"attempted", "ingress", "db", "leader"}, which
    shuts the gate. *)
Theorem install_failure (env : Env) (w : World) :
  is_leader env = true ->
  (forall p, first_install env p = false) ->
  gate_open env w -> registered w = true ->
  exists w',
    hook env ConfigChanged w = Some w'
    /\ State.installed_successfully (state w') = PBool false
    /\ leader_data w' !! "installed" = leader_data w !! "installed"
    /\ State.install_state (state w') = install_running
    /\ In (Emitted WordpressInitialSetup) (new_trace w w')
    /\ ~ gate_open env w'.
Proof.
  intros Hl Hf G R. destruct (emit_total env (registered w) 0 ConfigChanged w) as [w' H].
  exists w'. split; [exact H|].
  assert (Hi : State.installed_successfully (state w) = PBool false).
  { unfold registered, is_False in R. by apply bool_decide_eq_true in R. }
  destruct (steps_failed_install env (registered w) ConfigChanged w w') as [F1 F2];
    [done|done|done|by apply emit_steps in H|done|].
  split; [done|]. split; [done|]. rewrite R in H.
  destruct (config_changed_installs _ _ _ _ H G) as (m & wi & wf & E & Hr & T & W).
  pose proof (steps_running _ _ _ _ _ (emit_steps _ _ _ _ _ _ E) Hr) as Rf.
  assert (Rw : State.install_state (state w') = install_running).
  { destruct W as [->| ->]; [done|]. by rewrite (proj1 (refresh_installed_state env wf)). }
  split; [done|]. split; [by apply (installing_trace env m wi wf)|].
  intros [_ G2]. rewrite Rw in G2. by vm_compute in G2.
Qed.

Lemma install_failure_witness :
  exists w',
    hook failing_install_env ConfigChanged ready_world = Some w'
    /\ State.installed_successfully (state w') = PBool false
    /\ State.install_state (state w') = install_running.
Proof.
  destruct (install_failure failing_install_env ready_world) as (w' & H1 & H2 & _ & H4 & _);
    [reflexivity|done|split; [by vm_compute|reflexivity]|reflexivity|].
  exists w'. split; [exact H1|]. split; [exact H2|exact H4].
Defined.

(** ** Reconciling the workload *)







(** ** The validator's report on the database *)

Lemma py_nonempty_app {A} (l k : list A) : k <> [] -> py_nonempty (l ++ k) = true.
Proof. destruct l, k; done. Qed.

(** X21: unresolved credentials and blank [db_*] options: the validator
    answers [False], and the status that it sets names the four
    options. *)
Theorem blank_database_reported (env : Env) (w : World) :
  db_check env w = false ->
  forallb (blank env) ["db_host"; "db_name"; "db_user"; "db_password"] = true ->
  fst (is_valid_config env w) = false
  /\ missing_fields env w
     = (if blank env "image" then ["image"] else [])
       ++ ["db_host"; "db_name"; "db_user"; "db_password"]
  /\ In (SetStatus (BlockedStatus ("Missing required config or relation: "
                                   +:+ Str.join " " (missing_fields env w))))
        (new_trace w (snd (is_valid_config env w))).
Proof.
  intros Hdb Hb. cbn [forallb] in Hb.
  apply andb_true_iff in Hb as [B1 Hb]. apply andb_true_iff in Hb as [B2 Hb].
  apply andb_true_iff in Hb as [B3 Hb]. apply andb_true_iff in Hb as [B4 _].
  assert (Hm : missing_fields env w
               = (if blank env "image" then ["image"] else [])
                 ++ ["db_host"; "db_name"; "db_user"; "db_password"]).
  { unfold missing_fields, wanted. rewrite Hdb. cbn [List.filter].
    rewrite B1, B2, B3, B4. by destruct (blank env "image"). }
  assert (Hn : py_nonempty (missing_fields env w) = true).
  { rewrite Hm. by apply py_nonempty_app. }
  rewrite is_valid_config_eq. cbn [fst snd]. split; [|split; [done|]].
  - rewrite Hdb. by rewrite andb_false_r.
  - rewrite new_trace_log_all. unfold validator_statuses. rewrite Hn.
    apply in_map, in_or_app. right. apply in_or_app. left. by left.
Qed.

Lemma blank_database_reported_witness :
  let env := sample_env blank_db_config true in
  fst (is_valid_config env (init_world blank_db_config)) = false
  /\ In (SetStatus (BlockedStatus
           "Missing required config or relation: db_host db_name db_user db_password"))
        (new_trace (init_world blank_db_config)
           (snd (is_valid_config env (init_world blank_db_config)))).
Proof.
  cbv zeta.
  destruct (blank_database_reported (sample_env blank_db_config true)
              (init_world blank_db_config)) as (H1 & H2 & H3); [reflexivity..|].
  split; [exact H1|]. rewrite H2 in H3. exact H3.
Defined.

(** ** The initial password on the leader *)

(** X22: the get-initial-password action on the leader: it answers with a
    password, which is the stored one when there is one and a generated one,
    stored in the leadership settings, otherwise. *)
Theorem initial_password_served (env : Env) (w : World) :
  is_leader env = true ->
  (forall i, password_generator env None i <> "") ->
  exists p w',
    hook env GetInitialPasswordAction w = Some w'
    /\ truthy p = true
    /\ new_trace w w' = [Emitted GetInitialPasswordAction;
                         ActionSetResults [("password", p)]]
    /\ LeadershipSettings.getitem (leader_data w') "initial_password" = p
    /\ (truthy (LeadershipSettings.getitem (leader_data w) "initial_password") = true ->
        p = LeadershipSettings.getitem (leader_data w) "initial_password"
        /\ leader_data w' = leader_data w).
Proof.
  intros Hl Hg. unfold hook, hook_fuel. rewrite emit_S.
  replace (observers (registered w) GetInitialPasswordAction)
    with [H_on_get_initial_password_action] by (by destruct (registered w)).
  cbn [notify call]. unfold _on_get_initial_password_action, _get_initial_password.
  rewrite Hl. wsimpl.
  destruct (truthy (LeadershipSettings.getitem (leader_data w) "initial_password")) eqn:T;
    cbn [negb].
  - rewrite T. eexists _, _. split; [done|]. split; [exact T|].
    split; [|done]. apply new_trace_app. wsimpl. by rewrite <- app_assoc.
  - assert (Tg : truthy (PStr (password_generator env None (draws w))) = true).
    { by apply truthy_nonempty. }
    rewrite Tg. eexists _, _. split; [done|]. split; [exact Tg|].
    split; [|split; [|done]].
    + apply new_trace_app. wsimpl. by rewrite <- app_assoc.
    + wsimpl. unfold LeadershipSettings.getitem, LeadershipSettings.setitem.
      by rewrite lookup_insert_eq.
Qed.

Lemma initial_password_served_witness :
  exists p w',
    hook (sample_env sample_config true) GetInitialPasswordAction
      (init_world sample_config) = Some w'
    /\ truthy p = true
    /\ LeadershipSettings.getitem (leader_data w') "initial_password" = p.
Proof.
  destruct (initial_password_served (sample_env sample_config true)
              (init_world sample_config)) as (p & w' & H1 & H2 & _ & H4 & _);
    [reflexivity|by intros i; vm_compute|].
  exists p, w'. split; [exact H1|]. split; [exact H2|exact H4].
Defined.

(** ** Lists in options, and host names *)

Lemma join_cons_head p a l :
  l <> [] -> Str.join p (Str.cons_head a l) = String a (Str.join p l).
Proof. by destruct l as [|h [|h' t]]. Qed.

Lemma join_fields_space s : Str.join " " (Str.fields is_space s) = s.
Proof.
  induction s as [|a s IH]; [done|]. cbn [Str.fields].
  destruct (is_space a) eqn:E.
  - apply Ascii.eqb_eq in E as ->.
    pose proof (fields_nonempty is_space s) as Hne.
    destruct (Str.fields is_space s) as [|h t] eqn:F; [done|].
    cbn [Str.join]. cbn. by rewrite <- IH.
  - rewrite join_cons_head by apply fields_nonempty. by rewrite IH.
Qed.

Lemma fields_space_free s e :
  In e (Str.fields is_space s) -> Str.mem " " e = false.
Proof.
  revert e. induction s as [|a s IH]; intros e.
  - by intros [<-|[]].
  - cbn [Str.fields]. destruct (is_space a) eqn:E.
    + intros [<-|He]; [done|by apply IH].
    + pose proof (fields_nonempty is_space s) as Hne.
      destruct (Str.fields is_space s) as [|h t]; [done|]. cbn [Str.cons_head].
      intros [<-|He].
      * cbn [Str.mem]. unfold is_space in E. rewrite Ascii.eqb_sym, E. apply IH. by left.
      * apply IH. by right.
Qed.

(** X23: [juju_setting_to_list] with its default separator loses nothing:
    joining the entries with a space gives the option back, there is
    always at least one entry, and no entry contains a space. *)
Theorem juju_setting_to_list_join (s : string) :
  Str.join " " (juju_setting_to_list s default_split_char) = s
  /\ juju_setting_to_list s default_split_char <> []
  /\ forall e, In e (juju_setting_to_list s default_split_char) -> Str.mem " " e = false.
Proof.
  rewrite juju_setting_to_list_default. split; [apply join_fields_space|].
  split; [apply fields_nonempty|]. intros e. apply fields_space_free.
Qed.

Lemma unsnoc_spec s s' z :
  Str.unsnoc s = Some (s', z) -> s = s' +:+ String z EmptyString.
Proof.
  revert s' z. induction s as [|a s IH]; intros s' z; [done|]. cbn.
  destruct (Str.unsnoc s) as [[r y]|] eqn:E.
  - intros [= <- <-]. by rewrite (IH r y eq_refl) at 1.
  - intros [= <- <-]. by destruct s as [|b s]; [|cbn in E; destruct (Str.unsnoc s) as [[? ?]|]].
Qed.

Lemma domain_alphabet_hostname_char a :
  Re.alphabet valid_domain_name_pattern a = true -> hostname_char a = true.
Proof. destruct a as [[] [] [] [] [] [] [] []]; vm_compute; congruence. Qed.

Lemma only_in_cls a b c : only a c = true -> Re.in_cls b c = true -> b = a.
Proof.
  unfold only, Re.in_cls. induction c as [|[lo hi] c IH]; [done|]. cbn.
  intros [[H1%Ascii.eqb_eq H2%Ascii.eqb_eq]%andb_true_iff Hc]%andb_true_iff
         [Hin|Hin]%orb_true_iff; [|by apply IH].
  subst lo hi. unfold Re.in_range in Hin. cbn [fst snd] in Hin.
  apply andb_true_iff in Hin as [L1%N.leb_le L2%N.leb_le].
  rewrite <- (ascii_N_embedding a), <- (ascii_N_embedding b). f_equal. lia.
Qed.

Lemma needs_not_nullable a r : needs a r = true -> Re.nullable r = false.
Proof.
  induction r; cbn; try done.
  - intros [H|H]%orb_true_iff; [rewrite IHr1|rewrite IHr2]; try done. apply andb_false_r.
  - intros [H1 H2]%andb_true_iff. by rewrite IHr1, IHr2.
Qed.

Lemma deriv_needs a b r :
  needs a r = true -> b <> a -> needs a (Re.deriv b r) = true.
Proof.
  intros H Hb. induction r; cbn in *; try done.
  - destruct (Re.in_cls b c) eqn:E; [|done]. by destruct Hb; apply (only_in_cls a b c).
  - apply orb_true_iff in H as [H|H].
    + rewrite (IHr1 H). cbn. by rewrite (needs_not_nullable a r1 H).
    + rewrite H, orb_true_r. cbn. destruct (Re.nullable r1); [by apply IHr2|done].
  - apply andb_true_iff in H as [H1 H2]. by rewrite IHr1, IHr2.
Qed.

Lemma accepts_needs a r s :
  needs a r = true -> Re.accepts r s = true -> Str.mem a s = true.
Proof.
  revert r. induction s as [|b s IH]; intros r Hn Hacc; cbn in *.
  - by rewrite (needs_not_nullable a r Hn) in Hacc.
  - destruct (Ascii.eqb a b) eqn:E; [done|]. cbn. apply (IH (Re.deriv b r)); [|done].
    apply deriv_needs; [done|]. intros ->. by rewrite Ascii.eqb_refl in E.
Qed.

(** X24: what [is_valid_config] accepts as a host name: a string of
    lower-case letters, digits, hyphens and dots with at least one dot,
    possibly followed by one newline. *)
Theorem hostname_shape (h : string) :
  hostname_match h = true ->
  exists core,
    (h = core \/ h = core +:+ String "010"%char EmptyString)
    /\ (forall a, Str.mem a core = true -> hostname_char a = true)
    /\ Str.mem "."%char core = true.
Proof.
  unfold hostname_match, Re.match_anchored.
  assert (Hcore : forall core, Re.accepts valid_domain_name_pattern core = true ->
            (forall a, Str.mem a core = true -> hostname_char a = true)
            /\ Str.mem "."%char core = true).
  { intros core Hacc. split.
    - intros a Ha. by eapply domain_alphabet_hostname_char, accepts_alphabet.
    - by apply (accepts_needs "."%char valid_domain_name_pattern). }
  intros [H|H]%orb_true_iff.
  - exists h. split; [by left|by apply Hcore].
  - destruct (Str.unsnoc h) as [[core z]|] eqn:U; [|done].
    apply andb_true_iff in H as [Hz%Ascii.eqb_eq Hacc]. subst z.
    exists core. split; [right; by apply unsnoc_spec|by apply Hcore].
Qed.

Lemma hostname_shape_witness :
  exists core,
    ("a-b.example.io" = core \/ "a-b.example.io" = core +:+ String "010"%char EmptyString)
    /\ (forall a, Str.mem a core = true -> hostname_char a = true)
    /\ Str.mem "."%char core = true.
Proof. apply (hostname_shape "a-b.example.io"). reflexivity. Defined.

(** ** The environment of the workload and the ingress *)

(** X25: the database settings win: whatever [container_config], the
    secrets and the plugin options put in the environment, the four
    [WORDPRESS_DB_*] variables hold the resolved credentials, those of the
    state on the leader and the replicated ones on a follower. *)
Theorem env_config_database_wins (env : Env) (w : World) (k : string) (v : pyval) :
  In (k, v) (_db_config env w) -> _env_config env w !! k = Some v.
Proof.
  unfold _env_config. cbv zeta.
  match goal with |- _ -> dict_update _ ?d !! _ = _ => generalize d end.
  intros d. unfold _db_config, dict_update.
  destruct (is_leader env); cbn [foldl fst snd];
    intros [ [= <- <-] | [ [= <- <-] | [ [= <- <-] | [ [= <- <-] | [] ] ] ] ];
    repeat (rewrite lookup_insert_ne by done); by rewrite lookup_insert_eq.
Qed.

Lemma env_config_database_wins_witness :
  _env_config (sample_env sample_config true) (init_world sample_config)
    !! "WORDPRESS_DB_HOST" = Some (PStr "10.0.0.5").
Proof.
  apply (env_config_database_wins (sample_env sample_config true)
           (init_world sample_config)).
  by left.
Defined.

(** X26: the ingress configuration: the host name, the name of the
    application and the port are always there; "tls-secret-name" is there
    exactly when the option is not empty. *)
Theorem ingress_config_keys (env : Env) :
  ingress_config env !! "service-hostname" = Some (PStr (Config.blog_hostname (config env)))
  /\ ingress_config env !! "service-name" = Some (PStr (app_name env))
  /\ ingress_config env !! "service-port" = Some (PInt 80)
  /\ ingress_config env !! "tls-secret-name"
     = (if String.eqb (Config.tls_secret_name (config env)) ""
        then None else Some (PStr (Config.tls_secret_name (config env)))).
Proof.
  unfold ingress_config. cbv zeta.
  destruct (Config.tls_secret_name (config env)) as [|a s]; cbn [truthy String.eqb];
    repeat split;
    repeat (rewrite lookup_insert_ne by done);
    rewrite ?lookup_insert_eq, ?lookup_empty; reflexivity.
Qed.
